(** * setup.py: the dotfiles bootstrap script, embedded and verified

    The script links configuration files from a dotfiles directory into
    their places under the home directory and installs editor extensions.
    Its methods are embedded as computations in a state-and-exception
    monad over a [world]: the file system, the log, the trace of external
    commands, standard input and the fields of the manager object.

    Library calls ([os], [os.path], [shutil], [subprocess]) are modelled
    after CPython on a POSIX host:
    - the file system is a finite map from path strings to a file, a
      directory or a symbolic link; paths are taken as written, and links
      are followed at the last component only, as [os.path.exists] and
      [os.path.isdir] do; permissions and devices are not modelled;
    - [os.path] is [posixpath] on every host; of a Windows host only the
      [is_windows] branches of the script are modelled;
    - what an external command does is given by the [host]: whether it
      can be started, its exit status, and the file system it leaves. *)

From Stdlib Require Import ZArith Ascii String.
From stdpp Require Import gmap strings list fin_maps.

Local Open Scope string_scope.

(* ===================================================================== *)
(** ** posixpath: pure string functions                                   *)
(* ===================================================================== *)

Module PosixPath.

Definition sep : ascii := "/"%char.

Definition is_sep (c : ascii) : bool := bool_decide (c = sep).

Definition nonempty (s : string) : bool :=
  match s with EmptyString => false | String _ _ => true end.

(** [p[:i], p[i:]] for [i = p.rfind('/') + 1]. *)
Fixpoint cut (p : string) : string * string :=
  match p with
  | EmptyString => (EmptyString, EmptyString)
  | String c r =>
      let '(h, t) := cut r in
      if nonempty h then (String c h, t)
      else if is_sep c then (String c EmptyString, r)
      else (EmptyString, String c r)
  end.

(** [head == '/' * len(head)] *)
Fixpoint all_seps (s : string) : bool :=
  match s with
  | EmptyString => true
  | String c r => is_sep c && all_seps r
  end.

(** [s.rstrip('/')] *)
Fixpoint rstrip_sep (s : string) : string :=
  match s with
  | EmptyString => EmptyString
  | String c r =>
      let r' := rstrip_sep r in
      if is_sep c && negb (nonempty r') then EmptyString else String c r'
  end.

(** A string without a separator. *)
Fixpoint no_sep (s : string) : bool :=
  match s with
  | EmptyString => true
  | String c r => negb (is_sep c) && no_sep r
  end.

(** [posixpath.split] *)
Definition split (p : string) : string * string :=
  let '(head, tail) := cut p in
  if nonempty head && negb (all_seps head)
  then (rstrip_sep head, tail) else (head, tail).

Definition dirname (p : string) : string := fst (split p).

Definition basename (p : string) : string := snd (cut p).

Definition startswith_sep (s : string) : bool :=
  match s with String c _ => is_sep c | EmptyString => false end.

Fixpoint endswith_sep (s : string) : bool :=
  match s with
  | EmptyString => false
  | String c EmptyString => is_sep c
  | String _ r => endswith_sep r
  end.

(** One round of the loop of [posixpath.join]. *)
Definition join2 (path b : string) : string :=
  if startswith_sep b then b
  else if negb (nonempty path) || endswith_sep path then path +:+ b
  else path +:+ "/" +:+ b.

(** [os.path.join(a, *p)] *)
Definition join (a : string) (p : list string) : string :=
  fold_left join2 p a.

(** [pre] is a prefix of [s]: the rest of [s]. *)
Fixpoint strip_prefix (pre s : string) : option string :=
  match pre, s with
  | EmptyString, _ => Some s
  | String a pre', String b s' =>
      if bool_decide (a = b) then strip_prefix pre' s' else None
  | String _ _, EmptyString => None
  end.

(** [k] names an entry strictly below the directory [d]. *)
Definition under (d k : string) : bool :=
  match strip_prefix d k with
  | Some (String c _) => is_sep c
  | _ => false
  end.

(** [k] is [d] or below it. *)
Definition in_tree (d k : string) : bool :=
  bool_decide (k = d) || under d k.

End PosixPath.


(* ===================================================================== *)
(** ** The world the script runs in                                       *)
(* ===================================================================== *)

(** What a path names. A directory's entries are the paths below it. *)
Inductive node :=
| File (content : string)
| Dir
| Link (dest : string).

#[global] Instance node_eq_dec : EqDecision node.
Proof. solve_decision. Defined.

(** The exceptions the modelled library calls raise. All of them derive
    from [Exception]; the first six derive from [OSError]. *)
Inductive exn :=
| FileNotFoundError (path : string)
| FileExistsError (path : string)
| NotADirectoryError (path : string)
| IsADirectoryError (path : string)
| OSError (errno : string) (path : string)
| ShutilError (msg : string)
| CalledProcessError (cmd : list string) (status : Z)
| RuntimeError (msg : string)
| EOFError.

Definition is_OSError (e : exn) : bool :=
  match e with
  | FileNotFoundError _ | FileExistsError _ | NotADirectoryError _
  | IsADirectoryError _ | OSError _ _ | ShutilError _ => true
  | _ => false
  end.

Definition is_CalledProcessError (e : exn) : bool :=
  match e with CalledProcessError _ _ => true | _ => false end.

Inductive level := INFO | ERROR.

(** One call of [logger.info] or [logger.error]: the text, and the
    exception whose [str] the text ends with, if any. *)
Record log_record := LogRecord {
  log_level : level;
  log_text : string;
  log_exc : option exn
}.

(** An external command: [subprocess.run] takes an argument list,
    [os.system] a shell command line. *)
Inductive command :=
| Argv (args : list string)
| Shell (line : string).

(** How an external command ends: with an exit status, or it could not
    be started at all. *)
Inductive outcome :=
| Exited (status : Z)
| NotStarted (e : exn).

(** The fields [__init__] assigns on the manager object. Its [logger]
    attribute carries no value here: what is logged is in the world. *)
Record manager := Manager {
  home : string;
  dotfiles_path : string;
  is_windows : bool;
  is_macos : bool
}.

(** [assigned] lists the attributes of the manager object in the order
    they were assigned. *)
Record world := World {
  fs : gmap string node;
  log : list log_record;
  trace : list command;
  stdin : list string;
  self : manager;
  assigned : list string
}.

(** What the script asks of the machine it runs on. External commands
    may change the file system in any way. *)
Record host := Host {
  path_home : option string;
  platform_system : string;
  getenv_DOTFILES_PATH : option string;
  which : string -> option string;
  execute : command -> gmap string node -> outcome * gmap string node
}.

(* ===================================================================== *)
(** ** State and exceptions                                               *)
(* ===================================================================== *)

Inductive result (A : Type) :=
| Ok (a : A)
| Raise (e : exn).
Arguments Ok {A} a.
Arguments Raise {A} e.

Definition M (A : Type) : Type := world -> result A * world.

Definition ret {A} (a : A) : M A := fun w => (Ok a, w).

Definition raise {A} (e : exn) : M A := fun w => (Raise e, w).

Definition bind {A B} (m : M A) (k : A -> M B) : M B :=
  fun w => match m w with
           | (Ok a, w') => k a w'
           | (Raise e, w') => (Raise e, w')
           end.

(** [try: m  except <handles>: handler(e)] *)
Definition try_except {A} (m : M A) (handles : exn -> bool)
    (handler : exn -> M A) : M A :=
  fun w => match m w with
           | (Ok a, w') => (Ok a, w')
           | (Raise e, w') =>
               if handles e then handler e w' else (Raise e, w')
           end.

Notation "x <- m ;; k" := (bind m (fun x => k))
  (at level 100, m at next level, right associativity).
Notation "m ;; k" := (bind m (fun _ => k))
  (at level 100, right associativity).

Definition when_ (b : bool) (m : M unit) : M unit :=
  if b then m else ret tt.

(** [for x in xs: body(x)] *)
Fixpoint for_each {A} (xs : list A) (body : A -> M unit) : M unit :=
  match xs with
  | [] => ret tt
  | x :: xs' => body x ;; for_each xs' body
  end.

Definition with_fs (m : gmap string node) (w : world) : world :=
  World m (log w) (trace w) (stdin w) (self w) (assigned w).

Definition add_log (r : log_record) (w : world) : world :=
  World (fs w) (log w ++ [r]) (trace w) (stdin w) (self w) (assigned w).

Definition get_fs : M (gmap string node) := fun w => (Ok (fs w), w).

Definition put_fs (m : gmap string node) : M unit :=
  fun w => (Ok tt, with_fs m w).

Definition get_self : M manager := fun w => (Ok (self w), w).

(** [self.<name> = ...] *)
Definition set_attr (name : string) (update : manager -> manager) : M unit :=
  fun w => (Ok tt, World (fs w) (log w) (trace w) (stdin w) (update (self w))
                         (assigned w ++ [name])).

Definition emit (r : log_record) : M unit :=
  fun w => (Ok tt, add_log r w).

Definition logger_info (text : string) : M unit :=
  emit (LogRecord INFO text None).

Definition logger_error (text : string) (exc : option exn) : M unit :=
  emit (LogRecord ERROR text exc).

(** The records [create_symlink] and [backup_existing_config] leave in
    the log. *)
Definition created (source target : string) : log_record :=
  LogRecord INFO ("Created symlink: " +:+ target +:+ " -> " +:+ source) None.

Definition backed_up (target : string) : log_record :=
  LogRecord INFO ("Backed up existing config: " +:+ target +:+ ".backup") None.

Definition failed (e : exn) : log_record :=
  LogRecord ERROR "Failed to create symlink: " (Some e).

(** A file-system call that either fails or yields a new file system. *)
Definition fs_call (f : gmap string node -> result (gmap string node)) : M unit :=
  fun w => match f (fs w) with
           | Ok m => put_fs m w
           | Raise e => (Raise e, w)
           end.

(* ===================================================================== *)
(** ** os.path queries on the file system                                 *)
(* ===================================================================== *)

Module Fs.
Import PosixPath.

(** Where the destination of the link at [p] is looked up. *)
Definition link_dest (p dest : string) : string :=
  if startswith_sep dest then dest else join2 (dirname p) dest.

(** The kernel gives up after 40 links ([ELOOP]). *)
Definition max_links : nat := 40.

(** Follow the links at [p]: the path reached and what it names. *)
Fixpoint follow (fuel : nat) (m : gmap string node) (p : string)
    : option (string * node) :=
  match m !! p with
  | None => None
  | Some (Link d) =>
      match fuel with
      | O => None
      | S fuel' => follow fuel' m (link_dest p d)
      end
  | Some n => Some (p, n)
  end.

(** Follow the links at [p] to the path a write through [p] lands on. *)
Fixpoint final_path (fuel : nat) (m : gmap string node) (p : string)
    : option string :=
  match m !! p with
  | Some (Link d) =>
      match fuel with
      | O => None
      | S fuel' => final_path fuel' m (link_dest p d)
      end
  | _ => Some p
  end.

Definition stat (m : gmap string node) (p : string) : option (string * node) :=
  follow max_links m p.

(** [os.path.exists]: follows links, false for a dangling link. *)
Definition path_exists (m : gmap string node) (p : string) : bool :=
  match stat m p with Some _ => true | None => false end.

(** [os.path.lexists] *)
Definition lexists (m : gmap string node) (p : string) : bool :=
  match m !! p with Some _ => true | None => false end.

(** [os.path.islink] *)
Definition islink (m : gmap string node) (p : string) : bool :=
  match m !! p with Some (Link _) => true | _ => false end.

(** [os.path.isdir]: follows links. *)
Definition isdir (m : gmap string node) (p : string) : bool :=
  match stat m p with Some (_, Dir) => true | _ => false end.

(** [os.path.samefile], false where a [stat] fails. *)
Definition samefile (m : gmap string node) (p q : string) : bool :=
  match stat m p, stat m q with
  | Some (p', _), Some (q', _) => bool_decide (p' = q')
  | _, _ => false
  end.

(** The directory a new entry [p] goes into exists. A path without a
    directory part is relative to the current directory. *)
Definition parent_ok (m : gmap string node) (p : string) : bool :=
  negb (nonempty (dirname p)) || isdir m (dirname p).

(** The error of a call on [p] whose parent directory is not there. *)
Definition parent_error (m : gmap string node) (p : string) : exn :=
  if path_exists m (dirname p) then NotADirectoryError p
  else FileNotFoundError p.

(** Every entry other than the root sits in a directory, and the empty
    path names nothing. *)
Definition well_formed (m : gmap string node) : Prop :=
  m !! "" = None /\
  map_Forall (fun p _ => dirname p = p \/ dirname p = "" \/
                         m !! dirname p = Some Dir) m.

(** [p] names a place in a directory that is there. *)
Definition in_directory (m : gmap string node) (p : string) : Prop :=
  dirname p <> p /\ m !! dirname p = Some Dir.

(** The last name of [name], as [os.makedirs] splits it off. *)
Definition leaf (name : string) : string :=
  let '(head, tail) := split name in
  if nonempty tail then tail else snd (split head).

(** [d] is a directory, or [os.makedirs] can make it: the nearest
    ancestor of [d] that is there is a directory, fewer than [fuel]
    levels up, and no name to make is empty or [.]. *)
Fixpoint can_make (fuel : nat) (m : gmap string node) (d : string) : bool :=
  match fuel with
  | O => false
  | S fuel' =>
      match m !! d with
      | Some Dir => true
      | Some _ => false
      | None =>
          nonempty (basename d) && negb (bool_decide (basename d = "."))
          && (negb (nonempty (dirname d)) || can_make fuel' m (dirname d))
      end
  end.

(** The entries of [m] at and below [src], re-rooted at [dst]. *)
Definition rekey (src dst : string) (m : gmap string node) : gmap string node :=
  map_fold (fun k v acc =>
              match strip_prefix src k with
              | Some r => if in_tree src k then <[dst +:+ r := v]> acc else acc
              | None => acc
              end) ∅ m.

(** The tree at [src] becomes the tree at [dst], replacing what was there. *)
Definition move_tree (src dst : string) (m : gmap string node)
    : gmap string node :=
  rekey src dst m ∪
  filter (fun kv => ¬ Is_true (in_tree src kv.1) ∧ ¬ Is_true (in_tree dst kv.1)) m.

(** A directory without entries. *)
Definition dir_empty (m : gmap string node) (d : string) : bool :=
  bool_decide (map_Forall (fun k _ => ¬ Is_true (under d k)) m).

End Fs.

#[global] Instance well_formed_dec (m : gmap string node) :
  Decision (Fs.well_formed m).
Proof. unfold Fs.well_formed. apply _. Defined.

#[global] Instance in_directory_dec (m : gmap string node) (p : string) :
  Decision (Fs.in_directory m p).
Proof. unfold Fs.in_directory. apply _. Defined.


(* ===================================================================== *)
(** ** os and shutil: calls that change the file system                   *)
(* ===================================================================== *)

Module Os.
Import PosixPath Fs.

(** [os.mkdir(p)] *)
Definition mkdir (p : string) (m : gmap string node)
    : result (gmap string node) :=
  if negb (nonempty p) then Raise (FileNotFoundError p)
  else if lexists m p then Raise (FileExistsError p)
  else if negb (parent_ok m p) then Raise (parent_error m p)
  else Ok (<[p := Dir]> m).

Definition is_FileExistsError (e : exn) : bool :=
  match e with FileExistsError _ => true | _ => false end.

(** [os.makedirs(name, exist_ok=...)], the recursion of the library
    bounded by [fuel]; Python stops a deeper one with [RecursionError],
    a [RuntimeError]. *)
Fixpoint makedirs_rec (fuel : nat) (name : string) (exist_ok : bool) : M unit :=
  match fuel with
  | O => raise (RuntimeError "maximum recursion depth exceeded")
  | S fuel' =>
      let '(head, tail) := split name in
      let '(head, tail) := if nonempty tail then (head, tail) else split head in
      let make : M unit :=
        try_except (fs_call (mkdir name)) is_OSError
          (fun e =>
             m1 <- get_fs ;;
             if negb exist_ok || negb (isdir m1 name) then raise e else ret tt) in
      m <- get_fs ;;
      if nonempty head && nonempty tail && negb (path_exists m head) then
        try_except (makedirs_rec fuel' head exist_ok) is_FileExistsError
          (fun _ => ret tt) ;;
        if bool_decide (tail = ".") then ret tt else make
      else make
  end.

(** Python's default recursion limit. *)
Definition recursion_limit : nat := 1000.

Definition makedirs (name : string) (exist_ok : bool) : M unit :=
  makedirs_rec recursion_limit name exist_ok.

(** [os.unlink(p)] *)
Definition unlink (p : string) (m : gmap string node)
    : result (gmap string node) :=
  match m !! p with
  | None => Raise (FileNotFoundError p)
  | Some Dir => Raise (IsADirectoryError p)
  | Some _ => Ok (delete p m)
  end.

(** [os.symlink(src, dst)] *)
Definition symlink (src dst : string) (m : gmap string node)
    : result (gmap string node) :=
  if negb (nonempty src) then Raise (FileNotFoundError dst)
  else if lexists m dst then Raise (FileExistsError dst)
  else if negb (parent_ok m dst) then Raise (parent_error m dst)
  else Ok (<[dst := Link src]> m).

(** [os.rename(src, dst)], as rename(2) on one file system. *)
Definition rename (src dst : string) (m : gmap string node)
    : result (gmap string node) :=
  match m !! src with
  | None => Raise (FileNotFoundError src)
  | Some n =>
      if negb (nonempty dst) then Raise (FileNotFoundError dst)
      else if negb (parent_ok m dst) then Raise (parent_error m dst)
      else if bool_decide (src = dst) then Ok m
      else if under src dst then Raise (OSError "EINVAL" dst)
      else
        match n, m !! dst with
        | Dir, None => Ok (move_tree src dst m)
        | Dir, Some Dir =>
            if dir_empty m dst then Ok (move_tree src dst m)
            else Raise (OSError "ENOTEMPTY" dst)
        | Dir, Some _ => Raise (NotADirectoryError dst)
        | _, Some Dir => Raise (IsADirectoryError dst)
        | _, _ => Ok (<[dst := n]> (delete src m))
        end
  end.

(** Writing a regular file through [p], as [open(p, 'wb')] does. *)
Definition write_file (p content : string) (m : gmap string node)
    : result (gmap string node) :=
  match final_path max_links m p with
  | None => Raise (OSError "ELOOP" p)
  | Some q =>
      match m !! q with
      | Some Dir => Raise (IsADirectoryError p)
      | _ =>
          if negb (nonempty q) then Raise (FileNotFoundError p)
          else if negb (parent_ok m q) then Raise (parent_error m q)
          else Ok (<[q := File content]> m)
      end
  end.

(** [shutil.copy2(src, dst)] for a regular file [src]. *)
Definition copy2 (src dst : string) (m : gmap string node)
    : result (gmap string node) :=
  match stat m src with
  | Some (_, File c) => write_file dst c m
  | Some (_, _) => Raise (IsADirectoryError src)
  | None => Raise (FileNotFoundError src)
  end.

(** [shutil.copytree(src, dst, symlinks=True)] followed by
    [shutil.rmtree(src)]: [dst] must not be there. *)
Definition copytree_rmtree (src dst : string) : M unit :=
  makedirs dst false ;;
  fs_call (fun m => Ok (move_tree src dst m)).

(** [shutil._basename] *)
Definition shutil_basename (p : string) : string := basename (rstrip_sep p).

(** [shutil._destinsrc] *)
Definition destinsrc (src dst : string) : bool :=
  let src' := if endswith_sep src then src else src +:+ "/" in
  let dst' := if endswith_sep dst then dst else dst +:+ "/" in
  match strip_prefix src' dst' with Some _ => true | None => false end.

(** The [except OSError] branch of [shutil.move]. *)
Definition move_fallback (src dst real_dst : string) : M unit :=
  m <- get_fs ;;
  match m !! src with
  | Some (Link linkto) =>
      fs_call (symlink linkto real_dst) ;;
      fs_call (unlink src)
  | _ =>
      if isdir m src then
        if destinsrc src dst
        then raise (ShutilError "Cannot move a directory into itself")
        else copytree_rmtree src real_dst
      else
        fs_call (copy2 src real_dst) ;;
        fs_call (unlink src)
  end.

(** [shutil.move(src, dst)] *)
Definition move (src dst : string) : M string :=
  m <- get_fs ;;
  if isdir m dst then
    if samefile m src dst && negb (islink m src) then
      fs_call (rename src dst) ;;
      ret dst
    else
      let real_dst := join dst [shutil_basename src] in
      if path_exists m real_dst
      then raise (ShutilError "Destination path already exists")
      else
        try_except (fs_call (rename src real_dst)) is_OSError
          (fun _ => move_fallback src dst real_dst) ;;
        ret real_dst
  else
    try_except (fs_call (rename src dst)) is_OSError
      (fun _ => move_fallback src dst dst) ;;
    ret dst.

End Os.

(* ===================================================================== *)
(** ** Text: lines of a file, [str.strip], [str.join]                     *)
(* ===================================================================== *)

Module Text.

Definition LF : ascii := ascii_of_nat 10.
Definition CR : ascii := ascii_of_nat 13.

(** The double quote, as a string. *)
Definition dquote : string := String (ascii_of_nat 34) EmptyString.

(** Text mode reads ["\r\n"] and ["\r"] as ["\n"]. *)
Fixpoint universal_newlines (s : string) : string :=
  match s with
  | EmptyString => EmptyString
  | String c r =>
      if bool_decide (c = CR) then
        String LF match r with
                  | String c2 r2 =>
                      if bool_decide (c2 = LF) then universal_newlines r2
                      else universal_newlines r
                  | EmptyString => EmptyString
                  end
      else String c (universal_newlines r)
  end.

(** The lines of a text, each with its ["\n"] when it has one. *)
Fixpoint lines (s : string) : list string :=
  match s with
  | EmptyString => []
  | String c r =>
      if bool_decide (c = LF) then String c EmptyString :: lines r
      else match lines r with
           | l :: ls => String c l :: ls
           | [] => [String c EmptyString]
           end
  end.

(** What iterating over a file opened in text mode yields. *)
Definition readlines (content : string) : list string :=
  lines (universal_newlines content).

(** [str.isspace] on one character. *)
Definition isspace (c : ascii) : bool :=
  let n := nat_of_ascii c in
  ((9 <=? n) && (n <=? 13) || (28 <=? n) && (n <=? 32)
   || (n =? 133) || (n =? 160))%nat.

Fixpoint lstrip (s : string) : string :=
  match s with
  | EmptyString => EmptyString
  | String c r => if isspace c then lstrip r else s
  end.

Fixpoint rstrip (s : string) : string :=
  match s with
  | EmptyString => EmptyString
  | String c r =>
      match rstrip r with
      | EmptyString => if isspace c then EmptyString else String c EmptyString
      | r' => String c r'
      end
  end.

(** [s.strip()] *)
Definition strip (s : string) : string := rstrip (lstrip s).

(** [sep.join(parts)] *)
Definition str_join (sep : string) (parts : list string) : string :=
  String.concat sep parts.

(** Truth of a string: the empty one is false. *)
Definition truthy (s : string) : bool :=
  match s with EmptyString => false | String _ _ => true end.

End Text.

(* ===================================================================== *)
(** ** Calls that leave the process                                       *)
(* ===================================================================== *)

Section HostCalls.
Variable h : host.

(** Run an external command: it is recorded in the trace, and where it
    ran, the file system is what it left behind. *)
Definition spawn (c : command) : M outcome :=
  fun w =>
    let '(o, m') := execute h c (fs w) in
    let m := match o with Exited _ => m' | NotStarted _ => fs w end in
    (Ok o, World m (log w) (trace w ++ [c]) (stdin w) (self w) (assigned w)).

(** [subprocess.run(command, check=True)] *)
Definition subprocess_run_check (command : list string) : M unit :=
  o <- spawn (Argv command) ;;
  match o with
  | Exited 0 => ret tt
  | Exited status => raise (CalledProcessError command status)
  | NotStarted e => raise e
  end.

(** [os.system(line)]: the status of the shell, never an exception. *)
Definition os_system (line : string) : M Z :=
  o <- spawn (Shell line) ;;
  match o with
  | Exited status => ret status
  | NotStarted _ => ret (-1)%Z
  end.

(** [input(prompt)] *)
Definition input (prompt : string) : M string :=
  fun w =>
    match stdin w with
    | [] => (Raise EOFError, w)
    | l :: rest =>
        (Ok l, World (fs w) (log w) (trace w) rest (self w) (assigned w))
    end.

(** [str(Path.home())] *)
Definition Path_home : M string :=
  match path_home h with
  | Some p => ret p
  | None => raise (RuntimeError "Could not determine home directory.")
  end.

(** [with open(path) as f: for line in f], the lines read at once. *)
Definition open_lines (path : string) : M (list string) :=
  m <- get_fs ;;
  match Fs.stat m path with
  | Some (_, File c) => ret (Text.readlines c)
  | Some (_, _) => raise (IsADirectoryError path)
  | None => raise (FileNotFoundError path)
  end.

End HostCalls.

(* ===================================================================== *)
(** ** class DevEnvironmentManager                                        *)
(* ===================================================================== *)

Section DevEnvironmentManager.
Variable h : host.
Import PosixPath.

Definition __init__ (dotfiles_path_arg : option string) : M unit :=
  hm <- Path_home h ;;
  set_attr "home"
    (fun s => Manager hm (dotfiles_path s) (is_windows s) (is_macos s)) ;;
  s <- get_self ;;
  let dp := match dotfiles_path_arg with
            | Some d => if Text.truthy d then d else join (home s) ["dotfiles"]
            | None => join (home s) ["dotfiles"]
            end in
  set_attr "dotfiles_path"
    (fun s => Manager (home s) dp (is_windows s) (is_macos s)) ;;
  set_attr "is_windows"
    (fun s => Manager (home s) (dotfiles_path s)
                (bool_decide (platform_system h = "Windows")) (is_macos s)) ;;
  set_attr "is_macos"
    (fun s => Manager (home s) (dotfiles_path s) (is_windows s)
                (bool_decide (platform_system h = "Darwin"))) ;;
  set_attr "logger" (fun s => s).

Definition run_command (command : list string) : M bool :=
  try_except
    (subprocess_run_check h command ;;
     ret true)
    is_CalledProcessError
    (fun e =>
       logger_error ("Command failed: " +:+ Text.str_join " " command) None ;;
       logger_error "Error: " (Some e) ;;
       ret false).

Definition backup_existing_config (config_path : string) : M unit :=
  m <- get_fs ;;
  if Fs.path_exists m config_path then
    let backup_path := config_path +:+ ".backup" in
    Os.move config_path backup_path ;;
    logger_info ("Backed up existing config: " +:+ backup_path)
  else ret tt.

Definition mklink_dir (source target : string) : string :=
  "mklink /D " +:+ Text.dquote +:+ target +:+ Text.dquote +:+ " "
  +:+ Text.dquote +:+ source +:+ Text.dquote.

Definition mklink_file (source target : string) : string :=
  "mklink " +:+ Text.dquote +:+ target +:+ Text.dquote +:+ " "
  +:+ Text.dquote +:+ source +:+ Text.dquote.

(** The body of the [try] in [create_symlink]. *)
Definition create_symlink_body (source target : string) : M unit :=
  (* Ensure parent directory exists *)
  Os.makedirs (dirname target) true ;;
  (* Remove existing symlink or file *)
  m <- get_fs ;;
  (if Fs.path_exists m target then
     if Fs.islink m target then fs_call (Os.unlink target)
     else backup_existing_config target
   else ret tt) ;;
  (* Create the symlink *)
  s <- get_self ;;
  (if is_windows s then
     m <- get_fs ;;
     if Fs.isdir m source then
       os_system h (mklink_dir source target) ;;
       ret tt
     else
       os_system h (mklink_file source target) ;;
       ret tt
   else fs_call (Os.symlink source target)) ;;
  logger_info ("Created symlink: " +:+ target +:+ " -> " +:+ source).

Definition create_symlink (source target : string) : M unit :=
  try_except (create_symlink_body source target) (fun _ => true)
    (fun e => logger_error "Failed to create symlink: " (Some e)).

Definition brew_install : string :=
  "/bin/bash -c " +:+ Text.dquote
  +:+ "$(curl -fsSL https://raw.githubusercontent.com/Homebrew/install/HEAD/install.sh)"
  +:+ Text.dquote.

Definition packages : list string :=
  ["python3"; "git"; "visual-studio-code"; "iterm2"; "zsh"].

Definition install_packages : M unit :=
  logger_info "Installing necessary packages..." ;;
  s <- get_self ;;
  if is_macos s then
    (* Check if Homebrew is installed *)
    (match which h "brew" with
     | Some _ => ret tt
     | None =>
         logger_info "Installing Homebrew..." ;;
         os_system h brew_install ;;
         ret tt
     end) ;;
    (* Install packages *)
    for_each packages (fun package =>
      run_command ["brew"; "install"; package] ;;
      ret tt)
  else if is_windows s then
    logger_info "Please ensure you have the following installed:" ;;
    logger_info "1. Python (from python.org)" ;;
    logger_info "2. Git (from git-scm.com)" ;;
    logger_info "3. VS Code (from code.visualstudio.com)" ;;
    input "Press Enter when ready to continue..." ;;
    ret tt
  else ret tt.

Definition vscode_config_path (s : manager) : string :=
  if is_windows s
  then join (home s) ["AppData"; "Roaming"; "Code"; "User"]
  else join (home s) ["Library"; "Application Support"; "Code"; "User"].

Definition extensions_file (s : manager) : string :=
  join (dotfiles_path s) ["vscode"; "extensions.txt"].

(** The first half of [setup_vscode]: the three links. *)
Definition link_vscode_settings : M unit :=
  logger_info "Setting up VS Code..." ;;
  s <- get_self ;;
  let settings_source := join (dotfiles_path s) ["vscode"; "settings.json"] in
  let keybindings_source := join (dotfiles_path s) ["vscode"; "keybindings.json"] in
  let snippets_source := join (dotfiles_path s) ["vscode"; "snippets"] in
  create_symlink settings_source (join (vscode_config_path s) ["settings.json"]) ;;
  create_symlink keybindings_source
    (join (vscode_config_path s) ["keybindings.json"]) ;;
  create_symlink snippets_source (join (vscode_config_path s) ["snippets"]).

(** The loop over the lines of the extensions file. *)
Definition install_each (exts : list string) : M unit :=
  for_each exts (fun ext =>
    let ext := Text.strip ext in
    if Text.truthy ext then
      run_command ["code"; "--install-extension"; ext] ;;
      ret tt
    else ret tt).

(** The second half of [setup_vscode]: install extensions. *)
Definition install_extensions : M unit :=
  s <- get_self ;;
  m <- get_fs ;;
  if Fs.path_exists m (extensions_file s) then
    exts <- open_lines (extensions_file s) ;;
    install_each exts
  else ret tt.

Definition setup_vscode : M unit :=
  link_vscode_settings ;;
  install_extensions.

Definition setup_python_env : M unit :=
  logger_info "Setting up Python environment..." ;;
  s <- get_self ;;
  let requirements_file := join (dotfiles_path s) ["python"; "requirements.txt"] in
  m <- get_fs ;;
  (if Fs.path_exists m requirements_file then
     run_command ["pip"; "install"; "-r"; requirements_file] ;;
     ret tt
   else ret tt) ;;
  (* Create and configure virtual environment if needed *)
  let venv_path := join (dotfiles_path s) ["python"; "venv"] in
  m <- get_fs ;;
  if negb (Fs.path_exists m venv_path) then
    run_command ["python"; "-m"; "venv"; venv_path] ;;
    ret tt
  else ret tt.

Definition setup_git : M unit :=
  logger_info "Setting up Git configuration..." ;;
  s <- get_self ;;
  let gitconfig_source := join (dotfiles_path s) ["git"; ".gitconfig"] in
  let gitconfig_target := join (home s) [".gitconfig"] in
  create_symlink gitconfig_source gitconfig_target.

Definition omz_install : string :=
  "sh -c " +:+ Text.dquote
  +:+ "$(curl -fsSL https://raw.githubusercontent.com/ohmyzsh/ohmyzsh/master/tools/install.sh)"
  +:+ Text.dquote.

Definition setup_zsh : M unit :=
  s <- get_self ;;
  if negb (is_windows s) then
    logger_info "Setting up Zsh configuration..." ;;
    (* Install Oh My Zsh if not already installed *)
    let omz_path := join (home s) [".oh-my-zsh"] in
    m <- get_fs ;;
    (if negb (Fs.path_exists m omz_path) then
       os_system h omz_install ;;
       ret tt
     else ret tt) ;;
    (* Setup Zsh configuration *)
    let zshrc_source := join (dotfiles_path s) ["zsh"; ".zshrc"] in
    let zshrc_target := join (home s) [".zshrc"] in
    create_symlink zshrc_source zshrc_target
  else ret tt.

Definition setup_iterm : M unit :=
  s <- get_self ;;
  if is_macos s then
    logger_info "Setting up iTerm2 configuration..." ;;
    let iterm_source :=
      join (dotfiles_path s) ["iterm2"; "com.googlecode.iterm2.plist"] in
    let iterm_target :=
      join (home s) ["Library"; "Preferences"; "com.googlecode.iterm2.plist"] in
    create_symlink iterm_source iterm_target ;;
    (* Load custom preferences *)
    os_system h
      "defaults write com.googlecode.iterm2 LoadPrefsFromCustomFolder -bool true" ;;
    os_system h
      ("defaults write com.googlecode.iterm2 PrefsCustomFolder -string "
       +:+ dirname iterm_source) ;;
    ret tt
  else ret tt.

Definition setup_all : M unit :=
  logger_info "Starting development environment setup..." ;;
  (* Create dotfiles directory if it doesn't exist *)
  s <- get_self ;;
  Os.makedirs (dotfiles_path s) true ;;
  (* Run setup steps; the calls of install_packages, setup_python_env,
     setup_zsh and setup_iterm are commented out in the source *)
  setup_git ;;
  setup_vscode ;;
  logger_info "Setup complete! 🎉" ;;
  s <- get_self ;;
  if is_windows s then
    logger_info (String Text.LF "Note: Some features are not available on Windows.") ;;
    logger_info "Consider using WSL2 for a more Unix-like experience."
  else ret tt.

(** [main()] *)
Definition main : M unit :=
  (* Get dotfiles path from environment variable or use default *)
  dotfiles_path <-
    (match getenv_DOTFILES_PATH h with
     | Some d => if Text.truthy d then ret d
                 else hm <- Path_home h ;; ret (join hm ["dotfiles"])
     | None => hm <- Path_home h ;; ret (join hm ["dotfiles"])
     end) ;;
  (* Initialize and run setup *)
  __init__ (Some dotfiles_path) ;;
  setup_all.

(** The exit status of [python setup.py]: 0 when [main] returns, 1 when
    an exception reaches the top level. *)
Definition exit_status (w : world) : Z :=
  match main w with
  | (Ok _, _) => 0%Z
  | (Raise _, _) => 1%Z
  end.

End DevEnvironmentManager.

(* ===================================================================== *)
(** ** What a run leaves alone                                            *)
(* ===================================================================== *)

(** Every run of [m] relates the world before to the world after by [R],
    whether [m] returns or raises. *)
Definition keeps {A} (R : world -> world -> Prop) (m : M A) : Prop :=
  forall w, R w (snd (m w)).

(** The manager object is as it was. *)
Definition same_manager (w w' : world) : Prop :=
  self w' = self w /\ assigned w' = assigned w.

(** The records that announce a setup step. *)
Definition is_announcement (r : log_record) : bool :=
  match PosixPath.strip_prefix "Setting up " (log_text r) with
  | Some _ => true
  | None => bool_decide (log_text r = "Installing necessary packages...")
  end.

Definition announcements (l : list log_record) : list string :=
  log_text <$> filter (fun r => Is_true (is_announcement r)) l.

(** The commands of the editor step and of the link fallback. *)
Definition is_install_or_mklink (c : command) : bool :=
  match c with
  | Argv ["code"; "--install-extension"; _] => true
  | Shell line =>
      match PosixPath.strip_prefix "mklink " line with
      | Some _ => true
      | None => false
      end
  | _ => false
  end.

(** Since [w], only such commands were run. *)
Definition only_installs (w w' : world) : Prop :=
  exists cs, trace w' = (trace w ++ cs)%list /\
             Forall (fun c => Is_true (is_install_or_mklink c)) cs.

(** Since [w], no step was announced. *)
Definition same_announcements (w w' : world) : Prop :=
  announcements (log w') = announcements (log w).

(** Since [w], no command was run, no input was read and the manager was
    not assigned to. *)
Definition untouched (w w' : world) : Prop :=
  self w' = self w /\ assigned w' = assigned w /\
  trace w' = trace w /\ stdin w' = stdin w.

(* ===================================================================== *)
(** ** The claims of the specification, as it words them                  *)
(* ===================================================================== *)

Module Claimed.

(** Linker, step 2: an existing link is removed without a backup, anything
    else is renamed to [target + ".backup"] over what was there; then the
    new link is at [target]. *)
Definition displaces_target (h : host) (source target : string) (w : world)
    : Prop :=
  let w' := snd (create_symlink h source target w) in
  (if Fs.islink (fs w) target
   then fs w' !! (target +:+ ".backup") = fs w !! (target +:+ ".backup")
   else fs w' !! (target +:+ ".backup") = fs w !! target)
  /\ fs w' !! target = Some (Link source).

(** Idempotence: after each of two runs [target] resolves to [source],
    and a regular file that was at [target] is the one backup. *)
Definition links_twice (h : host) (source target : string) (w : world)
    : Prop :=
  let w1 := snd (create_symlink h source target w) in
  let w2 := snd (create_symlink h source target w1) in
  fs w1 !! target = Some (Link source) /\
  fs w2 !! target = Some (Link source) /\
  forall c, fs w !! target = Some (File c) ->
    fs w2 !! (target +:+ ".backup") = Some (File c) /\
    forall p, p <> target -> p <> target +:+ ".backup" ->
              fs w2 !! p = fs w !! p.

(** Step Runner: git config, editor config, shell config, terminal
    config, package install, in this order. *)
Definition setup_all_as_specified (h : host) : M unit :=
  logger_info "Starting development environment setup..." ;;
  s <- get_self ;;
  Os.makedirs (dotfiles_path s) true ;;
  setup_git h ;;
  setup_vscode h ;;
  setup_zsh h ;;
  setup_iterm h ;;
  install_packages h ;;
  logger_info "Setup complete! 🎉" ;;
  s <- get_self ;;
  if is_windows s then
    logger_info (String Text.LF "Note: Some features are not available on Windows.") ;;
    logger_info "Consider using WSL2 for a more Unix-like experience."
  else ret tt.

End Claimed.

(* ===================================================================== *)
(** ** Sample machines                                                    *)
(* ===================================================================== *)

Module Sample.

(** A Linux machine on which every command runs and succeeds. *)
Definition linux : host :=
  Host (Some "/home/u") "Linux" None (fun _ => None)
       (fun _ m => (Exited 0, m)).

(** The same machine without the [code] command of the editor. *)
Definition linux_without_code : host :=
  Host (Some "/home/u") "Linux" None (fun _ => None)
       (fun c m =>
          match c with
          | Argv ("code" :: _) => (NotStarted (FileNotFoundError "code"), m)
          | _ => (Exited 0, m)
          end).

(** A Mac with Homebrew. *)
Definition mac : host :=
  Host (Some "/Users/u") "Darwin" None
       (fun name => if bool_decide (name = "brew")
                    then Some "/opt/homebrew/bin/brew" else None)
       (fun _ m => (Exited 0, m)).

(** A Windows machine on which [mklink] fails with status 1 and changes
    nothing, as it does where the link name is taken. *)
Definition windows : host :=
  Host (Some "/home/u") "Windows" None (fun _ => None)
       (fun c m =>
          match c with
          | Shell _ => (Exited 1, m)
          | Argv _ => (Exited 0, m)
          end).

(** The manager [__init__] makes on that machine. *)
Definition windows_home_manager : manager :=
  Manager "/home/u" "/home/u/dotfiles" true false.

(** The object before [__init__] has run. *)
Definition blank : manager := Manager "" "" false false.

Definition linux_manager : manager :=
  Manager "/home/u" "/home/u/dotfiles" false false.

Definition mac_manager : manager :=
  Manager "/Users/u" "/Users/u/dotfiles" false true.

Definition windows_manager : manager :=
  Manager "/Users/u" "/Users/u/dotfiles" true false.

Definition start (m : gmap string node) (s : manager) : world :=
  World m [] [] [] s [].

Definition home_dirs : list (string * node) :=
  [("/", Dir); ("/home", Dir); ("/home/u", Dir)].

Definition gitconfig : string := "/home/u/.gitconfig".
Definition gitconfig_source : string := "/home/u/dotfiles/git/.gitconfig".

(** A home directory with a [.gitconfig] of its own. *)
Definition with_file : gmap string node :=
  list_to_map (home_dirs ++ [(gitconfig, File "old")]).

(** ... and a directory where the backup would go. *)
Definition with_file_and_backup_dir : gmap string node :=
  list_to_map (home_dirs ++ [(gitconfig, File "new");
                             ("/home/u/.gitconfig.backup", Dir)]).

(** ... which already holds an entry of that name. *)
Definition with_file_and_full_backup_dir : gmap string node :=
  list_to_map (home_dirs ++ [(gitconfig, File "new");
                             ("/home/u/.gitconfig.backup", Dir);
                             ("/home/u/.gitconfig.backup/.gitconfig", File "old")]).

(** A [.gitconfig] that is a link. *)
Definition with_link : gmap string node :=
  list_to_map (home_dirs ++ [(gitconfig, Link "/home/u/old.gitconfig");
                             ("/home/u/old.gitconfig", File "old")]).

(** A [.gitconfig] that is a link to nothing. *)
Definition with_dangling_link : gmap string node :=
  list_to_map (home_dirs ++ [(gitconfig, Link "/home/u/gone")]).

(** A directory of snippets, with one entry. *)
Definition with_dir : gmap string node :=
  list_to_map (home_dirs ++ [("/home/u/snippets", Dir);
                             ("/home/u/snippets/a.json", File "{}")]).

(** A dotfiles directory with a list of two extensions, a blank line and
    a line of spaces. *)
Definition extensions_txt : string :=
  "ms-python.python" +:+ String Text.LF (String Text.LF ("   " +:+
  String Text.LF ("rust-lang.rust-analyzer" +:+ String Text.LF ""))).

Definition with_extensions : gmap string node :=
  list_to_map (home_dirs ++ [("/home/u/dotfiles", Dir);
                             ("/home/u/dotfiles/vscode", Dir);
                             ("/home/u/dotfiles/vscode/extensions.txt",
                              File extensions_txt)]).

Definition mac_dirs : gmap string node :=
  list_to_map [("/", Dir); ("/Users", Dir); ("/Users/u", Dir)].

End Sample.


(* ===================================================================== *)
(** ** More sample machines                                               *)
(* ===================================================================== *)

Module MoreSamples.

(** A Linux machine on which every command runs and exits with 1. *)
Definition linux_failing : host :=
  Host (Some "/home/u") "Linux" None (fun _ => None)
       (fun _ m => (Exited 1, m)).

(** A Mac without Homebrew, on which every command exits with 1. *)
Definition mac_failing : host :=
  Host (Some "/Users/u") "Darwin" None (fun _ => None)
       (fun _ m => (Exited 1, m)).

(** A world with lines waiting on standard input. *)
Definition start_with_input (m : gmap string node) (s : manager)
    (lines : list string) : world :=
  World m [] [] lines s [].

(** A home directory whose dotfiles path is a regular file. *)
Definition with_dotfiles_file : gmap string node :=
  list_to_map (Sample.home_dirs ++ [("/home/u/dotfiles", File "notes")]).

(** A Mac home with Oh My Zsh in place. *)
Definition mac_with_omz : gmap string node :=
  list_to_map [("/", Dir); ("/Users", Dir); ("/Users/u", Dir);
               ("/Users/u/.oh-my-zsh", Dir)].

End MoreSamples.


(* ===================================================================== *)
(** ** Facts about paths                                                  *)
(* ===================================================================== *)

Module PathFacts.
Import PosixPath.

#[local] Arguments String.append !s1 s2 /.

Lemma strip_prefix_app (p r : string) : strip_prefix p (p +:+ r) = Some r.
Proof.
  induction p as [|a p IH]; simpl; [done|].
  by rewrite bool_decide_true.
Qed.

Lemma strip_prefix_Some (p s r : string) :
  strip_prefix p s = Some r -> s = p +:+ r.
Proof.
  revert s. induction p as [|a p IH]; intros s; simpl.
  - by intros [= ->].
  - destruct s as [|b s]; [done|].
    case_bool_decide as Hab; [|done]. intros Hs. subst b. simpl. f_equal. by apply IH.
Qed.

Lemma app_length (p r : string) :
  String.length (p +:+ r) = String.length p + String.length r.
Proof. induction p; simpl; [done|]. by f_equal. Qed.

Lemma app_empty_r (p : string) : p +:+ "" = p.
Proof. induction p; simpl; [done|]. by f_equal. Qed.

Lemma app_inv_head (p r1 r2 : string) : p +:+ r1 = p +:+ r2 -> r1 = r2.
Proof. induction p as [|a p IH]; simpl; [done|]. intros [= Heq]. auto. Qed.

Lemma app_assoc (p q r : string) : (p +:+ q) +:+ r = p +:+ (q +:+ r).
Proof. induction p; simpl; [done|]. by f_equal. Qed.

Lemma cut_no_sep (s : string) : no_sep s = true -> cut s = ("", s).
Proof.
  induction s as [|c s IH]; simpl; [done|].
  intros [Hc Hs]%andb_true_iff. rewrite (IH Hs). simpl.
  by destruct (is_sep c).
Qed.

Lemma cut_app (t s : string) :
  no_sep s = true -> cut (t +:+ s) = (fst (cut t), snd (cut t) +:+ s).
Proof.
  intros Hs. induction t as [|c t IH]; simpl.
  - by rewrite cut_no_sep.
  - rewrite IH. destruct (cut t) as [h tl]; simpl.
    destruct (nonempty h); [done|].
    by destruct (is_sep c).
Qed.

Lemma dirname_app (t s : string) :
  no_sep s = true -> dirname (t +:+ s) = dirname t.
Proof.
  intros Hs. unfold dirname, split. rewrite (cut_app _ _ Hs).
  destruct (cut t) as [h tl]; simpl.
  by destruct (nonempty h && negb (all_seps h)).
Qed.

Lemma cut_join (p : string) : fst (cut p) +:+ snd (cut p) = p.
Proof.
  induction p as [|c p IH]; simpl; [done|].
  destruct (cut p) as [h tl]; simpl in *.
  destruct (nonempty h) eqn:Hh; simpl; [by rewrite IH|].
  destruct h; [|done]. simpl in IH. subst tl.
  by destruct (is_sep c).
Qed.

Lemma rstrip_sep_prefix (s : string) : exists r, s = rstrip_sep s +:+ r.
Proof.
  induction s as [|c s [r IH]]; simpl; [by exists ""|].
  destruct (is_sep c && negb (nonempty (rstrip_sep s))).
  - by eexists.
  - exists r. simpl. by rewrite <- IH.
Qed.

Lemma dirname_prefix (p : string) : exists r, p = dirname p +:+ r.
Proof.
  unfold dirname, split. pose proof (cut_join p) as Hp.
  destruct (cut p) as [h tl]; simpl in *.
  destruct (nonempty h && negb (all_seps h)); simpl.
  - destruct (rstrip_sep_prefix h) as [r Hr].
    exists (r +:+ tl). rewrite <- app_assoc, <- Hr. done.
  - by exists tl.
Qed.

Lemma strip_prefix_self (p : string) : strip_prefix p p = Some "".
Proof. rewrite <- (app_empty_r p) at 2. apply strip_prefix_app. Qed.

Lemma in_tree_self (p : string) : in_tree p p = true.
Proof. unfold in_tree. by rewrite bool_decide_true. Qed.

Lemma app_eq_self (p r : string) : p = p +:+ r -> r = "".
Proof.
  intros H. apply (f_equal String.length) in H. rewrite app_length in H.
  destruct r; [done|]. simpl in H. lia.
Qed.

Lemma not_in_tree_dirname (p : string) :
  dirname p <> p -> in_tree p (dirname p) = false.
Proof.
  intros Hne. unfold in_tree, under.
  rewrite bool_decide_false by done. simpl.
  destruct (strip_prefix p (dirname p)) as [r|] eqn:Hs; [|done].
  apply strip_prefix_Some in Hs.
  destruct (dirname_prefix p) as [r' Hr'].
  assert (r = "") as ->.
  { apply (f_equal String.length) in Hs, Hr'. rewrite app_length in Hs, Hr'.
    destruct r; [done|]. simpl in Hs. lia. }
  done.
Qed.

Lemma not_in_tree_longer (d k : string) :
  String.length k < String.length d -> in_tree d k = false.
Proof.
  intros Hlen. unfold in_tree, under.
  rewrite bool_decide_false by (intros ->; lia). simpl.
  destruct (strip_prefix d k) as [r|] eqn:Hs; [|done].
  apply strip_prefix_Some in Hs. apply (f_equal String.length) in Hs.
  rewrite app_length in Hs. lia.
Qed.

Lemma dirname_length (p : string) : String.length (dirname p) <= String.length p.
Proof.
  destruct (dirname_prefix p) as [r Hr].
  apply (f_equal String.length) in Hr. rewrite app_length in Hr. lia.
Qed.

End PathFacts.

(* ===================================================================== *)
(** ** Facts about the file system                                        *)
(* ===================================================================== *)

Module FsFacts.
Import PosixPath Fs PathFacts.

#[local] Arguments String.append !s1 s2 /.

Lemma in_tree_app (d r : string) :
  in_tree d (d +:+ r) =
  match r with EmptyString => true | String c _ => is_sep c end.
Proof.
  unfold in_tree, under. rewrite strip_prefix_app.
  destruct r as [|c r].
  - by rewrite app_empty_r, bool_decide_true.
  - rewrite bool_decide_false; [done|].
    intros H. symmetry in H. by apply app_eq_self in H.
Qed.

Lemma in_tree_strip (d k : string) :
  in_tree d k = true -> exists r, strip_prefix d k = Some r /\ k = d +:+ r.
Proof.
  unfold in_tree, under. intros [H|H]%orb_true_iff.
  - apply bool_decide_eq_true in H as ->. exists "".
    split; [|by rewrite app_empty_r].
    rewrite <- (app_empty_r d) at 2. apply strip_prefix_app.
  - destruct (strip_prefix d k) as [r|] eqn:Hs; [|done].
    exists r. split; [done|]. by apply strip_prefix_Some.
Qed.

Lemma lookup_rekey (src dst : string) (m : gmap string node) (k : string) :
  rekey src dst m !! k =
  match strip_prefix dst k with
  | Some r => if in_tree src (src +:+ r) then m !! (src +:+ r) else None
  | None => None
  end.
Proof.
  revert k. unfold rekey.
  apply (map_fold_weak_ind (fun acc (m : gmap string node) => forall k,
    acc !! k = match strip_prefix dst k with
               | Some r => if in_tree src (src +:+ r) then m !! (src +:+ r) else None
               | None => None
               end)).
  - intros k. rewrite lookup_empty.
    destruct (strip_prefix dst k); [|done].
    destruct (in_tree src _); [|done]. by rewrite lookup_empty.
  - intros i x m0 acc Hi IH k.
    assert (forall r, in_tree src (src +:+ r) = true -> i <> src +:+ r ->
              <[i:=x]> m0 !! (src +:+ r) = m0 !! (src +:+ r)) as Hother.
    { intros r _ Hne. by rewrite lookup_insert_ne. }
    destruct (in_tree src i) eqn:Hin.
    + destruct (in_tree_strip _ _ Hin) as (ri & Hri & ->).
      rewrite Hri.
      destruct (decide (k = dst +:+ ri)) as [->|Hk].
      * by rewrite lookup_insert_eq, strip_prefix_app, Hin, lookup_insert_eq.
      * rewrite lookup_insert_ne by done. rewrite IH.
        destruct (strip_prefix dst k) as [r|] eqn:Hr; [|done].
        destruct (in_tree src (src +:+ r)) eqn:Hinr; [|done].
        rewrite Hother; [done..|].
        intros Heq%app_inv_head. subst r.
        apply strip_prefix_Some in Hr. done.
    + assert (forall k, (match strip_prefix src i with
                         | Some r => if false then <[dst +:+ r:=x]> acc else acc
                         | None => acc
                         end) !! k = acc !! k) as ->.
      { intros k'. by destruct (strip_prefix src i). }
      rewrite IH.
      destruct (strip_prefix dst k) as [r|] eqn:Hr; [|done].
      destruct (in_tree src (src +:+ r)) eqn:Hinr; [|done].
      rewrite Hother; [done..|]. intros ->. congruence.
Qed.

Lemma lookup_kept (src dst : string) (m : gmap string node) (k : string) :
  filter (fun kv => ¬ Is_true (in_tree src kv.1) ∧ ¬ Is_true (in_tree dst kv.1)) m !! k
  = if in_tree src k || in_tree dst k then None else m !! k.
Proof.
  rewrite map_lookup_filter.
  destruct (m !! k) as [n|]; simpl; [|by destruct (_ || _)].
  case_guard as Hg; simpl in Hg.
  - destruct (in_tree src k), (in_tree dst k); simpl in *; tauto.
  - destruct (in_tree src k), (in_tree dst k); simpl in *; tauto.
Qed.

(** What [move_tree] leaves at a path. *)
Lemma lookup_move_tree (src dst : string) (m : gmap string node) (k : string) :
  move_tree src dst m !! k =
  match strip_prefix dst k with
  | Some r =>
      if in_tree dst k then
        if in_tree src (src +:+ r) then m !! (src +:+ r) else None
      else if in_tree src k then None else m !! k
  | None => if in_tree src k then None else m !! k
  end.
Proof.
  unfold move_tree. rewrite lookup_union, lookup_rekey, lookup_kept.
  destruct (strip_prefix dst k) as [r|] eqn:Hr.
  - pose proof (strip_prefix_Some _ _ _ Hr) as Hk.
    destruct (in_tree dst k) eqn:Hd.
    + rewrite orb_true_r, (right_id None _). done.
    + rewrite orb_false_r.
      assert (in_tree src (src +:+ r) = false) as ->.
      { rewrite in_tree_app. subst k. by rewrite in_tree_app in Hd. }
      by rewrite (left_id None _).
  - rewrite (left_id None _).
    destruct (in_tree dst k) eqn:Hd.
    + apply in_tree_strip in Hd as (r & Hr' & _). congruence.
    + by rewrite orb_false_r.
Qed.

End FsFacts.

(* ===================================================================== *)
(** ** Running a computation step by step                                 *)
(* ===================================================================== *)

Module Run.

Lemma bind_ok {A B} (m : M A) (k : A -> M B) (w w' : world) (a : A) :
  m w = (Ok a, w') -> bind m k w = k a w'.
Proof. unfold bind. by intros ->. Qed.

Lemma bind_raise {A B} (m : M A) (k : A -> M B) (w w' : world) (e : exn) :
  m w = (Raise e, w') -> bind m k w = (Raise e, w').
Proof. unfold bind. by intros ->. Qed.

Lemma try_ok {A} (m : M A) hs hd (w w' : world) (a : A) :
  m w = (Ok a, w') -> try_except m hs hd w = (Ok a, w').
Proof. unfold try_except. by intros ->. Qed.

Lemma try_caught {A} (m : M A) hs hd (w w' : world) (e : exn) :
  m w = (Raise e, w') -> hs e = true -> try_except m hs hd w = hd e w'.
Proof. unfold try_except. by intros -> ->. Qed.

Lemma try_passed {A} (m : M A) hs hd (w w' : world) (e : exn) :
  m w = (Raise e, w') -> hs e = false ->
  try_except m hs hd w = (Raise e, w').
Proof. unfold try_except. by intros -> ->. Qed.

Lemma fs_call_ok f (w : world) (m' : gmap string node) :
  f (fs w) = Ok m' -> fs_call f w = (Ok tt, with_fs m' w).
Proof. unfold fs_call. by intros ->. Qed.

Lemma fs_call_raise f (w : world) (e : exn) :
  f (fs w) = Raise e -> fs_call f w = (Raise e, w).
Proof. unfold fs_call. by intros ->. Qed.

End Run.

Module OsFacts.
Import PosixPath Fs Os PathFacts FsFacts Run.

Lemma follow_here (n : nat) (m : gmap string node) (p : string) (x : node) :
  m !! p = Some x -> (forall d, x <> Link d) -> follow n m p = Some (p, x).
Proof. intros Hp Hx. destruct n; simpl; rewrite Hp; destruct x; naive_solver. Qed.

Lemma isdir_Dir (m : gmap string node) (p : string) :
  m !! p = Some Dir -> isdir m p = true.
Proof. intros Hp. unfold isdir, stat. by rewrite (follow_here _ _ _ Dir). Qed.

Lemma path_exists_here (m : gmap string node) (p : string) (x : node) :
  m !! p = Some x -> (forall d, x <> Link d) -> path_exists m p = true.
Proof. intros Hp Hx. unfold path_exists, stat. by rewrite (follow_here _ _ _ x). Qed.

Lemma path_exists_bound (m : gmap string node) (p : string) :
  path_exists m p = true -> is_Some (m !! p).
Proof.
  unfold path_exists, stat, max_links. simpl.
  destruct (m !! p); [by eexists|done].
Qed.

Lemma well_formed_parent (m : gmap string node) (p : string) (x : node) :
  well_formed m -> m !! p = Some x ->
  dirname p = p \/ dirname p = "" \/ m !! dirname p = Some Dir.
Proof. intros [_ Hwf] Hp. by apply (Hwf p x). Qed.

Lemma nonempty_bound (m : gmap string node) (p : string) (x : node) :
  well_formed m -> m !! p = Some x -> nonempty p = true.
Proof. intros [He _] Hp. destruct p; [congruence|done]. Qed.

(** The parent of a directory is either empty or there, in a well-formed
    file system. *)
Lemma parent_seen (m : gmap string node) (p : string) :
  well_formed m -> m !! p = Some Dir ->
  nonempty (dirname p) && negb (path_exists m (dirname p)) = false.
Proof.
  intros Hwf Hp.
  destruct (well_formed_parent _ _ _ Hwf Hp) as [Hd|[Hd|Hd]].
  - rewrite Hd, (path_exists_here _ _ Dir); [by rewrite andb_false_r|done..].
  - by rewrite Hd.
  - rewrite (path_exists_here _ _ Dir); [by rewrite andb_false_r|done..].
Qed.

(** [mkdir] on a directory that is there, with [exist_ok]. *)
Lemma make_existing (d : string) (w : world) :
  well_formed (fs w) -> fs w !! d = Some Dir ->
  try_except (fs_call (mkdir d)) is_OSError
    (fun e => m1 <- get_fs ;;
              if negb true || negb (isdir m1 d) then raise e else ret tt) w
  = (Ok tt, w).
Proof.
  intros Hwf Hd.
  rewrite (try_caught _ _ _ w w (FileExistsError d)); [|
    apply fs_call_raise; unfold mkdir, lexists;
    by rewrite (nonempty_bound _ _ _ Hwf Hd), Hd | done].
  unfold bind, get_fs. by rewrite (isdir_Dir _ _ Hd).
Qed.

(** [os.makedirs(d, exist_ok=True)] changes nothing when [d] is there. *)
Lemma makedirs_existing (d : string) (w : world) :
  well_formed (fs w) -> fs w !! d = Some Dir ->
  makedirs d true w = (Ok tt, w).
Proof.
  intros Hwf Hd. unfold makedirs, recursion_limit.
  change 1000 with (S 999). generalize 999. intros n.
  pose proof (make_existing d w Hwf Hd) as Hmake.
  cbn [makedirs_rec].
  assert (dirname d = fst (split d)) as Hdir by done.
  destruct (split d) as [h1 t1] eqn:Hsplit. simpl in Hdir. subst h1.
  destruct (nonempty t1) eqn:Ht.
  - unfold bind at 1. unfold get_fs at 1.
    assert (nonempty (dirname d) && nonempty t1
            && negb (path_exists (fs w) (dirname d)) = false) as ->.
    { rewrite Ht, andb_true_r. by apply parent_seen. }
    apply Hmake.
  - assert (dirname (dirname d) = fst (split (dirname d))) as Hdir2 by done.
    destruct (split (dirname d)) as [h2 t2] eqn:Hsplit2. simpl in Hdir2. subst h2.
    unfold bind at 1. unfold get_fs at 1.
    assert (nonempty (dirname (dirname d)) && nonempty t2
            && negb (path_exists (fs w) (dirname (dirname d))) = false) as ->;
      [|apply Hmake].
    destruct (well_formed_parent _ _ _ Hwf Hd) as [Hp|[Hp|Hp]].
    + rewrite Hp in Hsplit2. rewrite Hsplit2 in Hsplit.
      injection Hsplit as ->. rewrite Ht. by rewrite andb_false_r.
    + rewrite Hp. done.
    + pose proof (parent_seen _ _ Hwf Hp) as Hs.
      destruct (nonempty (dirname (dirname d))); [|done].
      simpl in Hs. rewrite Hs. by rewrite andb_false_r.
Qed.

Lemma backup_neq (t : string) : t <> t +:+ ".backup".
Proof. intros H. by apply app_eq_self in H. Qed.

Lemma backup_nonempty (t : string) : nonempty (t +:+ ".backup") = true.
Proof. by destruct t. Qed.

Lemma dirname_backup (t : string) : dirname (t +:+ ".backup") = dirname t.
Proof. by apply dirname_app. Qed.

Lemma dirname_neq_backup (t : string) : dirname t <> t +:+ ".backup".
Proof.
  intros H. pose proof (dirname_length t) as Hl.
  rewrite H, PathFacts.app_length in Hl. simpl in Hl. lia.
Qed.

Lemma not_under_backup (t : string) : under t (t +:+ ".backup") = false.
Proof. unfold under. by rewrite strip_prefix_app. Qed.

Lemma strip_prefix_longer (p s : string) :
  String.length s < String.length p -> strip_prefix p s = None.
Proof.
  intros Hl. destruct (strip_prefix p s) as [r|] eqn:Hs; [|done].
  apply strip_prefix_Some, (f_equal String.length) in Hs.
  rewrite PathFacts.app_length in Hs. lia.
Qed.

Lemma parent_ok_Dir (m : gmap string node) (p : string) :
  m !! dirname p = Some Dir -> parent_ok m p = true.
Proof. intros H. unfold parent_ok. by rewrite (isdir_Dir _ _ H), orb_true_r. Qed.

Lemma isdir_false_not_Dir (m : gmap string node) (p : string) :
  isdir m p = false -> m !! p <> Some Dir.
Proof. intros H Hp. by rewrite (isdir_Dir _ _ Hp) in H. Qed.

Lemma symlink_fresh (m : gmap string node) (source target : string) :
  nonempty source = true -> m !! target = None ->
  m !! dirname target = Some Dir ->
  symlink source target m = Ok (<[target := Link source]> m).
Proof.
  intros Hs Ht Hd. unfold symlink, lexists.
  by rewrite Hs, Ht, (parent_ok_Dir _ _ Hd).
Qed.

Lemma rename_file (m : gmap string node) (target c : string) :
  m !! target = Some (File c) -> m !! dirname target = Some Dir ->
  isdir m (target +:+ ".backup") = false ->
  rename target (target +:+ ".backup") m
  = Ok (<[target +:+ ".backup" := File c]> (delete target m)).
Proof.
  intros Ht Hd Hb. unfold rename.
  rewrite Ht, backup_nonempty. simpl.
  rewrite parent_ok_Dir by (by rewrite dirname_backup). simpl.
  rewrite bool_decide_false by apply backup_neq.
  rewrite not_under_backup.
  apply isdir_false_not_Dir in Hb.
  destruct (m !! (target +:+ ".backup")) as [[]|]; done.
Qed.

Lemma rename_dir (m : gmap string node) (target : string) :
  m !! target = Some Dir -> m !! dirname target = Some Dir ->
  m !! (target +:+ ".backup") = None ->
  rename target (target +:+ ".backup") m
  = Ok (move_tree target (target +:+ ".backup") m).
Proof.
  intros Ht Hd Hb. unfold rename.
  rewrite Ht, backup_nonempty. simpl.
  rewrite parent_ok_Dir by (by rewrite dirname_backup). simpl.
  rewrite bool_decide_false by apply backup_neq.
  by rewrite not_under_backup, Hb.
Qed.

#[local] Arguments String.append !s1 s2 /.

Lemma well_formed_insert (m : gmap string node) (k : string) (x : node) :
  well_formed m -> k <> "" -> m !! k <> Some Dir ->
  dirname k = k \/ dirname k = "" \/ m !! dirname k = Some Dir ->
  well_formed (<[k := x]> m).
Proof.
  intros [He Hwf] Hk Hnd Hpar. split; [by rewrite lookup_insert_ne|].
  apply map_Forall_insert_2.
  - destruct Hpar as [Hp|[Hp|Hp]]; [tauto|tauto|].
    destruct (decide (dirname k = k)) as [|Hne]; [tauto|].
    right; right. by rewrite lookup_insert_ne.
  - intros p y Hp. destruct (Hwf p y Hp) as [Hd|[Hd|Hd]]; [tauto|tauto|].
    right; right. rewrite lookup_insert_ne; [done|]. congruence.
Qed.

Lemma split_parts (d : string) : split d = (dirname d, basename d).
Proof.
  unfold dirname, basename, split. destruct (cut d) as [hd tl]. simpl.
  by destruct (nonempty hd && negb (all_seps hd)).
Qed.

Lemma rstrip_sep_length (s : string) :
  String.length (rstrip_sep s) <= String.length s.
Proof.
  destruct (rstrip_sep_prefix s) as [r Hr].
  apply (f_equal String.length) in Hr. rewrite PathFacts.app_length in Hr. lia.
Qed.

Lemma dirname_shorter (p : string) :
  nonempty (basename p) = true -> String.length (dirname p) < String.length p.
Proof.
  unfold dirname, basename, split. pose proof (cut_join p) as Hp.
  destruct (cut p) as [hd tl]. simpl in *. intros Htl.
  apply (f_equal String.length) in Hp. rewrite PathFacts.app_length in Hp.
  assert (0 < String.length tl) by (destruct tl; [done|simpl; lia]).
  destruct (nonempty hd && negb (all_seps hd)); simpl; [|lia].
  pose proof (rstrip_sep_length hd). lia.
Qed.

Lemma dirname_proper (p : string) :
  dirname p <> p -> String.length (dirname p) < String.length p.
Proof.
  intros Hne. destruct (dirname_prefix p) as [r Hr].
  destruct r as [|c r]; [by rewrite PathFacts.app_empty_r in Hr|].
  apply (f_equal String.length) in Hr. rewrite PathFacts.app_length in Hr.
  simpl in Hr. lia.
Qed.

Lemma with_fs_same (w : world) : with_fs (fs w) w = w.
Proof. by destruct w. Qed.

Lemma cut_tail (x : string) :
  no_sep (snd (cut x)) = true /\ (nonempty (fst (cut x)) = false -> snd (cut x) = x).
Proof.
  induction x as [|c x [IH1 IH2]]; simpl; [done|].
  destruct (cut x) as [hd tl]; simpl in *.
  destruct (nonempty hd) eqn:Hh; simpl; [done|].
  rewrite (IH2 eq_refl) in IH1.
  destruct (is_sep c) eqn:Hc; simpl; [done|].
  by rewrite Hc, IH1.
Qed.

Lemma no_sep_basename (x : string) : no_sep (basename x) = true.
Proof. apply cut_tail. Qed.

Lemma no_sep_start (b : string) : no_sep b = true -> startswith_sep b = false.
Proof. destruct b as [|c b]; [done|]. simpl. by destruct (is_sep c). Qed.

Lemma backup_no_end_sep (t : string) : endswith_sep (t +:+ ".backup") = false.
Proof.
  induction t as [|c t IH]; [done|]. simpl.
  destruct (t +:+ ".backup") eqn:Heq; [by destruct t|done].
Qed.

Lemma cut_slash (p : string) : cut (p +:+ "/") = (p +:+ "/", "").
Proof.
  induction p as [|c p IH]; [done|]. simpl. rewrite IH.
  by destruct p.
Qed.

Lemma backup_not_all_seps (t : string) : all_seps (t +:+ ".backup/") = false.
Proof.
  induction t as [|c t IH]; [done|]. simpl. by rewrite IH, andb_false_r.
Qed.

Lemma rstrip_backup (t : string) :
  rstrip_sep (t +:+ ".backup/") = t +:+ ".backup".
Proof.
  induction t as [|c t IH]; [done|]. simpl. rewrite IH.
  by rewrite backup_nonempty, andb_false_r.
Qed.

Lemma inside_backup_eq (target : string) :
  join (target +:+ ".backup") [shutil_basename target]
  = target +:+ ".backup/" +:+ shutil_basename target.
Proof.
  unfold join, join2. cbn [fold_left].
  rewrite no_sep_start by apply no_sep_basename.
  rewrite backup_nonempty, backup_no_end_sep. cbn [negb orb].
  by rewrite PathFacts.app_assoc.
Qed.

Lemma dirname_inside_backup (target : string) :
  dirname (join (target +:+ ".backup") [shutil_basename target])
  = target +:+ ".backup".
Proof.
  rewrite inside_backup_eq.
  replace (target +:+ ".backup/" +:+ shutil_basename target)
    with (((target +:+ ".backup") +:+ "/") +:+ shutil_basename target)
    by (by rewrite !PathFacts.app_assoc).
  rewrite dirname_app by apply no_sep_basename.
  unfold dirname, split. rewrite cut_slash.
  replace ((target +:+ ".backup") +:+ "/") with (target +:+ ".backup/")
    by (by rewrite PathFacts.app_assoc).
  rewrite backup_not_all_seps.
  assert (nonempty (target +:+ ".backup/") = true) as -> by (by destruct target).
  simpl. apply rstrip_backup.
Qed.

Lemma inside_backup_longer (target : string) :
  String.length target
  < String.length (join (target +:+ ".backup") [shutil_basename target]).
Proof.
  rewrite inside_backup_eq, !PathFacts.app_length. simpl. lia.
Qed.

Lemma not_under_inside_backup (target : string) :
  under target (join (target +:+ ".backup") [shutil_basename target]) = false.
Proof.
  unfold under. by rewrite inside_backup_eq, strip_prefix_app.
Qed.

(** Names shorter than [dst] after a move of [src] to [dst]. *)
Lemma lookup_moved_short (m : gmap string node) (src dst k : string) :
  String.length k < String.length dst ->
  move_tree src dst m !! k = if in_tree src k then None else m !! k.
Proof.
  intros Hk. by rewrite lookup_move_tree, strip_prefix_longer.
Qed.

Lemma rename_dir_into (m : gmap string node) (target : string) :
  m !! target = Some Dir -> m !! (target +:+ ".backup") = Some Dir ->
  m !! join (target +:+ ".backup") [shutil_basename target] = None ->
  rename target (join (target +:+ ".backup") [shutil_basename target]) m
  = Ok (move_tree target
          (join (target +:+ ".backup") [shutil_basename target]) m).
Proof.
  intros Ht Hb Hr. unfold rename. rewrite Ht.
  pose proof (inside_backup_longer target) as Hlen.
  assert (nonempty (join (target +:+ ".backup") [shutil_basename target])
          = true) as ->.
  { destruct (join _ _); [simpl in Hlen; lia|done]. }
  cbn [negb].
  rewrite parent_ok_Dir by (by rewrite dirname_inside_backup). cbn [negb].
  rewrite bool_decide_false by (intros Heq; rewrite <- Heq in Hlen; lia).
  by rewrite not_under_inside_backup, Hr.
Qed.

End OsFacts.

(* ===================================================================== *)
(** ** os.makedirs, level by level                                        *)
(* ===================================================================== *)

Module MakedirsFacts.
Import PosixPath Fs Os PathFacts FsFacts Run OsFacts.

(** [os.makedirs(d, exist_ok=True)] changes nothing when [d] is a
    directory whose parent is in place. *)
Lemma makedirs_rec_anchored (n : nat) (d : string) (w : world) :
  nonempty d = true -> fs w !! d = Some Dir ->
  (dirname d = d \/ dirname d = "" \/ fs w !! dirname d = Some Dir) ->
  (dirname (dirname d) = dirname d \/ dirname (dirname d) = "" \/
   fs w !! dirname (dirname d) = Some Dir) ->
  makedirs_rec (S n) d true w = (Ok tt, w).
Proof.
  intros Hne Hd Hp Hpp.
  assert (forall p, (dirname p = p \/ dirname p = "" \/
                     fs w !! dirname p = Some Dir) ->
                    fs w !! p = Some Dir ->
                    nonempty (dirname p) && negb (path_exists (fs w) (dirname p))
                    = false) as Hseen.
  { intros p [Hq|[Hq|Hq]] Hdir.
    - rewrite Hq, (path_exists_here _ _ Dir); [by rewrite andb_false_r|done..].
    - by rewrite Hq.
    - rewrite (path_exists_here _ _ Dir); [by rewrite andb_false_r|done..]. }
  assert (try_except (fs_call (mkdir d)) is_OSError
            (fun e => m1 <- get_fs ;;
                      if negb true || negb (isdir m1 d) then raise e else ret tt) w
          = (Ok tt, w)) as Hmake.
  { rewrite (try_caught _ _ _ w w (FileExistsError d)); [|
      apply fs_call_raise; unfold mkdir, lexists; by rewrite Hne, Hd | done].
    unfold bind, get_fs. by rewrite (isdir_Dir _ _ Hd). }
  cbn [makedirs_rec].
  assert (dirname d = fst (split d)) as Hdir by done.
  destruct (split d) as [h1 t1] eqn:Hsplit. simpl in Hdir. subst h1.
  destruct (nonempty t1) eqn:Ht.
  - unfold bind at 1. unfold get_fs at 1.
    assert (nonempty (dirname d) && nonempty t1
            && negb (path_exists (fs w) (dirname d)) = false) as ->.
    { rewrite Ht, andb_true_r. by apply Hseen. }
    apply Hmake.
  - assert (dirname (dirname d) = fst (split (dirname d))) as Hdir2 by done.
    destruct (split (dirname d)) as [h2 t2] eqn:Hsplit2. simpl in Hdir2. subst h2.
    unfold bind at 1. unfold get_fs at 1.
    assert (nonempty (dirname (dirname d)) && nonempty t2
            && negb (path_exists (fs w) (dirname (dirname d))) = false) as ->;
      [|apply Hmake].
    destruct Hp as [Hp|[Hp|Hp]].
    + rewrite Hp in Hsplit2. rewrite Hsplit2 in Hsplit.
      injection Hsplit as ->. rewrite Ht. by rewrite andb_false_r.
    + rewrite Hp. done.
    + pose proof (Hseen _ Hpp Hp) as Hs.
      destruct (nonempty (dirname (dirname d))); [|done].
      simpl in Hs. rewrite Hs. by rewrite andb_false_r.
Qed.

Lemma anchored (m : gmap string node) (d : string) :
  well_formed m -> m !! d = Some Dir ->
  nonempty d = true /\
  (dirname d = d \/ dirname d = "" \/ m !! dirname d = Some Dir) /\
  (dirname (dirname d) = dirname d \/ dirname (dirname d) = "" \/
   m !! dirname (dirname d) = Some Dir).
Proof.
  intros Hwf Hd. split_and!.
  - by apply (nonempty_bound m d Dir).
  - by apply (well_formed_parent m d Dir).
  - destruct (well_formed_parent m d Dir Hwf Hd) as [Hp|[Hp|Hp]].
    + left. by rewrite Hp.
    + right. left. by rewrite Hp.
    + by apply (well_formed_parent m (dirname d) Dir).
Qed.

Lemma makedirs_rec_existing (n : nat) (d : string) (w : world) :
  well_formed (fs w) -> fs w !! d = Some Dir ->
  makedirs_rec (S n) d true w = (Ok tt, w).
Proof.
  intros Hwf Hd. destruct (anchored _ _ Hwf Hd) as (H1 & H2 & H3).
  by apply makedirs_rec_anchored.
Qed.

(** [mkdir] of a missing name whose parent is in place. *)
Lemma make_missing (d : string) (w : world) :
  fs w !! d = None -> nonempty (basename d) = true ->
  nonempty (dirname d) = false \/ fs w !! dirname d = Some Dir ->
  try_except (fs_call (mkdir d)) is_OSError
    (fun e => m1 <- get_fs ;;
              if negb true || negb (isdir m1 d) then raise e else ret tt) w
  = (Ok tt, with_fs (<[d := Dir]> (fs w)) w).
Proof.
  intros Hd Hname Hpar.
  apply try_ok, fs_call_ok. unfold mkdir, lexists. rewrite Hd.
  assert (nonempty d = true) as ->.
  { destruct d; [|done]. by vm_compute in Hname. }
  assert (parent_ok (fs w) d = true) as ->; [|done].
  destruct Hpar as [Hp|Hp]; [|by apply parent_ok_Dir].
  unfold parent_ok. by rewrite Hp.
Qed.

(** [os.makedirs] makes the missing directories down to [d], and only
    those. *)
Lemma makedirs_chain (n : nat) : forall (d : string) (w : world),
  well_formed (fs w) -> can_make n (fs w) d = true ->
  exists m0, makedirs_rec n d true w = (Ok tt, with_fs m0 w) /\
             well_formed m0 /\ m0 !! d = Some Dir /\
             forall k, String.length d < String.length k ->
                       m0 !! k = fs w !! k.
Proof.
  induction n as [|n IH]; intros d w Hwf Hcan; [done|].
  cbn [can_make] in Hcan.
  destruct (fs w !! d) as [[c| |l]|] eqn:Hd; try done.
  - exists (fs w). rewrite with_fs_same. split_and!; try done.
    by apply makedirs_rec_existing.
  - apply andb_true_iff in Hcan as [Hcan Hup].
    apply andb_true_iff in Hcan as [Hname Hdot].
    apply negb_true_iff, bool_decide_eq_false in Hdot.
    pose proof (dirname_shorter d Hname) as Hlen.
    assert (d <> "") as Hne by (intros ->; by vm_compute in Hname).
    cbn [makedirs_rec]. rewrite split_parts, Hname.
    unfold bind at 1. unfold get_fs at 1. rewrite Hname, andb_true_r.
    destruct (nonempty (dirname d)) eqn:Hdir; simpl in Hup.
    + destruct n as [|n']; [done|].
      pose proof Hup as Hup'. cbn [can_make] in Hup'.
      destruct (fs w !! dirname d) as [[c| |l]|] eqn:Hpar; try done.
      * rewrite (path_exists_here _ _ Dir) by done. cbn [negb andb].
        rewrite make_missing by tauto.
        eexists. split; [done|]. split_and!.
        -- apply well_formed_insert; try done; [congruence|tauto].
        -- apply lookup_insert_eq.
        -- intros k Hk. rewrite lookup_insert_ne; [done|]. intros ->. lia.
      * assert (path_exists (fs w) (dirname d) = false) as ->.
        { unfold path_exists, stat, max_links. simpl. by rewrite Hpar. }
        cbn [negb andb].
        destruct (IH (dirname d) w Hwf Hup) as (m1 & Hrec & Hwf1 & Hd1 & Hk1).
        unfold bind at 1.
        rewrite (try_ok _ _ _ _ _ _ Hrec).
        rewrite bool_decide_false by done.
        assert (m1 !! d = None) as Hd' by (by rewrite Hk1).
        rewrite make_missing; [| |done|]; cbn [fs with_fs]; [|done|tauto].
        eexists. split; [done|]. split_and!.
        -- apply well_formed_insert; try done; [congruence|tauto].
        -- apply lookup_insert_eq.
        -- intros k Hk. rewrite lookup_insert_ne by (intros ->; lia).
           apply Hk1. lia.
    + cbn [andb]. rewrite make_missing by tauto.
      eexists. split; [done|]. split_and!.
      * apply well_formed_insert; try done; [congruence|].
        right. left. by destruct (dirname d).
      * apply lookup_insert_eq.
      * intros k Hk. rewrite lookup_insert_ne; [done|]. intros ->. lia.
Qed.

(** When [os.makedirs(name, exist_ok=True)] returns, [name] is a
    directory. *)
Lemma makedirs_makes (n : nat) (name : string) (w w1 : world) :
  leaf name <> "." ->
  makedirs_rec n name true w = (Ok tt, w1) -> isdir (fs w1) name = true.
Proof.
  intros Hleaf. destruct n as [|n]; [done|].
  assert (forall w0, try_except (fs_call (mkdir name)) is_OSError
            (fun e => m1 <- get_fs ;;
                      if negb true || negb (isdir m1 name) then raise e
                      else ret tt) w0 = (Ok tt, w1) ->
          isdir (fs w1) name = true) as Hmake.
  { intros w0. unfold try_except, fs_call, mkdir.
    destruct (negb (nonempty name)).
    { cbn [is_OSError]. unfold bind, get_fs. cbn [negb orb].
      destruct (isdir (fs w0) name) eqn:Hi; cbn [negb]; [|done].
      by intros [= <-]. }
    destruct (lexists (fs w0) name).
    { cbn [is_OSError]. unfold bind, get_fs. cbn [negb orb].
      destruct (isdir (fs w0) name) eqn:Hi; cbn [negb]; [|done].
      by intros [= <-]. }
    destruct (negb (parent_ok (fs w0) name)).
    { assert (is_OSError (parent_error (fs w0) name) = true) as ->.
      { unfold parent_error. by destruct (path_exists _ _). }
      unfold bind, get_fs. cbn [negb orb].
      destruct (isdir (fs w0) name) eqn:Hi; cbn [negb]; [|done].
      by intros [= <-]. }
    unfold put_fs. intros [= <-]. cbn [fs with_fs].
    apply isdir_Dir, lookup_insert_eq. }
  cbn [makedirs_rec]. unfold leaf in Hleaf.
  destruct (split name) as [h1 t1].
  destruct (nonempty t1).
  - unfold bind at 1. unfold get_fs at 1.
    destruct (nonempty h1 && nonempty t1 && negb (path_exists (fs w) h1)).
    + unfold bind at 1.
      destruct (try_except (makedirs_rec n h1 true) is_FileExistsError
                  (fun _ => ret tt) w) as [[[]|e] w'];
        [|intros H; cbv beta iota in H; discriminate].
      rewrite bool_decide_false by done. apply Hmake.
    + apply Hmake.
  - destruct (split h1) as [h2 t2]. simpl in Hleaf.
    unfold bind at 1. unfold get_fs at 1.
    destruct (nonempty h2 && nonempty t2 && negb (path_exists (fs w) h2)).
    + unfold bind at 1.
      destruct (try_except (makedirs_rec n h2 true) is_FileExistsError
                  (fun _ => ret tt) w) as [[[]|e] w'];
        [|intros H; cbv beta iota in H; discriminate].
      rewrite bool_decide_false by done. apply Hmake.
    + apply Hmake.
Qed.

End MakedirsFacts.

(* ===================================================================== *)
(** ** create_symlink, case by case                                       *)
(* ===================================================================== *)

Module LinkFacts.
Import PosixPath Fs Os PathFacts FsFacts Run OsFacts.

Section Cases.
Variable h : host.
Variables source target : string.
Variable w : world.
Hypothesis Hposix : is_windows (self w) = false.
Hypothesis Hsource : source <> "".
Hypothesis Hwf : well_formed (fs w).
Hypothesis Hin : in_directory (fs w) target.

Lemma source_nonempty : nonempty source = true.
Proof using Hsource. by destruct source. Qed.

(** The last two steps, from a state where [target] is free. *)
Lemma link_tail (m : gmap string node) (w1 : world) :
  self w1 = self w -> fs w1 = m ->
  m !! target = None -> m !! dirname target = Some Dir ->
  (s <- get_self ;;
   (if is_windows s then
      m <- get_fs ;;
      if isdir m source then
        os_system h (mklink_dir source target) ;; ret tt
      else
        os_system h (mklink_file source target) ;; ret tt
    else fs_call (symlink source target)) ;;
   logger_info ("Created symlink: " +:+ target +:+ " -> " +:+ source)) w1
  = (Ok tt, add_log (created source target)
              (with_fs (<[target := Link source]> m) w1)).
Proof using Hposix Hsource.
  intros Hself Hfs Ht Hd.
  unfold bind at 1. unfold get_self at 1. rewrite Hself, Hposix.
  erewrite bind_ok; [|apply fs_call_ok; rewrite Hfs;
                      by apply symlink_fresh; [apply source_nonempty|..]].
  done.
Qed.

(** [target] is a link that resolves: it is replaced. *)
Lemma link_over_link (d : string) :
  fs w !! target = Some (Link d) -> path_exists (fs w) target = true ->
  create_symlink h source target w
  = (Ok tt, add_log (created source target)
              (with_fs (<[target := Link source]> (fs w)) w)).
Proof using All.
  intros Ht Hex. destruct Hin as [Hroot Hdir].
  unfold create_symlink. erewrite try_ok; [done|].
  unfold create_symlink_body.
  erewrite bind_ok; [|by apply makedirs_existing].
  unfold bind at 1. unfold get_fs at 1. unfold bind at 1.
  rewrite Hex. unfold islink. rewrite Ht.
  erewrite fs_call_ok; [|unfold unlink; by rewrite Ht].
  rewrite (link_tail (delete target (fs w)));
    [|done|done|apply lookup_delete_eq|by rewrite lookup_delete_ne].
  by rewrite insert_delete_eq.
Qed.

(** Nothing is at [target]: the link is made. *)
Lemma link_fresh :
  fs w !! target = None ->
  create_symlink h source target w
  = (Ok tt, add_log (created source target)
              (with_fs (<[target := Link source]> (fs w)) w)).
Proof using All.
  intros Ht. destruct Hin as [Hroot Hdir].
  unfold create_symlink. erewrite try_ok; [done|].
  unfold create_symlink_body.
  erewrite bind_ok; [|by apply makedirs_existing].
  unfold bind at 1. unfold get_fs at 1. unfold bind at 1.
  assert (path_exists (fs w) target = false) as ->.
  { unfold path_exists, stat, max_links. simpl. by rewrite Ht. }
  unfold ret at 1.
  by rewrite (link_tail (fs w)).
Qed.

(** [target] is a dangling link: it stays, and the failure is logged. *)
Lemma link_over_dangling (d : string) :
  fs w !! target = Some (Link d) -> path_exists (fs w) target = false ->
  create_symlink h source target w
  = (Ok tt, add_log (failed (FileExistsError target)) w).
Proof using All.
  intros Ht Hex. destruct Hin as [Hroot Hdir].
  unfold create_symlink.
  erewrite try_caught; [done| |done].
  unfold create_symlink_body.
  erewrite bind_ok; [|by apply makedirs_existing].
  unfold bind at 1. unfold get_fs at 1. unfold bind at 1.
  rewrite Hex. unfold ret at 1.
  unfold bind at 1. unfold get_self at 1. rewrite Hposix.
  erewrite bind_raise; [done|].
  apply fs_call_raise. unfold symlink, lexists.
  by rewrite source_nonempty, Ht.
Qed.

(** [target] is a regular file and [target.backup] is not a directory:
    the file becomes the backup, then the link is made. *)
Lemma link_over_file (c : string) :
  fs w !! target = Some (File c) ->
  isdir (fs w) (target +:+ ".backup") = false ->
  create_symlink h source target w
  = (Ok tt, add_log (created source target) (add_log (backed_up target)
              (with_fs (<[target := Link source]>
                          (<[target +:+ ".backup" := File c]> (fs w))) w))).
Proof using All.
  intros Ht Hb. destruct Hin as [Hroot Hdir].
  unfold create_symlink. erewrite try_ok; [done|].
  unfold create_symlink_body.
  erewrite bind_ok; [|by apply makedirs_existing].
  unfold bind at 1. unfold get_fs at 1. unfold bind at 1.
  rewrite (path_exists_here _ _ (File c)) by done.
  unfold islink. rewrite Ht.
  unfold backup_existing_config at 1.
  unfold bind at 1. unfold get_fs at 1.
  rewrite (path_exists_here _ _ (File c)) by done.
  unfold move. unfold bind at 1. unfold bind at 1. unfold get_fs at 1.
  rewrite Hb.
  erewrite bind_ok; [|apply try_ok, fs_call_ok; by apply rename_file].
  unfold ret at 1. unfold logger_info at 1. unfold emit at 1.
  rewrite (link_tail (<[target +:+ ".backup" := File c]> (delete target (fs w))));
    [|done|done| |].
  - rewrite (insert_insert_ne _ target) by apply backup_neq.
    rewrite insert_delete_eq.
    by rewrite (insert_insert_ne _ target) by apply backup_neq.
  - rewrite lookup_insert_ne by (intros H; symmetry in H; by apply backup_neq in H).
    apply lookup_delete_eq.
  - rewrite lookup_insert_ne
      by (intros H; symmetry in H; by apply dirname_neq_backup in H).
    by rewrite lookup_delete_ne.
Qed.

Lemma moved_target (m : gmap string node) :
  move_tree target (target +:+ ".backup") m !! target = None.
Proof.
  rewrite lookup_move_tree, strip_prefix_longer.
  - unfold in_tree. by rewrite bool_decide_true.
  - rewrite PathFacts.app_length. simpl. lia.
Qed.

Lemma moved_parent (m : gmap string node) :
  dirname target <> target ->
  move_tree target (target +:+ ".backup") m !! dirname target
  = m !! dirname target.
Proof.
  intros Hroot. rewrite lookup_move_tree, strip_prefix_longer.
  - by rewrite not_in_tree_dirname.
  - pose proof (dirname_length target). rewrite PathFacts.app_length. simpl. lia.
Qed.

(** [target] is a directory and nothing is at [target.backup]: the tree
    becomes the backup, then the link is made. *)
Lemma link_over_dir :
  fs w !! target = Some Dir -> fs w !! (target +:+ ".backup") = None ->
  create_symlink h source target w
  = (Ok tt, add_log (created source target) (add_log (backed_up target)
              (with_fs (<[target := Link source]>
                          (move_tree target (target +:+ ".backup") (fs w))) w))).
Proof using All.
  intros Ht Hb. destruct Hin as [Hroot Hdir].
  unfold create_symlink. erewrite try_ok; [done|].
  unfold create_symlink_body.
  erewrite bind_ok; [|by apply makedirs_existing].
  unfold bind at 1. unfold get_fs at 1. unfold bind at 1.
  rewrite (path_exists_here _ _ Dir) by done.
  unfold islink. rewrite Ht.
  unfold backup_existing_config at 1.
  unfold bind at 1. unfold get_fs at 1.
  rewrite (path_exists_here _ _ Dir) by done.
  unfold move. unfold bind at 1. unfold bind at 1. unfold get_fs at 1.
  assert (isdir (fs w) (target +:+ ".backup") = false) as ->.
  { unfold isdir, stat, max_links. simpl. by rewrite Hb. }
  erewrite bind_ok; [|apply try_ok, fs_call_ok; by apply rename_dir].
  unfold ret at 1. unfold logger_info at 1. unfold emit at 1.
  rewrite (link_tail (move_tree target (target +:+ ".backup") (fs w)));
    [done|done|done|apply moved_target|by rewrite moved_parent].
Qed.

(** [target] is a directory and [target.backup] is a directory without
    an entry of its name: the tree is moved into it, then the link is
    made. *)
Lemma link_over_dir_into :
  fs w !! target = Some Dir -> fs w !! (target +:+ ".backup") = Some Dir ->
  fs w !! join (target +:+ ".backup") [shutil_basename target] = None ->
  create_symlink h source target w
  = (Ok tt, add_log (created source target) (add_log (backed_up target)
              (with_fs (<[target := Link source]>
                          (move_tree target
                             (join (target +:+ ".backup")
                                [shutil_basename target]) (fs w))) w))).
Proof using All.
  intros Ht Hb Hr. destruct Hin as [Hroot Hdir].
  pose proof (inside_backup_longer target) as Hlen.
  pose proof (dirname_proper target Hroot) as Hlen'.
  unfold create_symlink. erewrite try_ok; [done|].
  unfold create_symlink_body.
  erewrite bind_ok; [|by apply makedirs_existing].
  unfold bind at 1. unfold get_fs at 1. unfold bind at 1.
  rewrite (path_exists_here _ _ Dir) by done.
  unfold islink. rewrite Ht.
  unfold backup_existing_config at 1.
  unfold bind at 1. unfold get_fs at 1.
  rewrite (path_exists_here _ _ Dir) by done.
  unfold move. unfold bind at 1. unfold bind at 1. unfold get_fs at 1.
  rewrite (isdir_Dir _ _ Hb).
  assert (samefile (fs w) target (target +:+ ".backup") = false) as ->.
  { unfold samefile, stat. rewrite !(follow_here _ _ _ Dir) by done.
    apply bool_decide_eq_false, backup_neq. }
  cbn [andb].
  assert (path_exists (fs w)
            (join (target +:+ ".backup") [shutil_basename target]) = false)
    as ->.
  { unfold path_exists, stat, max_links. cbn [follow]. by rewrite Hr. }
  erewrite bind_ok; [|apply try_ok, fs_call_ok; by apply rename_dir_into].
  unfold ret at 1. unfold logger_info at 1. unfold emit at 1.
  rewrite (link_tail (move_tree target
                        (join (target +:+ ".backup") [shutil_basename target])
                        (fs w))); [done|done|done| |].
  - rewrite lookup_moved_short by done. by rewrite in_tree_self.
  - rewrite lookup_moved_short by lia. by rewrite not_in_tree_dirname.
Qed.

End Cases.

(** Where the entries of a moved directory are afterwards. *)
Lemma moved_tree_lookup (m : gmap string node) (t : string) :
  let m' := move_tree t (t +:+ ".backup") m in
  m' !! (t +:+ ".backup") = m !! t /\
  (forall r, m' !! ((t +:+ ".backup") +:+ "/" +:+ r) = m !! (t +:+ "/" +:+ r)) /\
  (forall k, in_tree t k = false -> in_tree (t +:+ ".backup") k = false ->
             m' !! k = m !! k).
Proof.
  simpl. split_and!.
  - rewrite lookup_move_tree, strip_prefix_self, in_tree_self, in_tree_app.
    by rewrite PathFacts.app_empty_r.
  - intros r. rewrite lookup_move_tree, strip_prefix_app.
    by rewrite !in_tree_app.
  - intros k Ht Hb. rewrite lookup_move_tree, Ht, Hb.
    by destruct (strip_prefix _ k).
Qed.

End LinkFacts.

(* ===================================================================== *)
(** ** Relations every step of a run keeps                                *)
(* ===================================================================== *)

Module Keeps.
Import PosixPath Fs Os.

Section Generic.
Variable R : world -> world -> Prop.
Variable okrec : log_record -> Prop.
Variable okcmd : command -> Prop.
Hypothesis R_refl : forall w, R w w.
Hypothesis R_trans : forall w1 w2 w3, R w1 w2 -> R w2 w3 -> R w1 w3.
Hypothesis R_fs : forall m w, R w (with_fs m w).
Hypothesis R_log : forall r w, okrec r -> R w (add_log r w).
Hypothesis R_spawn : forall c m w, okcmd c ->
  R w (World m (log w) (trace w ++ [c]) (stdin w) (self w) (assigned w)).
Hypothesis R_stdin : forall w rest,
  R w (World (fs w) (log w) (trace w) rest (self w) (assigned w)).

Lemma keeps_ret {A} (a : A) : keeps R (ret a).
Proof using R_refl. intros w. apply R_refl. Qed.

Lemma keeps_raise {A} (e : exn) : keeps R (@raise A e).
Proof using R_refl. intros w. apply R_refl. Qed.

Lemma keeps_bind {A B} (m : M A) (k : A -> M B) :
  keeps R m -> (forall a, keeps R (k a)) -> keeps R (bind m k).
Proof using R_trans.
  intros Hm Hk w. unfold bind. specialize (Hm w).
  destruct (m w) as [[a|e] w1]; simpl in *; [|done].
  eapply R_trans; [done|]. apply Hk.
Qed.

Lemma keeps_try {A} (m : M A) hs (hd : exn -> M A) :
  keeps R m -> (forall e, keeps R (hd e)) -> keeps R (try_except m hs hd).
Proof using R_trans.
  intros Hm Hh w. unfold try_except. specialize (Hm w).
  destruct (m w) as [[a|e] w1]; simpl in *; [done|].
  destruct (hs e); [|done]. eapply R_trans; [done|]. apply Hh.
Qed.

Lemma keeps_for_each {A} (xs : list A) (body : A -> M unit) :
  (forall x, keeps R (body x)) -> keeps R (for_each xs body).
Proof using R_refl R_trans.
  intros Hb. induction xs as [|x xs IH]; simpl.
  - apply keeps_ret.
  - apply keeps_bind; [apply Hb|]. by intros _.
Qed.

Lemma keeps_get_fs : keeps R get_fs.
Proof using R_refl. intros w. apply R_refl. Qed.

Lemma keeps_get_self : keeps R get_self.
Proof using R_refl. intros w. apply R_refl. Qed.

Lemma keeps_fs_call f : keeps R (fs_call f).
Proof using R_refl R_fs.
  intros w. unfold fs_call. destruct (f (fs w)); simpl; [apply R_fs|apply R_refl].
Qed.

Lemma keeps_emit (r : log_record) : okrec r -> keeps R (emit r).
Proof using R_log. intros Hr w. by apply R_log. Qed.

Lemma keeps_spawn (h : host) (c : command) : okcmd c -> keeps R (spawn h c).
Proof using R_spawn.
  intros Hc w. unfold spawn. destruct (execute h c (fs w)) as [o m'].
  by apply R_spawn.
Qed.

Lemma keeps_input (prompt : string) : keeps R (input prompt).
Proof using R_refl R_stdin.
  intros w. unfold input. destruct (stdin w); [apply R_refl|apply R_stdin].
Qed.

End Generic.

(** One step of a proof that a computation keeps a relation. *)
Ltac keeps_step :=
  match goal with
  | |- keeps _ (bind _ _) => apply keeps_bind; [done| |intros ?]
  | |- keeps _ (try_except _ _ _) => apply keeps_try; [done| |intros ?]
  | |- keeps _ (ret _) => by apply keeps_ret
  | |- keeps _ (raise _) => by apply keeps_raise
  | |- keeps _ get_fs => by apply keeps_get_fs
  | |- keeps _ get_self => by apply keeps_get_self
  | |- keeps _ (fs_call _) => by apply keeps_fs_call
  | |- keeps _ (for_each _ _) => apply keeps_for_each; [done|done|intros ?]
  | |- keeps _ (if ?b then _ else _) => destruct b
  | |- keeps _ (match ?x with _ => _ end) => destruct x
  end.

Section Library.
Variable R : world -> world -> Prop.
Hypothesis R_refl : forall w, R w w.
Hypothesis R_trans : forall w1 w2 w3, R w1 w2 -> R w2 w3 -> R w1 w3.
Hypothesis R_fs : forall m w, R w (with_fs m w).

Lemma keeps_makedirs_rec (fuel : nat) (name : string) (exist_ok : bool) :
  keeps R (makedirs_rec fuel name exist_ok).
Proof using All.
  revert name. induction fuel as [|fuel IH]; intros name; cbn [makedirs_rec].
  - by apply keeps_raise.
  - destruct (split name) as [h1 t1].
    destruct (if nonempty t1 then (h1, t1) else split h1) as [h2 t2].
    repeat first [apply IH | keeps_step].
Qed.

Lemma keeps_makedirs (name : string) (exist_ok : bool) :
  keeps R (makedirs name exist_ok).
Proof using All. apply keeps_makedirs_rec. Qed.

Lemma keeps_move (src dst : string) : keeps R (move src dst).
Proof using All.
  unfold move, move_fallback, copytree_rmtree.
  repeat first [apply keeps_makedirs | keeps_step].
Qed.

End Library.
Section Program.
Variable R : world -> world -> Prop.
Variable okrec : log_record -> Prop.
Variable okcmd : command -> Prop.
Hypothesis R_refl : forall w, R w w.
Hypothesis R_trans : forall w1 w2 w3, R w1 w2 -> R w2 w3 -> R w1 w3.
Hypothesis R_fs : forall m w, R w (with_fs m w).
Hypothesis R_log : forall r w, okrec r -> R w (add_log r w).
Hypothesis R_spawn : forall c m w, okcmd c ->
  R w (World m (log w) (trace w ++ [c]) (stdin w) (self w) (assigned w)).
Hypothesis ok_plain : forall r, is_announcement r = false -> okrec r.
Hypothesis ok_cmds : forall c, is_install_or_mklink c = true -> okcmd c.
Variable h : host.

Lemma keeps_plain_info (text : string) :
  is_announcement (LogRecord INFO text None) = false ->
  keeps R (logger_info text).
Proof using R_log ok_plain. intros Ht. by apply (keeps_emit R okrec), ok_plain. Qed.

Lemma keeps_plain_error (text : string) (exc : option exn) :
  is_announcement (LogRecord ERROR text exc) = false ->
  keeps R (logger_error text exc).
Proof using R_log ok_plain. intros Ht. by apply (keeps_emit R okrec), ok_plain. Qed.

Lemma keeps_subprocess_run_check (command : list string) :
  okcmd (Argv command) -> keeps R (subprocess_run_check h command).
Proof using R_refl R_trans R_spawn.
  intros Hc. unfold subprocess_run_check.
  apply keeps_bind; [done|by apply (keeps_spawn R okcmd)|].
  intros [[| |]|]; by (apply keeps_ret || apply keeps_raise).
Qed.

Lemma keeps_os_system (line : string) :
  okcmd (Shell line) -> keeps R (os_system h line).
Proof using R_refl R_trans R_spawn.
  intros Hc. unfold os_system.
  apply keeps_bind; [done|by apply (keeps_spawn R okcmd)|].
  intros []; by apply keeps_ret.
Qed.

Lemma keeps_run_command (command : list string) :
  okcmd (Argv command) -> keeps R (run_command h command).
Proof using All.
  intros Hc. unfold run_command.
  repeat first [ by apply keeps_subprocess_run_check
               | by apply keeps_plain_error | keeps_step ].
Qed.

Lemma keeps_backup_existing_config (config_path : string) :
  keeps R (backup_existing_config config_path).
Proof using R_refl R_trans R_fs R_log ok_plain.
  unfold backup_existing_config.
  repeat first [ by apply keeps_move
               | by apply keeps_plain_info | keeps_step ].
Qed.

Lemma keeps_create_symlink (source target : string) :
  keeps R (create_symlink h source target).
Proof using All.
  unfold create_symlink, create_symlink_body.
  repeat first [ by apply keeps_makedirs
               | by apply keeps_backup_existing_config
               | by apply keeps_os_system, ok_cmds
               | by apply keeps_plain_info
               | by apply keeps_plain_error
               | keeps_step ].
Qed.

Lemma keeps_open_lines (path : string) : keeps R (open_lines path).
Proof using R_refl R_trans.
  unfold open_lines. repeat keeps_step.
Qed.

Lemma keeps_install_each (exts : list string) : keeps R (install_each h exts).
Proof using All.
  unfold install_each.
  repeat first [ by apply keeps_run_command, ok_cmds | keeps_step ].
Qed.

Lemma keeps_install_extensions : keeps R (install_extensions h).
Proof using All.
  unfold install_extensions.
  repeat first [ by apply keeps_open_lines | by apply keeps_install_each
               | keeps_step ].
Qed.

End Program.
(** The steps [setup_all] runs, for a relation no log record breaks. *)
Section Steps.
Variable R : world -> world -> Prop.
Variable okcmd : command -> Prop.
Hypothesis R_refl : forall w, R w w.
Hypothesis R_trans : forall w1 w2 w3, R w1 w2 -> R w2 w3 -> R w1 w3.
Hypothesis R_fs : forall m w, R w (with_fs m w).
Hypothesis R_log : forall r w, R w (add_log r w).
Hypothesis R_spawn : forall c m w, okcmd c ->
  R w (World m (log w) (trace w ++ [c]) (stdin w) (self w) (assigned w)).
Hypothesis ok_cmds : forall c, is_install_or_mklink c = true -> okcmd c.
Variable h : host.

Let any_record (r : log_record) : Prop := True.

Lemma keeps_info (text : string) : keeps R (logger_info text).
Proof using R_log. by apply (keeps_emit R any_record); [intros; apply R_log|]. Qed.

Lemma keeps_link (source target : string) :
  keeps R (create_symlink h source target).
Proof using All.
  apply (keeps_create_symlink R any_record okcmd);
    first [done | intros; apply R_log].
Qed.

Lemma keeps_setup_git : keeps R (setup_git h).
Proof using All.
  unfold setup_git.
  repeat first [ by apply keeps_info | by apply keeps_link | keeps_step ].
Qed.

Lemma keeps_link_vscode_settings : keeps R (link_vscode_settings h).
Proof using All.
  unfold link_vscode_settings.
  repeat first [ by apply keeps_info | by apply keeps_link | keeps_step ].
Qed.

Lemma keeps_setup_vscode : keeps R (setup_vscode h).
Proof using All.
  unfold setup_vscode. apply keeps_bind; [done|apply keeps_link_vscode_settings|].
  intros _. apply (keeps_install_extensions R any_record okcmd);
    first [done | intros; apply R_log].
Qed.

Lemma keeps_setup_all : keeps R (setup_all h).
Proof using All.
  unfold setup_all.
  repeat first [ by apply keeps_info | by apply keeps_makedirs
               | by apply keeps_setup_git | by apply keeps_setup_vscode
               | keeps_step ].
Qed.

End Steps.

(** The steps [setup_all] leaves out, for a relation nothing but an
    assignment to the manager breaks. *)
Section OtherSteps.
Variable R : world -> world -> Prop.
Hypothesis R_refl : forall w, R w w.
Hypothesis R_trans : forall w1 w2 w3, R w1 w2 -> R w2 w3 -> R w1 w3.
Hypothesis R_fs : forall m w, R w (with_fs m w).
Hypothesis R_log : forall r w, R w (add_log r w).
Hypothesis R_spawn : forall c m w,
  R w (World m (log w) (trace w ++ [c]) (stdin w) (self w) (assigned w)).
Hypothesis R_stdin : forall w rest,
  R w (World (fs w) (log w) (trace w) rest (self w) (assigned w)).
Variable h : host.

Let any_record (r : log_record) : Prop := True.
Let any_command (c : command) : Prop := True.

Lemma keeps_any_run_command (command : list string) :
  keeps R (run_command h command).
Proof using R_refl R_trans R_fs R_log R_spawn.
  apply (keeps_run_command R any_record any_command);
    first [done | intros; apply R_log | intros; apply R_spawn].
Qed.

Lemma keeps_any_os_system (line : string) : keeps R (os_system h line).
Proof using R_refl R_trans R_spawn.
  apply (keeps_os_system R any_command);
    first [done | intros; apply R_spawn].
Qed.

Lemma keeps_any_link (source target : string) :
  keeps R (create_symlink h source target).
Proof using R_refl R_trans R_fs R_log R_spawn.
  apply (keeps_link R any_command);
    first [done | intros; apply R_spawn].
Qed.

Lemma keeps_install_packages : keeps R (install_packages h).
Proof using All.
  unfold install_packages.
  repeat first [ by apply keeps_info | by apply keeps_any_run_command
               | by apply keeps_any_os_system
               | by apply (keeps_input R) | keeps_step ].
Qed.

Lemma keeps_setup_python_env : keeps R (setup_python_env h).
Proof using R_refl R_trans R_fs R_log R_spawn.
  unfold setup_python_env.
  repeat first [ by apply keeps_info | by apply keeps_any_run_command
               | keeps_step ].
Qed.

Lemma keeps_setup_zsh : keeps R (setup_zsh h).
Proof using R_refl R_trans R_fs R_log R_spawn.
  unfold setup_zsh.
  repeat first [ by apply keeps_info | by apply keeps_any_link
               | by apply keeps_any_os_system | keeps_step ].
Qed.

Lemma keeps_setup_iterm : keeps R (setup_iterm h).
Proof using R_refl R_trans R_fs R_log R_spawn.
  unfold setup_iterm.
  repeat first [ by apply keeps_info | by apply keeps_any_link
               | by apply keeps_any_os_system | keeps_step ].
Qed.

End OtherSteps.
End Keeps.

Module Relations.

Lemma same_manager_refl (w : world) : same_manager w w.
Proof. done. Qed.

Lemma same_manager_trans (w1 w2 w3 : world) :
  same_manager w1 w2 -> same_manager w2 w3 -> same_manager w1 w3.
Proof. intros [H1 H2] [H3 H4]. split; congruence. Qed.

Lemma only_installs_refl (w : world) : only_installs w w.
Proof. exists []. by rewrite app_nil_r. Qed.

Lemma only_installs_trans (w1 w2 w3 : world) :
  only_installs w1 w2 -> only_installs w2 w3 -> only_installs w1 w3.
Proof.
  intros (cs1 & H1 & F1) (cs2 & H2 & F2). exists (cs1 ++ cs2)%list.
  split; [by rewrite H2, H1, app_assoc|by apply Forall_app].
Qed.

Lemma only_installs_spawn (c : command) (m : gmap string node) (w : world) :
  is_install_or_mklink c = true ->
  only_installs w
    (World m (log w) (trace w ++ [c]) (stdin w) (self w) (assigned w)).
Proof. intros Hc. exists [c]. split; [done|]. constructor; [by rewrite Hc|done]. Qed.

Lemma same_announcements_trans (w1 w2 w3 : world) :
  same_announcements w1 w2 -> same_announcements w2 w3 ->
  same_announcements w1 w3.
Proof. unfold same_announcements. congruence. Qed.

Lemma announcements_snoc (l : list log_record) (r : log_record) :
  announcements (l ++ [r]) =
  (announcements l ++ if is_announcement r then [log_text r] else [])%list.
Proof.
  unfold announcements. rewrite filter_app, fmap_app. f_equal.
  destruct (is_announcement r) eqn:Hr.
  - by rewrite filter_cons_True by (by rewrite Hr).
  - by rewrite filter_cons_False by (rewrite Hr; simpl; tauto).
Qed.

Lemma announcements_plain (l : list log_record) (r : log_record) :
  is_announcement r = false -> announcements (l ++ [r]) = announcements l.
Proof. intros Hr. by rewrite announcements_snoc, Hr, app_nil_r. Qed.

Lemma same_announcements_log (r : log_record) (w : world) :
  is_announcement r = false -> same_announcements w (add_log r w).
Proof.
  intros Hr. unfold same_announcements. simpl.
  by rewrite announcements_snoc, Hr, app_nil_r.
Qed.

End Relations.

(* ===================================================================== *)
(** ** The Linker                                                         *)
(* ===================================================================== *)

Module Linker.
Import PosixPath Fs Os PathFacts FsFacts Run OsFacts MakedirsFacts LinkFacts.

Lemma well_formed_linked (m : gmap string node) (target : string) (x : node) :
  well_formed m -> in_directory m target -> m !! target <> Some Dir ->
  well_formed (<[target := x]> m) /\ in_directory (<[target := x]> m) target.
Proof.
  intros Hwf [Hroot Hdir] Hnd. split.
  - apply well_formed_insert; [done| |done|tauto].
    intros ->. destruct Hwf as [He _]. by destruct Hroot.
  - split; [done|]. by rewrite lookup_insert_ne.
Qed.

(** A second run over the link a first run made changes no file. *)
Lemma link_again (h : host) (source target : string) (w : world) :
  is_windows (self w) = false -> source <> "" ->
  well_formed (fs w) -> in_directory (fs w) target ->
  fs w !! target = Some (Link source) ->
  fs (snd (create_symlink h source target w)) = fs w.
Proof.
  intros Hposix Hsource Hwf Hin Ht.
  destruct (path_exists (fs w) target) eqn:Hex.
  - rewrite (link_over_link h source target w Hposix Hsource Hwf Hin source Ht Hex).
    simpl. by apply insert_id.
  - by rewrite (link_over_dangling h source target w Hposix Hsource Hwf Hin source Ht Hex).
Qed.

(** C1, as amended. On a host with native symbolic links, in a well-formed
    file system where [target] exists inside a directory: a symbolic link
    at [target] is removed and no backup is made; a regular file is renamed
    to [target + ".backup"] when that path is not a directory, replacing a
    file or link there; a directory is renamed to [target + ".backup"],
    with its entries, when nothing is at that path. In each case the new
    link is then made at [target], and the log shows the order. *)
Theorem link_displaces_target (h : host) (source target : string) (w : world) :
  is_windows (self w) = false -> source <> "" ->
  well_formed (fs w) -> in_directory (fs w) target ->
  path_exists (fs w) target = true ->
  islink (fs w) target = true
  \/ ((exists c, fs w !! target = Some (File c))
      /\ isdir (fs w) (target +:+ ".backup") = false)
  \/ (fs w !! target = Some Dir /\ fs w !! (target +:+ ".backup") = None) ->
  let w' := snd (create_symlink h source target w) in
  Claimed.displaces_target h source target w /\
  (fs w !! target = Some Dir ->
   forall r, fs w' !! ((target +:+ ".backup") +:+ "/" +:+ r)
             = fs w !! (target +:+ "/" +:+ r)) /\
  log w' = (log w ++ if islink (fs w) target
                     then [created source target]
                     else [backed_up target; created source target])%list.
Proof.
  intros Hposix Hsource Hwf Hin Hex Hcase. unfold Claimed.displaces_target.
  destruct Hcase as [Hl|[[[c Hc] Hb]|[Hd Hb]]].
  - unfold islink in Hl. destruct (fs w !! target) as [[c| |d]|] eqn:Ht; try done.
    rewrite (link_over_link h source target w Hposix Hsource Hwf Hin d Ht Hex).
    unfold islink. rewrite Ht. simpl. split_and!.
    + rewrite lookup_insert_ne; [done|apply backup_neq].
    + apply lookup_insert_eq.
    + done.
    + done.
  - rewrite (link_over_file h source target w Hposix Hsource Hwf Hin c Hc Hb).
    unfold islink. rewrite Hc. simpl. split_and!.
    + rewrite lookup_insert_ne by apply backup_neq. apply lookup_insert_eq.
    + apply lookup_insert_eq.
    + done.
    + by rewrite <- List.app_assoc.
  - rewrite (link_over_dir h source target w Hposix Hsource Hwf Hin Hd Hb).
    unfold islink. rewrite Hd. simpl.
    destruct (moved_tree_lookup (fs w) target) as (Hroot & Hsub & _).
    split_and!.
    + rewrite lookup_insert_ne by apply backup_neq. by rewrite Hroot.
    + apply lookup_insert_eq.
    + intros _ r. rewrite lookup_insert_ne; [apply Hsub|].
      intros Heq. apply (f_equal String.length) in Heq.
      rewrite !PathFacts.app_length in Heq. simpl in Heq. lia.
    + by rewrite <- List.app_assoc.
Qed.

Lemma link_displaces_target_witness :
  Claimed.displaces_target Sample.linux Sample.gitconfig_source
    Sample.gitconfig (Sample.start Sample.with_file Sample.linux_manager).
Proof.
  refine (proj1 (link_displaces_target Sample.linux Sample.gitconfig_source
    Sample.gitconfig (Sample.start Sample.with_file Sample.linux_manager)
    _ _ _ _ _ _)).
  - reflexivity.
  - discriminate.
  - apply (bool_decide_unpack _). vm_compute. exact I.
  - apply (bool_decide_unpack _). vm_compute. exact I.
  - vm_compute. reflexivity.
  - right. left. split; [exists "old"|]; vm_compute; reflexivity.
Defined.

(** C1 as stated fails: a regular file at [target] is not renamed to
    [target + ".backup"] when a directory is at that path; the directory
    stays and the file is moved into it. *)
Lemma link_keeps_backup_directory :
  let w := Sample.start Sample.with_file_and_backup_dir Sample.linux_manager in
  let w' := snd (create_symlink Sample.linux Sample.gitconfig_source
                   Sample.gitconfig w) in
  path_exists (fs w) Sample.gitconfig = true /\
  fs w' !! "/home/u/.gitconfig.backup" = Some Dir /\
  fs w' !! "/home/u/.gitconfig.backup/.gitconfig" = Some (File "new") /\
  ~ Claimed.displaces_target Sample.linux Sample.gitconfig_source
      Sample.gitconfig w.
Proof.
  split_and!; [by vm_compute..|].
  intros [H _]. vm_compute in H. discriminate.
Qed.

(** The state a first run leaves is one a second run changes nothing in. *)
Lemma second_run_idle (h : host) (source target : string) (w1 : world) (m : gmap string node) :
  is_windows (self w1) = false -> source <> "" ->
  well_formed m -> in_directory m target -> m !! target <> Some Dir ->
  fs w1 = <[target := Link source]> m ->
  fs (snd (create_symlink h source target w1)) = fs w1.
Proof.
  intros Hposix Hsource Hwf Hin Hnd Hfs.
  destruct (well_formed_linked m target (Link source) Hwf Hin Hnd) as [Hwf1 Hin1].
  apply link_again; rewrite ?Hfs; try done. apply lookup_insert_eq.
Qed.

(** Linking from the world [os.makedirs] left is linking from the start. *)
Lemma link_after_makedirs (h : host) (source target : string) (w w0 : world) :
  makedirs (dirname target) true w = (Ok tt, w0) ->
  makedirs (dirname target) true w0 = (Ok tt, w0) ->
  create_symlink h source target w = create_symlink h source target w0.
Proof.
  intros H1 H2. unfold create_symlink, try_except, create_symlink_body.
  by rewrite (bind_ok _ _ _ _ _ H1), (bind_ok _ _ _ _ _ H2).
Qed.

(** A second run over a link to [source] in a directory that is in place
    changes no file, whether or not [source] is there. *)
Lemma relink (h : host) (source target : string) (w1 : world) :
  is_windows (self w1) = false -> source <> "" ->
  makedirs (dirname target) true w1 = (Ok tt, w1) ->
  fs w1 !! dirname target = Some Dir -> dirname target <> target ->
  fs w1 !! target = Some (Link source) ->
  fs (snd (create_symlink h source target w1)) = fs w1.
Proof.
  intros Hposix Hsource Hidle Hdir Hroot Ht.
  unfold create_symlink, try_except, create_symlink_body.
  rewrite (bind_ok _ _ _ _ _ Hidle).
  unfold bind at 1. unfold get_fs at 1. unfold bind at 1.
  destruct (path_exists (fs w1) target) eqn:Hex.
  - unfold islink. rewrite Ht.
    erewrite fs_call_ok; [|unfold unlink; by rewrite Ht].
    rewrite (link_tail h source target w1 Hposix Hsource
               (delete target (fs w1)));
      [|done|done|apply lookup_delete_eq|by rewrite lookup_delete_ne].
    cbn [snd fs add_log with_fs].
    rewrite insert_delete_eq. by apply insert_id.
  - unfold ret at 1.
    unfold bind at 1. unfold get_self at 1. rewrite Hposix.
    erewrite bind_raise; [done|].
    apply fs_call_raise. unfold symlink, lexists.
    by rewrite (source_nonempty source Hsource), Ht.
Qed.

(** Names shorter than [target] are where a move of [target] to its
    backup left them. *)
Lemma short_lookup_moved (m : gmap string node) (target k : string) :
  String.length k < String.length target ->
  move_tree target (target +:+ ".backup") m !! k = m !! k.
Proof.
  intros Hk. rewrite lookup_move_tree, strip_prefix_longer.
  - by rewrite not_in_tree_longer.
  - rewrite PathFacts.app_length. lia.
Qed.

(** The second run after a first one that left the names above [target]
    alone. *)
Lemma second_run_settled (h : host) (source target : string) (w w1 : world)
    (m1 : gmap string node) :
  is_windows (self w) = false -> source <> "" ->
  well_formed (fs w) -> in_directory (fs w) target ->
  self w1 = self w -> fs w1 = <[target := Link source]> m1 ->
  (forall k, String.length k < String.length target -> m1 !! k = fs w !! k) ->
  fs (snd (create_symlink h source target w1)) = fs w1.
Proof.
  intros Hposix Hsource Hwf [Hroot Hdir] Hself Hfs Hshort.
  pose proof (dirname_proper target Hroot) as Hlen.
  pose proof (dirname_length (dirname target)) as Hlen1.
  pose proof (dirname_length (dirname (dirname target))) as Hlen2.
  assert (forall k, String.length k < String.length target ->
                    fs w1 !! k = fs w !! k) as Hsame.
  { intros k Hk. rewrite Hfs, lookup_insert_ne by (intros ->; lia).
    by apply Hshort. }
  destruct (anchored _ _ Hwf Hdir) as (H1 & H2 & H3).
  apply relink; try done.
  - by rewrite Hself.
  - unfold makedirs, recursion_limit. change 1000 with (S 999).
    apply makedirs_rec_anchored; [done|by rewrite Hsame|..];
      rewrite Hsame by lia; done.
  - by rewrite Hsame.
  - rewrite Hfs. apply lookup_insert_eq.
Qed.

(** Two runs at a [target] whose directory is there. *)
Lemma link_twice_in_directory (h : host) (source target : string) (w : world) :
  is_windows (self w) = false -> source <> "" ->
  well_formed (fs w) -> in_directory (fs w) target ->
  fs w !! target = None
  \/ (exists d, fs w !! target = Some (Link d)
                /\ (path_exists (fs w) target = true \/ d = source))
  \/ (exists c, fs w !! target = Some (File c)
                /\ isdir (fs w) (target +:+ ".backup") = false)
  \/ (fs w !! target = Some Dir
      /\ (fs w !! (target +:+ ".backup") = None
          \/ (fs w !! (target +:+ ".backup") = Some Dir
              /\ fs w !! join (target +:+ ".backup") [shutil_basename target]
                 = None))) ->
  let w1 := snd (create_symlink h source target w) in
  let w2 := snd (create_symlink h source target w1) in
  Claimed.links_twice h source target w /\ fs w2 = fs w1.
Proof.
  intros Hposix Hsource Hwf Hin Hstart. unfold Claimed.links_twice.
  pose proof (dirname_proper target (proj1 Hin)) as Hlen.
  destruct Hstart as [Ht|[(d & Ht & Hex)|[(c & Ht & Hb)|[Ht Hb]]]].
  - rewrite (link_fresh h source target w Hposix Hsource Hwf Hin Ht).
    cbn [snd]. cbv zeta.
    rewrite (second_run_idle h source target _ (fs w)); try done;
      [|congruence].
    cbn [fs add_log with_fs]. rewrite lookup_insert_eq.
    split_and!; try done. intros c Hc. congruence.
  - destruct (path_exists (fs w) target) eqn:Hres.
    + rewrite (link_over_link h source target w Hposix Hsource Hwf Hin d Ht Hres).
      cbn [snd]. cbv zeta.
      rewrite (second_run_idle h source target _ (fs w)); try done;
        [|congruence].
      cbn [fs add_log with_fs]. rewrite lookup_insert_eq.
      split_and!; try done. intros c Hc. congruence.
    + destruct Hex as [Hex| ->]; [done|].
      rewrite (link_over_dangling h source target w Hposix Hsource Hwf Hin
                 source Ht Hres).
      cbn [snd]. cbv zeta.
      rewrite (second_run_settled h source target w _ (fs w)); try done;
        [|cbn [fs add_log]; symmetry; by apply insert_id].
      cbn [fs add_log]. split_and!; try done. intros c Hc. congruence.
  - rewrite (link_over_file h source target w Hposix Hsource Hwf Hin c Ht Hb).
    cbn [snd]. cbv zeta.
    destruct Hin as [Hroot Hdir].
    rewrite (second_run_idle h source target _
               (<[target +:+ ".backup" := File c]> (fs w))); try done.
    + cbn [fs add_log with_fs]. rewrite lookup_insert_eq.
      split_and!; try done. intros c' Hc'. split.
      * rewrite lookup_insert_ne by apply backup_neq.
        rewrite lookup_insert_eq. congruence.
      * intros p Hp Hpb. by rewrite !lookup_insert_ne.
    + apply well_formed_insert; try done.
      * by destruct target.
      * by apply isdir_false_not_Dir.
      * rewrite dirname_backup. tauto.
    + split; [done|].
      rewrite lookup_insert_ne; [done|]. intros Heq. symmetry in Heq.
      by apply dirname_neq_backup in Heq.
    + rewrite lookup_insert_ne; [congruence|].
      intros Heq. symmetry in Heq. by apply backup_neq in Heq.
  - destruct Hb as [Hb|[Hb Hr]].
    + rewrite (link_over_dir h source target w Hposix Hsource Hwf Hin Ht Hb).
      cbn [snd]. cbv zeta.
      rewrite (second_run_settled h source target w _
                 (move_tree target (target +:+ ".backup") (fs w))); try done.
      * cbn [fs add_log with_fs]. rewrite lookup_insert_eq.
        split_and!; try done. intros c Hc. congruence.
      * intros k Hk. by apply short_lookup_moved.
    + pose proof (inside_backup_longer target) as Hlong.
      rewrite (link_over_dir_into h source target w Hposix Hsource Hwf Hin
                 Ht Hb Hr).
      cbn [snd]. cbv zeta.
      rewrite (second_run_settled h source target w _
                 (move_tree target
                    (join (target +:+ ".backup") [shutil_basename target])
                    (fs w))); try done.
      * cbn [fs add_log with_fs]. rewrite lookup_insert_eq.
        split_and!; try done. intros c Hc. congruence.
      * intros k Hk. rewrite lookup_moved_short by lia.
        by rewrite not_in_tree_longer.
Qed.

Lemma can_make_step (n : nat) (m : gmap string node) (d : string) :
  can_make (S n) m d
  = match m !! d with
    | Some Dir => true
    | Some _ => false
    | None =>
        nonempty (basename d) && negb (bool_decide (basename d = "."))
        && (negb (nonempty (dirname d)) || can_make n m (dirname d))
    end.
Proof. done. Qed.

(** C3, as amended. On a host with native symbolic links, in a well-formed
    file system, for a [target] other than the root whose directory is
    there or can be made by [os.makedirs], and that is absent, or a link
    that resolves or already points to [source], or a regular file whose
    [target + ".backup"] is not a directory, or a directory whose
    [target + ".backup"] is free or is a directory without an entry of
    the name of [target]: after each of two runs [target] is a link to
    [source], the second run changes no file, and a regular file that was
    at [target] is at [target + ".backup"] while no other path differs
    from the start. *)
Theorem link_twice_settles (h : host) (source target : string) (w : world) :
  is_windows (self w) = false -> source <> "" ->
  well_formed (fs w) -> dirname target <> target ->
  can_make recursion_limit (fs w) (dirname target) = true ->
  fs w !! target = None
  \/ (exists d, fs w !! target = Some (Link d)
                /\ (path_exists (fs w) target = true \/ d = source))
  \/ (exists c, fs w !! target = Some (File c)
                /\ isdir (fs w) (target +:+ ".backup") = false)
  \/ (fs w !! target = Some Dir
      /\ (fs w !! (target +:+ ".backup") = None
          \/ (fs w !! (target +:+ ".backup") = Some Dir
              /\ fs w !! join (target +:+ ".backup") [shutil_basename target]
                 = None))) ->
  let w1 := snd (create_symlink h source target w) in
  let w2 := snd (create_symlink h source target w1) in
  Claimed.links_twice h source target w /\ fs w2 = fs w1.
Proof.
  intros Hposix Hsource Hwf Hroot Hcan Hstart.
  pose proof Hcan as Hcan'.
  unfold recursion_limit in Hcan'. change 1000 with (S 999) in Hcan'.
  rewrite can_make_step in Hcan'.
  destruct (fs w !! dirname target) as [[c| |l]|] eqn:Hpar; try done.
  { by apply link_twice_in_directory. }
  assert (fs w !! target = None) as Ht.
  { destruct (fs w !! target) as [x|] eqn:Hx; [|done].
    destruct (well_formed_parent _ _ _ Hwf Hx) as [Hp|[Hp|Hp]];
      [done| |congruence].
    rewrite Hp in Hcan'. by vm_compute in Hcan'. }
  destruct (makedirs_chain _ _ w Hwf Hcan) as (m0 & Hmk & Hwf0 & Hd0 & Hk0).
  pose proof (dirname_proper target Hroot) as Hlen.
  assert (makedirs (dirname target) true (with_fs m0 w)
          = (Ok tt, with_fs m0 w)) as Hidle.
  { unfold makedirs, recursion_limit. change 1000 with (S 999).
    by apply makedirs_rec_existing. }
  pose proof (link_after_makedirs h source target w _ Hmk Hidle) as Heq.
  destruct (link_twice_in_directory h source target (with_fs m0 w))
    as ((H1 & H2 & _) & H3); try done.
  { left. cbn [fs with_fs]. by rewrite Hk0. }
  cbv zeta. unfold Claimed.links_twice. rewrite Heq.
  split_and!; try done. intros c Hc. congruence.
Qed.

Lemma link_twice_settles_witness :
  Claimed.links_twice Sample.linux Sample.gitconfig_source Sample.gitconfig
    (Sample.start Sample.with_file Sample.linux_manager).
Proof.
  refine (proj1 (link_twice_settles Sample.linux Sample.gitconfig_source
    Sample.gitconfig (Sample.start Sample.with_file Sample.linux_manager)
    _ _ _ _ _ _)).
  - reflexivity.
  - discriminate.
  - apply (bool_decide_unpack _). vm_compute. exact I.
  - intros H. vm_compute in H. discriminate.
  - vm_compute. reflexivity.
  - right. right. left. exists "old". split; vm_compute; reflexivity.
Defined.

(** C3 as stated fails where a directory is at [target + ".backup"]. If
    it holds an entry of the name of [target], neither run makes the
    link and [target] stays the regular file it was. If it does not, the
    link is made, but the file is put into that directory and
    [target + ".backup"] is not the backup file. *)
Lemma link_twice_blocked_by_backup_directory :
  let w := Sample.start Sample.with_file_and_full_backup_dir
             Sample.linux_manager in
  let w1 := snd (create_symlink Sample.linux Sample.gitconfig_source
                   Sample.gitconfig w) in
  let w2 := snd (create_symlink Sample.linux Sample.gitconfig_source
                   Sample.gitconfig w1) in
  let v := Sample.start Sample.with_file_and_backup_dir
             Sample.linux_manager in
  let v1 := snd (create_symlink Sample.linux Sample.gitconfig_source
                   Sample.gitconfig v) in
  let v2 := snd (create_symlink Sample.linux Sample.gitconfig_source
                   Sample.gitconfig v1) in
  fs w1 !! Sample.gitconfig = Some (File "new") /\
  fs w2 !! Sample.gitconfig = Some (File "new") /\
  ~ Claimed.links_twice Sample.linux Sample.gitconfig_source
      Sample.gitconfig w /\
  fs v2 !! Sample.gitconfig = Some (Link Sample.gitconfig_source) /\
  fs v2 !! "/home/u/.gitconfig.backup" = Some Dir /\
  fs v2 !! "/home/u/.gitconfig.backup/.gitconfig" = Some (File "new") /\
  ~ Claimed.links_twice Sample.linux Sample.gitconfig_source
      Sample.gitconfig v.
Proof.
  split_and!; try (by vm_compute).
  - intros [H _]. vm_compute in H. discriminate.
  - intros (_ & _ & H). destruct (H "new") as [Hb _]; [by vm_compute|].
    vm_compute in Hb. discriminate.
Qed.

(** C10, as amended. On a host with native symbolic links, in a
    well-formed file system: a dangling link at [target] fails the existence check, so it
    is neither removed nor backed up; making the link then fails, the
    failure is logged, nothing is raised, and the file system, with the
    dangling link, is as it was. *)
Theorem dangling_link_stays (h : host) (source target d : string) (w : world) :
  is_windows (self w) = false -> source <> "" ->
  well_formed (fs w) -> in_directory (fs w) target ->
  fs w !! target = Some (Link d) -> path_exists (fs w) target = false ->
  create_symlink h source target w
  = (Ok tt, add_log (failed (FileExistsError target)) w)
  /\ fs (snd (create_symlink h source target w)) !! target = Some (Link d)
  /\ fs (snd (create_symlink h source target w)) !! (target +:+ ".backup")
     = fs w !! (target +:+ ".backup").
Proof.
  intros Hposix Hsource Hwf Hin Ht Hex.
  rewrite (link_over_dangling h source target w Hposix Hsource Hwf Hin d Ht Hex).
  by split_and!.
Qed.

Lemma dangling_link_stays_witness :
  create_symlink Sample.linux Sample.gitconfig_source Sample.gitconfig
    (Sample.start Sample.with_dangling_link Sample.linux_manager)
  = (Ok tt, add_log (failed (FileExistsError Sample.gitconfig))
              (Sample.start Sample.with_dangling_link Sample.linux_manager)).
Proof.
  refine (proj1 (dangling_link_stays Sample.linux Sample.gitconfig_source
    Sample.gitconfig "/home/u/gone"
    (Sample.start Sample.with_dangling_link Sample.linux_manager)
    _ _ _ _ _ _)).
  - reflexivity.
  - discriminate.
  - apply (bool_decide_unpack _). vm_compute. exact I.
  - apply (bool_decide_unpack _). vm_compute. exact I.
  - vm_compute. reflexivity.
  - vm_compute. reflexivity.
Defined.

(** C10 as stated fails on Windows: the link is left to the [mklink]
    command, whose status is not looked at; the dangling link stays, no
    failure is logged, and the log reports the link as created. *)
Lemma dangling_link_on_windows :
  let w := Sample.start Sample.with_dangling_link Sample.windows_home_manager in
  let r := create_symlink Sample.windows Sample.gitconfig_source
             Sample.gitconfig w in
  fs w !! Sample.gitconfig = Some (Link "/home/u/gone") /\
  path_exists (fs w) Sample.gitconfig = false /\
  fs (snd r) !! Sample.gitconfig = Some (Link "/home/u/gone") /\
  trace (snd r) = [Shell (mklink_file Sample.gitconfig_source Sample.gitconfig)] /\
  log (snd r) = [created Sample.gitconfig_source Sample.gitconfig] /\
  r <> (Ok tt, add_log (failed (FileExistsError Sample.gitconfig)) w).
Proof.
  split_and!; [by vm_compute..|].
  intros H. apply (f_equal (fun r => log (snd r))) in H.
  vm_compute in H. discriminate.
Qed.

(** C2 fails where the link at [target] is dangling: [target] pre-exists
    as a link, yet after the run it is still the old link and not a link
    to [source]; the only trace of the run is the logged error. *)
Theorem dangling_link_is_not_replaced :
  let w := Sample.start Sample.with_dangling_link Sample.linux_manager in
  let w' := snd (create_symlink Sample.linux Sample.gitconfig_source
                   Sample.gitconfig w) in
  islink (fs w) Sample.gitconfig = true /\
  fs w' !! Sample.gitconfig = Some (Link "/home/u/gone") /\
  fs w' !! Sample.gitconfig <> Some (Link Sample.gitconfig_source) /\
  log w' = [failed (FileExistsError Sample.gitconfig)].
Proof.
  split_and!; [by vm_compute..| |by vm_compute].
  intros H. vm_compute in H. discriminate.
Qed.

Lemma bind_returns {A} (m : M A) (k : A -> M unit) (w : world) :
  (forall w0, exists a, fst (m w0) = Ok a) ->
  (forall a w0, fst (k a w0) = Ok tt) ->
  fst (bind m k w) = Ok tt.
Proof.
  intros Hm Hk. unfold bind. destruct (Hm w) as [a Ha].
  destruct (m w) as [[a'|e] w1]; simpl in Ha; [apply Hk|discriminate].
Qed.

(** [create_symlink] returns, whatever happens in its body. *)
Lemma create_symlink_returns (h : host) (source target : string) (w : world) :
  fst (create_symlink h source target w) = Ok tt.
Proof.
  unfold create_symlink, try_except.
  by destruct (create_symlink_body h source target w) as [[[]|e] w1].
Qed.

Lemma setup_git_returns (h : host) (w : world) : fst (setup_git h w) = Ok tt.
Proof.
  unfold setup_git, bind, logger_info, emit, get_self.
  apply create_symlink_returns.
Qed.

Lemma link_vscode_settings_returns (h : host) (w : world) :
  fst (link_vscode_settings h w) = Ok tt.
Proof.
  unfold link_vscode_settings.
  repeat (apply bind_returns;
          [intros; solve [by eexists | eexists; apply create_symlink_returns]
          |intros ? ?]).
  apply create_symlink_returns.
Qed.

(** C4. Whatever is raised while the parent directory is made, the old
    target is removed or backed up, or the link is made, [create_symlink]
    catches it: it returns normally, and the world is the one the failing
    step left plus one error record carrying the exception. The steps
    built from it alone, [setup_git] and the three links of
    [setup_vscode], therefore never raise either. *)
Theorem create_symlink_never_raises (h : host) (source target : string)
    (w : world) :
  create_symlink h source target w
  = match create_symlink_body h source target w with
    | (Ok _, w') => (Ok tt, w')
    | (Raise e, w') => (Ok tt, add_log (failed e) w')
    end
  /\ fst (create_symlink h source target w) = Ok tt
  /\ fst (setup_git h w) = Ok tt
  /\ fst (link_vscode_settings h w) = Ok tt.
Proof.
  split_and!.
  - unfold create_symlink, try_except.
    by destruct (create_symlink_body h source target w) as [[[]|e] w1].
  - apply create_symlink_returns.
  - apply setup_git_returns.
  - apply link_vscode_settings_returns.
Qed.

End Linker.

(* ===================================================================== *)
(** ** Commands and the editor step                                       *)
(* ===================================================================== *)

Module Commands.
Import Run.

(** A command that ran to its end: [run_command] returns whether the
    status is zero, and logs the command and the error when it is not. *)
Lemma run_command_exited (h : host) (command : list string) (w : world)
    (status : Z) (m' : gmap string node) :
  execute h (Argv command) (fs w) = (Exited status, m') ->
  run_command h command w
  = let w1 := World m' (log w) (trace w ++ [Argv command]) (stdin w) (self w)
                (assigned w) in
    if bool_decide (status = 0%Z) then (Ok true, w1)
    else (Ok false,
          add_log (LogRecord ERROR "Error: "
                     (Some (CalledProcessError command status)))
            (add_log (LogRecord ERROR
                        ("Command failed: " +:+ Text.str_join " " command) None)
               w1)).
Proof.
  intros Hexec. unfold run_command, try_except, bind, subprocess_run_check,
    spawn, bind. rewrite Hexec. cbv zeta.
  case_bool_decide as Hs.
  - subst status. done.
  - destruct status; [done|done..].
Qed.

(** A command that could not be started: the exception leaves
    [run_command]. *)
Lemma run_command_not_started (h : host) (command : list string) (w : world)
    (e : exn) (m' : gmap string node) :
  execute h (Argv command) (fs w) = (NotStarted e, m') ->
  is_CalledProcessError e = false ->
  run_command h command w
  = (Raise e, World (fs w) (log w) (trace w ++ [Argv command]) (stdin w)
                (self w) (assigned w)).
Proof.
  intros Hexec He. unfold run_command, try_except, bind, subprocess_run_check,
    spawn, bind. rewrite Hexec. cbv zeta. unfold raise. by rewrite He.
Qed.

(** Without an extensions file the editor step runs no command and
    returns. *)
Lemma install_extensions_without_file (h : host) (w : world) :
  Fs.path_exists (fs w) (extensions_file (self w)) = false ->
  install_extensions h w = (Ok tt, w).
Proof.
  intros Hex. unfold install_extensions, bind, get_self, get_fs.
  by rewrite Hex.
Qed.

(** Where every command can be started, the loop invokes one install
    command per line that is not blank, in order, and returns. *)
Lemma install_each_trace (h : host) (exts : list string) (w : world) :
  (forall c m, exists status m', execute h (Argv c) m = (Exited status, m')) ->
  fst (install_each h exts w) = Ok tt /\
  trace (snd (install_each h exts w))
  = (trace w ++
     ((fun l => Argv ["code"; "--install-extension"; Text.strip l]) <$>
      filter (fun l => Is_true (Text.truthy (Text.strip l))) exts))%list.
Proof.
  intros Hstart. revert w. unfold install_each.
  induction exts as [|l exts IH]; intros w; cbn [for_each].
  - split; [done|]. by rewrite filter_nil, app_nil_r.
  - destruct (Text.truthy (Text.strip l)) eqn:Hl.
    + rewrite filter_cons_True by (by rewrite Hl).
      destruct (Hstart ["code"; "--install-extension"; Text.strip l] (fs w))
        as (status & m' & Hexec).
      assert (exists w1,
        (run_command h ["code"; "--install-extension"; Text.strip l] ;; ret tt) w
        = (Ok tt, w1) /\
        trace w1 = (trace w ++
          [Argv ["code"; "--install-extension"; Text.strip l]])%list)
        as (w1 & Hbody & Htrace).
      { unfold bind. rewrite (run_command_exited _ _ _ _ _ Hexec).
        cbv zeta. case_bool_decide; eexists; split; reflexivity. }
      rewrite (bind_ok _ _ _ _ _ Hbody). destruct (IH w1) as [IH1 IH2].
      split; [done|]. rewrite IH2, Htrace. cbn [fmap list_fmap].
      by rewrite <- List.app_assoc.
    + rewrite filter_cons_False by (rewrite Hl; simpl; tauto).
      rewrite (bind_ok _ _ w w tt) by done. apply IH.
Qed.

(** C5 fails where the command cannot be started: [run_command] runs no
    process to completion and returns no boolean; the [FileNotFoundError]
    of [subprocess.run] is not a [CalledProcessError] and leaves the
    method, unlogged. *)
Theorem run_command_raises_when_not_started :
  let w := Sample.start Sample.with_extensions Sample.linux_manager in
  let command := ["code"; "--install-extension"; "ms-python.python"] in
  run_command Sample.linux_without_code command w
  = (Raise (FileNotFoundError "code"),
     World (fs w) [] [Argv command] [] (self w) []).
Proof. by vm_compute. Qed.

(** C6 fails on the same machine: the home directory resolves and the
    dotfiles directory is there, yet the run ends with status 1, on the
    exception of the first extension install. *)
Theorem exit_status_when_not_started :
  let w := Sample.start Sample.with_extensions Sample.blank in
  path_home Sample.linux_without_code = Some "/home/u" /\
  Fs.isdir (fs w) "/home/u/dotfiles" = true /\
  fst (main Sample.linux_without_code w) = Raise (FileNotFoundError "code") /\
  exit_status Sample.linux_without_code w = 1%Z.
Proof. by vm_compute. Qed.

(** The lines of the sample extensions file that are not blank. *)
Lemma sample_extensions :
  filter (fun l => Is_true (Text.truthy (Text.strip l)))
    (Text.readlines Sample.extensions_txt)
  = [String.append "ms-python.python" (String Text.LF "");
     String.append "rust-lang.rust-analyzer" (String Text.LF "")].
Proof. by vm_compute. Qed.

(** C8 fails on the same machine: the extensions file has two lines that
    are not blank, but one install command is invoked, not two; its
    exception ends the step. *)
Theorem install_stops_when_not_started :
  let w := Sample.start Sample.with_extensions Sample.linux_manager in
  let r := install_extensions Sample.linux_without_code w in
  length (filter (fun l => Is_true (Text.truthy (Text.strip l)))
            (Text.readlines Sample.extensions_txt)) = 2 /\
  fst r = Raise (FileNotFoundError "code") /\
  trace (snd r) = [Argv ["code"; "--install-extension"; "ms-python.python"]].
Proof. by vm_compute. Qed.

End Commands.

(* ===================================================================== *)
(** ** The Step Runner and the Environment                                *)
(* ===================================================================== *)

Module Runner.
Import Run Relations Keeps.

Lemma link_announces_nothing (h : host) (source target : string) (w : world) :
  same_announcements w (snd (create_symlink h source target w)).
Proof.
  apply (keeps_create_symlink same_announcements
           (fun r => is_announcement r = false) (fun _ => True));
    try done.
  - apply same_announcements_trans.
  - apply same_announcements_log.
Qed.

Lemma makedirs_announces_nothing (name : string) (w : world) :
  same_announcements w (snd (Os.makedirs name true w)).
Proof.
  apply (keeps_makedirs same_announcements); try done.
  apply same_announcements_trans.
Qed.

Lemma install_announces_nothing (h : host) (w : world) :
  same_announcements w (snd (install_extensions h w)).
Proof.
  apply (keeps_install_extensions same_announcements
           (fun r => is_announcement r = false) (fun _ => True));
    try done.
  - apply same_announcements_trans.
  - apply same_announcements_log.
Qed.

Lemma setup_git_announces (h : host) (w : world) :
  fst (setup_git h w) = Ok tt /\
  announcements (log (snd (setup_git h w)))
  = (announcements (log w) ++ ["Setting up Git configuration..."])%list.
Proof.
  split; [apply Linker.setup_git_returns|].
  unfold setup_git, bind, logger_info, emit, get_self.
  rewrite link_announces_nothing. apply announcements_snoc.
Qed.

Lemma link_vscode_settings_announces (h : host) (w : world) :
  fst (link_vscode_settings h w) = Ok tt /\
  announcements (log (snd (link_vscode_settings h w)))
  = (announcements (log w) ++ ["Setting up VS Code..."])%list.
Proof.
  split; [apply Linker.link_vscode_settings_returns|].
  assert (announcements
            (log (add_log (LogRecord INFO "Setting up VS Code..." None) w))
          = (announcements (log w) ++ ["Setting up VS Code..."])%list) as <-
    by apply announcements_snoc.
  change (same_announcements
            (add_log (LogRecord INFO "Setting up VS Code..." None) w)
            (snd (link_vscode_settings h w))).
  unfold link_vscode_settings.
  rewrite (bind_ok _ _ w
             (add_log (LogRecord INFO "Setting up VS Code..." None) w) tt)
    by done.
  generalize (add_log (LogRecord INFO "Setting up VS Code..." None) w).
  apply keeps_bind; [apply same_announcements_trans|done|]. intros s.
  repeat (apply keeps_bind; [apply same_announcements_trans
                            |intros w0; apply link_announces_nothing
                            |intros _]).
  intros w0; apply link_announces_nothing.
Qed.

Lemma setup_vscode_announces (h : host) (w : world) :
  announcements (log (snd (setup_vscode h w)))
  = (announcements (log w) ++ ["Setting up VS Code..."])%list.
Proof.
  destruct (link_vscode_settings_announces h w) as [Hok Hann].
  unfold setup_vscode, bind.
  destruct (link_vscode_settings h w) as [[[]|e] w1]; simpl in *; [|done].
  by rewrite install_announces_nothing.
Qed.

(** What [setup_all] announces: the two steps, once the dotfiles
    directory is there. *)
Lemma setup_all_announces (h : host) (w : world) :
  announcements (log (snd (setup_all h w)))
  = (announcements (log w) ++
     match fst (Os.makedirs (dotfiles_path (self w)) true
                  (add_log (LogRecord INFO
                     "Starting development environment setup..." None) w)) with
     | Ok _ => ["Setting up Git configuration..."; "Setting up VS Code..."]
     | Raise _ => []
     end)%list.
Proof.
  unfold setup_all.
  rewrite (bind_ok _ _ w (add_log (LogRecord INFO
             "Starting development environment setup..." None) w) tt) by done.
  unfold bind at 1. unfold get_self at 1. cbn [self add_log].
  pose proof (makedirs_announces_nothing (dotfiles_path (self w))
    (add_log (LogRecord INFO
       "Starting development environment setup..." None) w)) as Hmk.
  unfold bind at 1.
  destruct (Os.makedirs _ _ _) as [[[]|e] w1]; cbn [fst snd] in *.
  - unfold same_announcements in Hmk. cbn [log add_log] in Hmk.
    rewrite announcements_plain in Hmk by reflexivity.
    destruct (setup_git_announces h w1) as [Hok Hgit].
    unfold bind at 1.
    destruct (setup_git h w1) as [[[]|e] w2]; cbn [fst snd] in *; [|done].
    pose proof (setup_vscode_announces h w2) as Hvs.
    unfold bind at 1.
    destruct (setup_vscode h w2) as [[[]|e] w3]; cbn [fst snd] in *.
    + unfold bind, logger_info, emit, get_self. cbn [self add_log].
      destruct (is_windows (self w3)); unfold ret; cbn [snd log add_log].
      all: rewrite !announcements_plain by reflexivity.
      all: rewrite Hvs, Hgit, Hmk.
      all: by rewrite <- List.app_assoc.
    + rewrite Hvs, Hgit, Hmk. by rewrite <- List.app_assoc.
  - unfold same_announcements in Hmk. cbn [log add_log] in Hmk.
    rewrite announcements_plain in Hmk by reflexivity.
    by rewrite Hmk, app_nil_r.
Qed.

Lemma setup_all_only_installs (h : host) (w : world) :
  only_installs w (snd (setup_all h w)).
Proof.
  apply (keeps_setup_all only_installs
           (fun c => is_install_or_mklink c = true)); try done.
  - apply only_installs_refl.
  - apply only_installs_trans.
  - intros m w0. exists []. by rewrite app_nil_r.
  - intros r w0. exists []. by rewrite app_nil_r.
  - intros c m w0 Hc. by apply only_installs_spawn.
Qed.

(** [setup_all], step by step: the directory is made in the world after
    the opening record, [setup_git] runs in the world that leaves and
    returns, [setup_vscode] runs in the world [setup_git] leaves, and
    the closing records follow when it returns. *)
Lemma setup_all_steps (h : host) (w : world) :
  setup_all h w
  = match Os.makedirs (dotfiles_path (self w)) true
            (add_log (LogRecord INFO
               "Starting development environment setup..." None) w) with
    | (Ok _, w1) =>
        match setup_vscode h (snd (setup_git h w1)) with
        | (Ok _, w3) =>
            (Ok tt,
             if is_windows (self w3)
             then add_log (LogRecord INFO
                    "Consider using WSL2 for a more Unix-like experience." None)
                    (add_log (LogRecord INFO
                       (String Text.LF
                          "Note: Some features are not available on Windows.")
                       None)
                       (add_log (LogRecord INFO "Setup complete! 🎉" None) w3))
             else add_log (LogRecord INFO "Setup complete! 🎉" None) w3)
        | (Raise e, w3) => (Raise e, w3)
        end
    | (Raise e, w1) => (Raise e, w1)
    end.
Proof.
  unfold setup_all.
  rewrite (bind_ok _ _ w (add_log (LogRecord INFO
             "Starting development environment setup..." None) w) tt) by done.
  unfold bind at 1. unfold get_self at 1. cbn [self add_log].
  unfold bind at 1.
  destruct (Os.makedirs _ _ _) as [[[]|e] w1]; [|done].
  pose proof (Linker.setup_git_returns h w1) as Hgit.
  unfold bind at 1.
  destruct (setup_git h w1) as [[[]|e] w2]; cbn [fst snd] in *; [|done].
  unfold bind at 1.
  destruct (setup_vscode h w2) as [[[]|e] w3]; [|done].
  unfold bind, logger_info, emit, get_self. cbn [self add_log].
  by destruct (is_windows (self w3)).
Qed.

(** C7, as amended. [setup_all] creates the dotfiles directory and then
    runs two setup routines, git config and editor config, in that order:
    after the opening record it calls [os.makedirs]; when that raises, so
    does the run, and no routine is run; when it returns, the path is a
    directory, [setup_git] runs in the world it left and returns,
    [setup_vscode] runs in the world [setup_git] left, and the run ends
    as [setup_vscode] does, with the closing records when it returns.
    These two steps are what it announces, and the only commands it runs
    are extension installs and, on Windows, the link fallback. The shell,
    terminal and package routines are not part of it. Of these, the shell
    routine does nothing on Windows and the terminal routine does nothing
    off macOS. *)
Theorem setup_all_runs_two_steps (h : host) (w : world) :
  let made :=
    Os.makedirs (dotfiles_path (self w)) true
      (add_log (LogRecord INFO
         "Starting development environment setup..." None) w) in
  setup_all h w
  = match made with
    | (Ok _, w1) =>
        match setup_vscode h (snd (setup_git h w1)) with
        | (Ok _, w3) =>
            (Ok tt,
             if is_windows (self w3)
             then add_log (LogRecord INFO
                    "Consider using WSL2 for a more Unix-like experience." None)
                    (add_log (LogRecord INFO
                       (String Text.LF
                          "Note: Some features are not available on Windows.")
                       None)
                       (add_log (LogRecord INFO "Setup complete! 🎉" None) w3))
             else add_log (LogRecord INFO "Setup complete! 🎉" None) w3)
        | (Raise e, w3) => (Raise e, w3)
        end
    | (Raise e, w1) => (Raise e, w1)
    end
  /\ (forall w1, fst (setup_git h w1) = Ok tt)
  /\ (fst made = Ok tt -> Fs.leaf (dotfiles_path (self w)) <> "." ->
      Fs.isdir (fs (snd made)) (dotfiles_path (self w)) = true)
  /\ announcements (log (snd (setup_all h w)))
     = (announcements (log w) ++
        match fst made with
        | Ok _ => ["Setting up Git configuration..."; "Setting up VS Code..."]
        | Raise _ => []
        end)%list
  /\ only_installs w (snd (setup_all h w))
  /\ (is_windows (self w) = true -> setup_zsh h w = (Ok tt, w))
  /\ (is_macos (self w) = false -> setup_iterm h w = (Ok tt, w)).
Proof.
  cbv zeta. split_and!.
  - apply setup_all_steps.
  - apply Linker.setup_git_returns.
  - intros Hok Hleaf.
    destruct (Os.makedirs _ _ _) as [[[]|e] w1] eqn:Hmk; [|done].
    by apply (MakedirsFacts.makedirs_makes _ _ _ _ Hleaf Hmk).
  - apply setup_all_announces.
  - apply setup_all_only_installs.
  - intros Hw. unfold setup_zsh, bind, get_self. by rewrite Hw.
  - intros Hm. unfold setup_iterm, bind, get_self. by rewrite Hm.
Qed.

Lemma setup_all_runs_two_steps_witness :
  Fs.isdir
    (fs (snd (Os.makedirs "/home/u/dotfiles" true
                (add_log (LogRecord INFO
                   "Starting development environment setup..." None)
                   (Sample.start Sample.with_file Sample.linux_manager)))))
    "/home/u/dotfiles" = true
  /\ setup_zsh Sample.linux
       (Sample.start Sample.mac_dirs Sample.windows_manager)
     = (Ok tt, Sample.start Sample.mac_dirs Sample.windows_manager)
  /\ setup_iterm Sample.linux
       (Sample.start Sample.with_file Sample.linux_manager)
     = (Ok tt, Sample.start Sample.with_file Sample.linux_manager).
Proof.
  split_and!.
  - apply (setup_all_runs_two_steps Sample.linux
             (Sample.start Sample.with_file Sample.linux_manager)).
    + vm_compute. reflexivity.
    + intros H. vm_compute in H. discriminate.
  - apply (setup_all_runs_two_steps Sample.linux
             (Sample.start Sample.mac_dirs Sample.windows_manager)).
    reflexivity.
  - apply (setup_all_runs_two_steps Sample.linux
             (Sample.start Sample.with_file Sample.linux_manager)).
    reflexivity.
Defined.

(** C7 as stated fails: on a Mac, the run as specified announces the
    shell, terminal and package steps and runs their commands, while
    [setup_all] announces two steps and runs no command. *)
Lemma setup_all_leaves_steps_out :
  let w := Sample.start Sample.mac_dirs Sample.mac_manager in
  announcements (log (snd (setup_all Sample.mac w)))
  = ["Setting up Git configuration..."; "Setting up VS Code..."] /\
  announcements (log (snd (Claimed.setup_all_as_specified Sample.mac w)))
  = ["Setting up Git configuration..."; "Setting up VS Code...";
     "Setting up Zsh configuration..."; "Setting up iTerm2 configuration...";
     "Installing necessary packages..."] /\
  trace (snd (setup_all Sample.mac w)) = [] /\
  length (trace (snd (Claimed.setup_all_as_specified Sample.mac w))) = 8 /\
  setup_all Sample.mac w <> Claimed.setup_all_as_specified Sample.mac w.
Proof.
  split_and!; [by vm_compute..|].
  intros H. apply (f_equal (fun r => length (trace (snd r)))) in H.
  vm_compute in H. discriminate.
Qed.

(** No step and no call it makes assigns to the manager object. *)
Section SameManager.
Variable h : host.

Lemma link_keeps_manager (source target : string) :
  keeps same_manager (create_symlink h source target).
Proof. by apply keeps_any_link; try apply same_manager_trans. Qed.

Lemma run_command_keeps_manager (command : list string) :
  keeps same_manager (run_command h command).
Proof. by apply keeps_any_run_command; try apply same_manager_trans. Qed.

Lemma setup_all_keeps_manager : keeps same_manager (setup_all h).
Proof.
  by apply (keeps_setup_all same_manager (fun _ => True));
    try apply same_manager_trans.
Qed.

Lemma setup_git_keeps_manager : keeps same_manager (setup_git h).
Proof.
  by apply (keeps_setup_git same_manager (fun _ => True));
    try apply same_manager_trans.
Qed.

Lemma setup_vscode_keeps_manager : keeps same_manager (setup_vscode h).
Proof.
  by apply (keeps_setup_vscode same_manager (fun _ => True));
    try apply same_manager_trans.
Qed.

Lemma other_steps_keep_manager :
  keeps same_manager (setup_zsh h) /\ keeps same_manager (setup_iterm h) /\
  keeps same_manager (setup_python_env h) /\
  keeps same_manager (install_packages h).
Proof.
  split_and!.
  - by apply keeps_setup_zsh; try apply same_manager_trans.
  - by apply keeps_setup_iterm; try apply same_manager_trans.
  - by apply keeps_setup_python_env; try apply same_manager_trans.
  - by apply keeps_install_packages; try apply same_manager_trans.
Qed.

End SameManager.

Lemma default_dotfiles_truthy (hm : string) :
  Text.truthy (PosixPath.join hm ["dotfiles"]) = true.
Proof.
  unfold PosixPath.join, PosixPath.join2. cbn [fold_left PosixPath.startswith_sep].
  change (PosixPath.is_sep "d") with false. cbv iota.
  destruct hm as [|c hm]; [done|].
  by destruct (negb _ || _).
Qed.

(** What [main] asks for as the dotfiles directory. *)
Lemma main_from_init (h : host) (w : world) (hm : string) :
  path_home h = Some hm ->
  main h w
  = (__init__ h (Some (match getenv_DOTFILES_PATH h with
                       | Some d => if Text.truthy d then d
                                   else PosixPath.join hm ["dotfiles"]
                       | None => PosixPath.join hm ["dotfiles"]
                       end)) ;; setup_all h) w.
Proof.
  intros Hhome. unfold main, Path_home. rewrite Hhome.
  destruct (getenv_DOTFILES_PATH h) as [d|]; [destruct (Text.truthy d)|]; done.
Qed.

(** C9. The manager object is resolved once, at startup: [__init__]
    assigns each of its attributes exactly once, from the home directory,
    the dotfiles path and the platform name, and after that no setup
    step, no link and no command assigns to it again; at the end of
    [main] it is still what [__init__] made it. Without a home directory
    nothing is assigned at all. *)
Theorem environment_is_fixed_at_startup (h : host) (w : world) :
  match path_home h with
  | Some hm =>
      self (snd (main h w))
      = Manager hm
          (match getenv_DOTFILES_PATH h with
           | Some d => if Text.truthy d then d
                       else PosixPath.join hm ["dotfiles"]
           | None => PosixPath.join hm ["dotfiles"]
           end)
          (bool_decide (platform_system h = "Windows"))
          (bool_decide (platform_system h = "Darwin"))
      /\ assigned (snd (main h w))
         = (assigned w ++ ["home"; "dotfiles_path"; "is_windows"; "is_macos";
                           "logger"])%list
  | None => snd (main h w) = w
  end
  /\ same_manager w (snd (setup_all h w))
  /\ (forall source target,
        same_manager w (snd (create_symlink h source target w)))
  /\ (forall command, same_manager w (snd (run_command h command w)))
  /\ same_manager w (snd (setup_git h w))
  /\ same_manager w (snd (setup_vscode h w))
  /\ same_manager w (snd (setup_zsh h w))
  /\ same_manager w (snd (setup_iterm h w))
  /\ same_manager w (snd (setup_python_env h w))
  /\ same_manager w (snd (install_packages h w)).
Proof.
  destruct (other_steps_keep_manager h) as (Hzsh & Hiterm & Hpy & Hpkg).
  split_and!.
  - destruct (path_home h) as [hm|] eqn:Hhome.
    + rewrite (main_from_init h w hm Hhome).
      set (dp := match getenv_DOTFILES_PATH h with
                 | Some d => if Text.truthy d then d
                             else PosixPath.join hm ["dotfiles"]
                 | None => PosixPath.join hm ["dotfiles"]
                 end).
      assert (Text.truthy dp = true) as Hdp.
      { subst dp. destruct (getenv_DOTFILES_PATH h) as [d|];
          [destruct (Text.truthy d) eqn:Hd; [done|]|];
          apply default_dotfiles_truthy. }
      assert (exists w1, __init__ h (Some dp) w = (Ok tt, w1) /\
                self w1 = Manager hm dp
                            (bool_decide (platform_system h = "Windows"))
                            (bool_decide (platform_system h = "Darwin")) /\
                assigned w1 = (assigned w ++ ["home"; "dotfiles_path";
                                 "is_windows"; "is_macos"; "logger"])%list)
        as (w1 & Hinit & Hself & Hassigned).
      { eexists. split; [|split].
        - unfold __init__, Path_home. rewrite Hhome.
          unfold bind, ret, set_attr, get_self. cbn [self]. rewrite Hdp.
          reflexivity.
        - reflexivity.
        - cbn [assigned]. by rewrite <- !List.app_assoc. }
      rewrite (bind_ok _ _ _ _ _ Hinit).
      destruct (setup_all_keeps_manager h w1) as [Hs Ha].
      by rewrite Hs, Ha.
    + unfold main, __init__, Path_home. rewrite Hhome.
      by destruct (getenv_DOTFILES_PATH h) as [d|]; [destruct (Text.truthy d)|].
  - apply setup_all_keeps_manager.
  - intros source target. apply link_keeps_manager.
  - intros command. apply run_command_keeps_manager.
  - apply setup_git_keeps_manager.
  - apply setup_vscode_keeps_manager.
  - apply Hzsh.
  - apply Hiterm.
  - apply Hpy.
  - apply Hpkg.
Qed.

End Runner.

(* ===================================================================== *)
(** ** Sample runs                                                        *)
(* ===================================================================== *)

Module Runs.

Example dirname_of_target :
  PosixPath.dirname "/home/u/.gitconfig" = "/home/u" /\
  PosixPath.dirname "/x" = "/" /\ PosixPath.dirname "x" = "".
Proof. by vm_compute. Qed.

Example join_config_path :
  vscode_config_path Sample.linux_manager
  = "/home/u/Library/Application Support/Code/User".
Proof. by vm_compute. Qed.

(** The scenario of the specification: a [.gitconfig] with content
    ["old"] ends as the backup, and the link is in its place. *)
Example git_step_backs_up :
  let w' := snd (setup_git Sample.linux
                   (Sample.start Sample.with_file Sample.linux_manager)) in
  fs w' !! "/home/u/.gitconfig.backup" = Some (File "old") /\
  fs w' !! "/home/u/.gitconfig" = Some (Link "/home/u/dotfiles/git/.gitconfig").
Proof. by vm_compute. Qed.

(** A link that resolves is replaced, and nothing is backed up. *)
Example live_link_replaced :
  let w' := snd (create_symlink Sample.linux Sample.gitconfig_source
                   Sample.gitconfig
                   (Sample.start Sample.with_link Sample.linux_manager)) in
  fs w' !! Sample.gitconfig = Some (Link Sample.gitconfig_source) /\
  fs w' !! "/home/u/.gitconfig.backup" = None /\
  fs w' !! "/home/u/old.gitconfig" = Some (File "old").
Proof. by vm_compute. Qed.

(** A directory moves to the backup with its entries. *)
Example directory_backed_up :
  let w' := snd (create_symlink Sample.linux "/home/u/dotfiles/vscode/snippets"
                   "/home/u/snippets"
                   (Sample.start Sample.with_dir Sample.linux_manager)) in
  fs w' !! "/home/u/snippets.backup" = Some Dir /\
  fs w' !! "/home/u/snippets.backup/a.json" = Some (File "{}") /\
  fs w' !! "/home/u/snippets/a.json" = None /\
  fs w' !! "/home/u/snippets" = Some (Link "/home/u/dotfiles/vscode/snippets").
Proof. by vm_compute. Qed.

(** With the editor command at hand, the editor step installs the two
    extensions of the sample file, and the run ends with status 0. *)
Example extensions_installed :
  let w := Sample.start Sample.with_extensions Sample.blank in
  trace (snd (main Sample.linux w))
  = [Argv ["code"; "--install-extension"; "ms-python.python"];
     Argv ["code"; "--install-extension"; "rust-lang.rust-analyzer"]] /\
  exit_status Sample.linux w = 0%Z.
Proof. by vm_compute. Qed.

(** Without a home directory the run ends with status 1. *)
Example no_home_directory :
  exit_status (Host None "Linux" None (fun _ => None)
                 (fun _ m => (Exited 0, m)))
    (Sample.start Sample.with_extensions Sample.blank) = 1%Z.
Proof. by vm_compute. Qed.

(** The whole run on the sample home: the dotfiles directory is made,
    the git step backs up the old file and makes its link, and the editor
    step makes its links in the directories it created. *)
Example full_run_on_sample_home :
  let w' := snd (setup_all Sample.linux
                   (Sample.start Sample.with_file Sample.linux_manager)) in
  fs w' !! "/home/u/dotfiles" = Some Dir /\
  fs w' !! "/home/u/.gitconfig"
  = Some (Link "/home/u/dotfiles/git/.gitconfig") /\
  fs w' !! "/home/u/.gitconfig.backup" = Some (File "old") /\
  fs w' !! "/home/u/Library/Application Support/Code/User/settings.json"
  = Some (Link "/home/u/dotfiles/vscode/settings.json").
Proof. by vm_compute. Qed.

(** A directory at the target: the first run moves it to the backup and
    makes the link, the second changes no file. *)
Example directory_linked_twice :
  let w := Sample.start Sample.with_dir Sample.linux_manager in
  let w1 := snd (create_symlink Sample.linux "/home/u/dotfiles/vscode/snippets"
                   "/home/u/snippets" w) in
  let w2 := snd (create_symlink Sample.linux "/home/u/dotfiles/vscode/snippets"
                   "/home/u/snippets" w1) in
  fs w1 !! "/home/u/snippets" = Some (Link "/home/u/dotfiles/vscode/snippets")
  /\ fs w2 = fs w1.
Proof. by vm_compute. Qed.

(** A target two missing directories down: both are made, the link is
    made, and the second run changes no file. *)
Example deep_target_linked_twice :
  let w := Sample.start Sample.with_file Sample.linux_manager in
  let w1 := snd (create_symlink Sample.linux "/home/u/dotfiles/x"
                   "/home/u/.config/app/x" w) in
  let w2 := snd (create_symlink Sample.linux "/home/u/dotfiles/x"
                   "/home/u/.config/app/x" w1) in
  fs w !! "/home/u/.config" = None /\
  Fs.can_make Os.recursion_limit (fs w) "/home/u/.config/app" = true /\
  fs w1 !! "/home/u/.config/app" = Some Dir /\
  fs w1 !! "/home/u/.config/app/x" = Some (Link "/home/u/dotfiles/x") /\
  fs w2 = fs w1.
Proof. by vm_compute. Qed.

(** A directory at the target and a directory at its backup path: the
    tree goes into that directory. *)
Example directory_into_backup_directory :
  let w := Sample.start
             (list_to_map (Sample.home_dirs ++
                [("/home/u/snippets", Dir);
                 ("/home/u/snippets/a.json", File "{}");
                 ("/home/u/snippets.backup", Dir)]))
             Sample.linux_manager in
  let w1 := snd (create_symlink Sample.linux "/home/u/dotfiles/vscode/snippets"
                   "/home/u/snippets" w) in
  let w2 := snd (create_symlink Sample.linux "/home/u/dotfiles/vscode/snippets"
                   "/home/u/snippets" w1) in
  fs w1 !! "/home/u/snippets" = Some (Link "/home/u/dotfiles/vscode/snippets")
  /\ fs w1 !! "/home/u/snippets.backup/snippets/a.json" = Some (File "{}")
  /\ fs w2 = fs w1.
Proof. by vm_compute. Qed.

(** A directory at the target and a regular file at its backup path: the
    move fails, the directory stays and the failure is logged. *)
Example directory_blocked_by_backup_file :
  let w := Sample.start
             (list_to_map (Sample.home_dirs ++
                [("/home/u/snippets", Dir);
                 ("/home/u/snippets.backup", File "x")]))
             Sample.linux_manager in
  let w1 := snd (create_symlink Sample.linux "/home/u/dotfiles/vscode/snippets"
                   "/home/u/snippets" w) in
  fs w1 !! "/home/u/snippets" = Some Dir /\
  log w1 = [failed (FileExistsError "/home/u/snippets.backup")].
Proof. by vm_compute. Qed.

End Runs.

(* ===================================================================== *)
(** ** More on run_command and the editor step                            *)
(* ===================================================================== *)

Module CommandProps.
Import Run Commands.

(** X1. When the external process runs to its end with status [status],
    [run_command] returns whether the status is zero; the command is
    added to the trace and the file system is the one the process left;
    on a non-zero status exactly two error records are logged, the
    command line joined by spaces and the error, and on status zero
    nothing is logged. *)
Theorem run_command_reports_status (h : host) (command : list string)
    (w : world) (status : Z) (m' : gmap string node) :
  execute h (Argv command) (fs w) = (Exited status, m') ->
  let r := run_command h command w in
  fst r = Ok (bool_decide (status = 0%Z)) /\
  fs (snd r) = m' /\
  trace (snd r) = (trace w ++ [Argv command])%list /\
  log (snd r)
  = (log w ++
     if bool_decide (status = 0%Z) then []
     else [LogRecord ERROR ("Command failed: " +:+ Text.str_join " " command)
             None;
           LogRecord ERROR "Error: "
             (Some (CalledProcessError command status))])%list /\
  stdin (snd r) = stdin w /\ self (snd r) = self w.
Proof.
  intros Hexec. cbv zeta. rewrite (run_command_exited _ _ _ _ _ Hexec).
  cbv zeta. case_bool_decide; cbn [fst snd fs trace log stdin self add_log].
  - by rewrite app_nil_r.
  - by rewrite <- List.app_assoc.
Qed.

Lemma run_command_reports_status_witness :
  let r := run_command MoreSamples.linux_failing ["pip"; "install"; "-r"; "x"]
             (Sample.start Sample.with_file Sample.linux_manager) in
  fst r = Ok false /\
  log (snd r)
  = [LogRecord ERROR "Command failed: pip install -r x" None;
     LogRecord ERROR "Error: "
       (Some (CalledProcessError ["pip"; "install"; "-r"; "x"] 1))].
Proof.
  pose proof (run_command_reports_status MoreSamples.linux_failing
    ["pip"; "install"; "-r"; "x"]
    (Sample.start Sample.with_file Sample.linux_manager) 1%Z
    Sample.with_file eq_refl) as (H1 & _ & _ & H2 & _).
  split; [exact H1|exact H2].
Defined.

(** X2. When the command cannot be started, with an exception that is
    not a [CalledProcessError], [run_command] returns no boolean: the
    exception leaves it and nothing is logged; the attempt is in the
    trace and the file system is untouched. *)
Theorem run_command_passes_other_exceptions (h : host)
    (command : list string) (w : world) (e : exn) (m' : gmap string node) :
  execute h (Argv command) (fs w) = (NotStarted e, m') ->
  is_CalledProcessError e = false ->
  let r := run_command h command w in
  fst r = Raise e /\ log (snd r) = log w /\ fs (snd r) = fs w /\
  trace (snd r) = (trace w ++ [Argv command])%list.
Proof.
  intros Hexec He. cbv zeta.
  by rewrite (run_command_not_started _ _ _ _ _ Hexec He).
Qed.

Lemma run_command_passes_other_exceptions_witness :
  fst (run_command Sample.linux_without_code ["code"; "--version"]
         (Sample.start Sample.with_file Sample.linux_manager))
  = Raise (FileNotFoundError "code").
Proof.
  exact (proj1 (run_command_passes_other_exceptions Sample.linux_without_code
    ["code"; "--version"]
    (Sample.start Sample.with_file Sample.linux_manager)
    (FileNotFoundError "code") Sample.with_file eq_refl eq_refl)).
Defined.

(** What reading a path that leads to a regular file yields. *)
Lemma open_lines_file (w : world) (path p c : string) :
  Fs.stat (fs w) path = Some (p, File c) ->
  open_lines path w = (Ok (Text.readlines c), w).
Proof. intros Hs. unfold open_lines, bind, get_fs. by rewrite Hs. Qed.

(** X3. Where the extensions file is a regular file and every command
    can be started, the editor step returns and invokes one
    [code --install-extension] command per line whose strip is not
    empty, in the order of the file, with the stripped line as the
    extension; the exit statuses play no part. *)
Theorem install_extensions_runs_each_line (h : host) (w : world)
    (p c : string) :
  Fs.stat (fs w) (extensions_file (self w)) = Some (p, File c) ->
  (forall cmd m, exists status m',
      execute h (Argv cmd) m = (Exited status, m')) ->
  fst (install_extensions h w) = Ok tt /\
  trace (snd (install_extensions h w))
  = (trace w ++
     ((fun l => Argv ["code"; "--install-extension"; Text.strip l]) <$>
      filter (fun l => Is_true (Text.truthy (Text.strip l)))
        (Text.readlines c)))%list.
Proof.
  intros Hstat Hstart.
  assert (install_extensions h w = install_each h (Text.readlines c) w) as ->.
  { unfold install_extensions, bind, get_self, get_fs, open_lines, bind,
      get_fs, Fs.path_exists.
    rewrite Hstat. cbv beta iota. rewrite Hstat. reflexivity. }
  by apply install_each_trace.
Qed.

Lemma install_extensions_runs_each_line_witness :
  trace (snd (install_extensions MoreSamples.linux_failing
                (Sample.start Sample.with_extensions Sample.linux_manager)))
  = ([] ++
     ((fun l => Argv ["code"; "--install-extension"; Text.strip l]) <$>
      filter (fun l => Is_true (Text.truthy (Text.strip l)))
        (Text.readlines Sample.extensions_txt)))%list.
Proof.
  refine (proj2 (install_extensions_runs_each_line MoreSamples.linux_failing
    (Sample.start Sample.with_extensions Sample.linux_manager)
    "/home/u/dotfiles/vscode/extensions.txt" Sample.extensions_txt _ _)).
  - vm_compute. reflexivity.
  - intros cmd m. exists 1%Z, m. reflexivity.
Defined.

Lemma rstrip_head (c : ascii) (r : string) :
  Text.isspace c = false ->
  exists r', Text.rstrip (String c r) = String c r'.
Proof.
  intros Hc. cbn [Text.rstrip]. destruct (Text.rstrip r); [|by eexists].
  rewrite Hc. by eexists.
Qed.

Lemma rstrip_idempotent (s : string) : Text.rstrip (Text.rstrip s) = Text.rstrip s.
Proof.
  induction s as [|c s IH]; [done|]. cbn [Text.rstrip].
  destruct (Text.rstrip s) as [|c' s'] eqn:Hs.
  - destruct (Text.isspace c) eqn:Hc; [done|]. cbn [Text.rstrip]. by rewrite Hc.
  - cbn [Text.rstrip]. cbn [Text.rstrip] in IH.
    destruct (Text.rstrip s') as [|c'' s''] eqn:Hs'.
    + destruct (Text.isspace c') eqn:Hc'; [done|]. by rewrite IH.
    + by rewrite IH.
Qed.

Lemma lstrip_head (s : string) :
  Text.lstrip s = "" \/
  exists c r, Text.lstrip s = String c r /\ Text.isspace c = false.
Proof.
  induction s as [|c s IH]; [by left|]. cbn [Text.lstrip].
  destruct (Text.isspace c) eqn:Hc; [done|]. right. by exists c, s.
Qed.

(** [strip] leaves a stripped string as it is. *)
Lemma strip_idempotent (s : string) : Text.strip (Text.strip s) = Text.strip s.
Proof.
  unfold Text.strip. destruct (lstrip_head s) as [->|(c & r & -> & Hc)].
  - done.
  - destruct (rstrip_head c r Hc) as [r' Hr]. rewrite Hr.
    cbn [Text.lstrip]. rewrite Hc. by rewrite <- Hr, rstrip_idempotent.
Qed.

(** Whatever becomes of the command, the attempt is in the trace. *)
Lemma run_command_trace (h : host) (command : list string) (w : world) :
  trace (snd (run_command h command w)) = (trace w ++ [Argv command])%list.
Proof.
  unfold run_command, try_except, bind, subprocess_run_check, spawn, bind.
  destruct (execute h (Argv command) (fs w)) as [[[| |]|e] m']; try done.
  cbv zeta. unfold raise. by destruct (is_CalledProcessError e).
Qed.

Lemma install_each_clean (h : host) (exts : list string) (w : world) :
  exists cs,
    trace (snd (install_each h exts w)) = (trace w ++ cs)%list /\
    Forall (fun c => exists e, c = Argv ["code"; "--install-extension"; e] /\
                               e <> "" /\ Text.strip e = e) cs.
Proof.
  revert w. unfold install_each.
  induction exts as [|l exts IH]; intros w; cbn [for_each].
  - exists []. by rewrite app_nil_r.
  - destruct (Text.truthy (Text.strip l)) eqn:Hl.
    + pose proof (run_command_trace h
        ["code"; "--install-extension"; Text.strip l] w) as Ht.
      unfold bind at 1. unfold bind at 1.
      destruct (run_command h _ w) as [[b|e] w1]; cbn [snd] in Ht.
      * unfold ret at 1. destruct (IH w1) as (cs & Hcs & Hall).
        exists (Argv ["code"; "--install-extension"; Text.strip l] :: cs).
        split.
        -- rewrite Hcs, Ht. by rewrite <- List.app_assoc.
        -- constructor; [|done]. eexists. split_and!; [done| |].
           ++ intros Heq. by rewrite Heq in Hl.
           ++ apply strip_idempotent.
      * exists [Argv ["code"; "--install-extension"; Text.strip l]].
        split; [done|]. constructor; [|done]. eexists. split_and!; [done| |].
        -- intros Heq. by rewrite Heq in Hl.
        -- apply strip_idempotent.
    + rewrite (bind_ok _ _ w w tt) by done. apply IH.
Qed.

Lemma install_extensions_clean (h : host) (w : world) :
  exists cs,
    trace (snd (install_extensions h w)) = (trace w ++ cs)%list /\
    Forall (fun c => exists e, c = Argv ["code"; "--install-extension"; e] /\
                               e <> "" /\ Text.strip e = e) cs.
Proof.
  unfold install_extensions, bind, get_self, get_fs.
  destruct (Fs.path_exists _ _); [|exists []; by rewrite app_nil_r].
  unfold open_lines, bind, get_fs.
  destruct (Fs.stat _ _) as [[q [c| |d]]|];
    try (exists []; by rewrite app_nil_r).
  apply install_each_clean.
Qed.

(** X4. On every machine and in every world, whatever the editor step
    adds to the trace is a [code --install-extension e] command whose
    [e] is not empty and has no white space at either end: blank lines
    and lines of white space never reach the command line. *)
Theorem extension_arguments_are_clean (h : host) (w : world) :
  exists cs,
    trace (snd (install_extensions h w)) = (trace w ++ cs)%list /\
    Forall (fun c => exists e, c = Argv ["code"; "--install-extension"; e] /\
                               e <> "" /\ Text.strip e = e) cs.
Proof. apply install_extensions_clean. Qed.

End CommandProps.

(* ===================================================================== *)
(** ** More on the Linker and the setup steps                             *)
(* ===================================================================== *)

Module StepProps.
Import Run Relations Keeps.

Lemma untouched_trans (w1 w2 w3 : world) :
  untouched w1 w2 -> untouched w2 w3 -> untouched w1 w3.
Proof. intros (?&?&?&?) (?&?&?&?). split_and!; congruence. Qed.

Lemma untouched_refl (w : world) : untouched w w.
Proof. done. Qed.

Lemma untouched_fs (m : gmap string node) (w : world) :
  untouched w (with_fs m w).
Proof. done. Qed.

Lemma untouched_log (r : log_record) (w : world) : untouched w (add_log r w).
Proof. done. Qed.

Lemma existing_target_untouched (target : string) (m : gmap string node) :
  keeps untouched
    (if Fs.path_exists m target then
       if Fs.islink m target then fs_call (Os.unlink target)
       else backup_existing_config target
     else ret tt).
Proof.
  destruct (Fs.path_exists m target); [|by apply keeps_ret].
  destruct (Fs.islink m target); [by apply keeps_fs_call|].
  by apply (keeps_backup_existing_config untouched (fun _ => True));
    try apply untouched_trans.
Qed.

(** On a host with native links the body of [create_symlink] runs no
    command, reads no input and assigns nothing. *)
Lemma link_body_untouched (h : host) (source target : string) (w : world) :
  is_windows (self w) = false ->
  untouched w (snd (create_symlink_body h source target w)).
Proof.
  intros Hw. unfold create_symlink_body.
  pose proof (keeps_makedirs untouched untouched_refl untouched_trans
                untouched_fs (PosixPath.dirname target) true w) as H1.
  unfold bind at 1.
  destruct (Os.makedirs _ _ w) as [[[]|e] w1]; cbn [snd] in *; [|done].
  unfold bind at 1. unfold get_fs at 1.
  pose proof (existing_target_untouched target (fs w1) w1) as H2.
  unfold bind at 1.
  destruct ((if Fs.path_exists (fs w1) target
             then if Fs.islink (fs w1) target
                  then fs_call (Os.unlink target)
                  else backup_existing_config target
             else ret tt) w1)
    as [[[]|e] w2]; cbn [snd] in *;
    [|by eapply untouched_trans].
  pose proof (untouched_trans _ _ _ H1 H2) as H12.
  unfold bind at 1. unfold get_self at 1.
  destruct H12 as (Hself & Hrest). rewrite Hself, Hw.
  unfold bind at 1.
  pose proof (keeps_fs_call untouched untouched_refl untouched_fs
                (Os.symlink source target) w2) as H3.
  destruct (fs_call _ w2) as [[[]|e] w3]; cbn [snd] in *.
  - eapply untouched_trans; [|apply untouched_log].
    eapply untouched_trans; [|exact H3]. by split.
  - eapply untouched_trans; [|exact H3]. by split.
Qed.

Lemma link_untouched (h : host) (source target : string) (w : world) :
  is_windows (self w) = false ->
  untouched w (snd (create_symlink h source target w)).
Proof.
  intros Hw. pose proof (link_body_untouched h source target w Hw) as Hb.
  unfold create_symlink, try_except.
  destruct (create_symlink_body h source target w) as [[[]|e] w1];
    cbn [snd] in *; [done|].
  eapply untouched_trans; [exact Hb|apply untouched_log].
Qed.

(** X5. On a host with native symbolic links, linking runs no external
    command, reads nothing from standard input and assigns no attribute
    of the manager, in every world and whether or not the link is made:
    all it can change is the file system and the log. *)
Theorem linker_runs_no_command (h : host) (source target : string)
    (w : world) :
  is_windows (self w) = false ->
  let w' := snd (create_symlink h source target w) in
  trace w' = trace w /\ stdin w' = stdin w /\
  self w' = self w /\ assigned w' = assigned w.
Proof.
  intros Hw. destruct (link_untouched h source target w Hw) as (?&?&?&?).
  by split_and!.
Qed.

Lemma linker_runs_no_command_witness :
  trace (snd (create_symlink Sample.linux_without_code Sample.gitconfig_source
                Sample.gitconfig
                (Sample.start Sample.with_file_and_full_backup_dir
                   Sample.linux_manager))) = [].
Proof.
  exact (proj1 (linker_runs_no_command Sample.linux_without_code
    Sample.gitconfig_source Sample.gitconfig
    (Sample.start Sample.with_file_and_full_backup_dir Sample.linux_manager)
    eq_refl)).
Defined.

Lemma symlink_made (source target : string) (m m' : gmap string node) :
  Os.symlink source target m = Ok m' -> m' = <[target := Link source]> m.
Proof.
  unfold Os.symlink.
  destruct (negb _); [done|]. destruct (Fs.lexists _ _); [done|].
  destruct (negb _); [done|]. by intros [= <-].
Qed.

Lemma link_body_result (h : host) (source target : string) (w : world) :
  is_windows (self w) = false ->
  match create_symlink_body h source target w with
  | (Ok _, w1) =>
      exists w0, w1 = add_log (created source target) w0 /\
                 fs w0 !! target = Some (Link source)
  | (Raise _, _) => True
  end.
Proof.
  intros Hw. unfold create_symlink_body.
  pose proof (keeps_makedirs untouched untouched_refl untouched_trans
                untouched_fs (PosixPath.dirname target) true w) as H1.
  unfold bind at 1.
  destruct (Os.makedirs _ _ w) as [[[]|e] w1]; cbn [snd] in *; [|done].
  unfold bind at 1. unfold get_fs at 1.
  pose proof (existing_target_untouched target (fs w1) w1) as H2.
  unfold bind at 1.
  destruct ((if Fs.path_exists (fs w1) target
             then if Fs.islink (fs w1) target
                  then fs_call (Os.unlink target)
                  else backup_existing_config target
             else ret tt) w1)
    as [[[]|e] w2]; cbn [snd] in *; [|done].
  destruct (untouched_trans _ _ _ H1 H2) as (Hself & _).
  unfold bind at 1. unfold get_self at 1. rewrite Hself, Hw.
  unfold bind at 1. unfold fs_call.
  destruct (Os.symlink source target (fs w2)) as [m'|e] eqn:Hsym; [|done].
  apply symlink_made in Hsym. subst m'.
  eexists. split; [reflexivity|]. apply lookup_insert_eq.
Qed.

(** X6. On a host with native symbolic links, in every world, a call of
    [create_symlink] ends in one of two ways, and it returns in both:
    its last log record is 'Created symlink' and then [target] is a link
    to [source]; or its last log record is 'Failed to create symlink'
    with the exception. The log never reports a link that is not there. *)
Theorem created_means_linked (h : host) (source target : string) (w : world) :
  is_windows (self w) = false ->
  (exists w0,
     create_symlink h source target w
     = (Ok tt, add_log (created source target) w0) /\
     fs (snd (create_symlink h source target w)) !! target
     = Some (Link source))
  \/ (exists e w0,
        create_symlink h source target w = (Ok tt, add_log (failed e) w0)).
Proof.
  intros Hw. pose proof (link_body_result h source target w Hw) as Hb.
  unfold create_symlink, try_except.
  destruct (create_symlink_body h source target w) as [[[]|e] w1].
  - left. destruct Hb as (w0 & -> & Hlink). by exists w0.
  - right. by exists e, w1.
Qed.

Lemma created_means_linked_witness :
  (exists w0,
     create_symlink Sample.linux Sample.gitconfig_source Sample.gitconfig
       (Sample.start Sample.with_dangling_link Sample.linux_manager)
     = (Ok tt, add_log (created Sample.gitconfig_source Sample.gitconfig) w0) /\
     fs (snd (create_symlink Sample.linux Sample.gitconfig_source
                Sample.gitconfig
                (Sample.start Sample.with_dangling_link Sample.linux_manager)))
     !! Sample.gitconfig = Some (Link Sample.gitconfig_source))
  \/ (exists e w0,
        create_symlink Sample.linux Sample.gitconfig_source Sample.gitconfig
          (Sample.start Sample.with_dangling_link Sample.linux_manager)
        = (Ok tt, add_log (failed e) w0)).
Proof.
  exact (created_means_linked Sample.linux Sample.gitconfig_source
    Sample.gitconfig
    (Sample.start Sample.with_dangling_link Sample.linux_manager) eq_refl).
Defined.

End StepProps.

Module LinkerProps.
Import PosixPath Fs Os PathFacts FsFacts Run OsFacts.

Lemma follow_sound (n : nat) (m : gmap string node) (p q : string) (x : node) :
  follow n m p = Some (q, x) -> m !! q = Some x.
Proof.
  revert p. induction n as [|n IH]; intros p; simpl;
    destruct (m !! p) as [[c| |d]|] eqn:Hp; try done;
    try (by intros [= <- <-]).
  apply IH.
Qed.

Lemma not_samefile (m : gmap string node) (p q c : string) :
  m !! p = Some (File c) -> isdir m q = true -> samefile m p q = false.
Proof.
  intros Hp Hq. unfold samefile, stat.
  rewrite (follow_here _ _ _ (File c)) by done.
  unfold isdir, stat in Hq.
  destruct (follow max_links m q) as [[q' [| |]]|] eqn:Hf; try done.
  apply follow_sound in Hf. apply bool_decide_eq_false. congruence.
Qed.

(** X7. A regular file is not backed up into a directory that already
    holds an entry of its name: with a directory at
    [config_path + ".backup"] and that entry in it,
    [backup_existing_config] raises the error of [shutil.move] and
    changes nothing; [create_symlink] then logs the failure and leaves
    the file where it was, on every host. *)
Theorem backup_stops_at_taken_name (w : world) (config_path c : string) :
  fs w !! config_path = Some (File c) ->
  isdir (fs w) (config_path +:+ ".backup") = true ->
  path_exists (fs w)
    (join (config_path +:+ ".backup") [shutil_basename config_path]) = true ->
  backup_existing_config config_path w
  = (Raise (ShutilError "Destination path already exists"), w)
  /\ (well_formed (fs w) -> in_directory (fs w) config_path ->
      forall h source,
        create_symlink h source config_path w
        = (Ok tt, add_log (failed (ShutilError
                             "Destination path already exists")) w)).
Proof.
  intros Hp Hd Hex.
  assert (backup_existing_config config_path w
          = (Raise (ShutilError "Destination path already exists"), w)) as Hb.
  { unfold backup_existing_config, bind, get_fs.
    rewrite (path_exists_here _ _ (File c)) by done.
    unfold move, bind, get_fs. rewrite Hd.
    rewrite (not_samefile _ _ _ c) by done. cbn [andb].
    by rewrite Hex. }
  split; [done|]. intros Hwf [Hroot Hdir] h source.
  unfold create_symlink.
  erewrite try_caught; [done| |done].
  unfold create_symlink_body.
  erewrite bind_ok; [|by apply makedirs_existing].
  unfold bind at 1. unfold get_fs at 1.
  rewrite (path_exists_here _ _ (File c)) by done.
  unfold islink. rewrite Hp.
  by erewrite bind_raise.
Qed.

Lemma backup_stops_at_taken_name_witness :
  backup_existing_config Sample.gitconfig
    (Sample.start Sample.with_file_and_full_backup_dir Sample.linux_manager)
  = (Raise (ShutilError "Destination path already exists"),
     Sample.start Sample.with_file_and_full_backup_dir Sample.linux_manager).
Proof.
  refine (proj1 (backup_stops_at_taken_name
    (Sample.start Sample.with_file_and_full_backup_dir Sample.linux_manager)
    Sample.gitconfig "new" _ _ _)); vm_compute; reflexivity.
Defined.

(** X8. [backup_existing_config] on its own: a path that does not exist,
    a dangling link included, is left alone and nothing is logged; a
    regular file in a directory, with no directory at
    [config_path + ".backup"], is moved there with its content, whatever
    file or link was at that path before, the original path is free
    afterwards, and one record is logged. *)
Theorem backup_moves_regular_file (w : world) (config_path : string) :
  (path_exists (fs w) config_path = false ->
   backup_existing_config config_path w = (Ok tt, w))
  /\ (forall c,
        fs w !! config_path = Some (File c) ->
        fs w !! dirname config_path = Some Dir ->
        isdir (fs w) (config_path +:+ ".backup") = false ->
        backup_existing_config config_path w
        = (Ok tt, add_log (backed_up config_path)
                    (with_fs (<[config_path +:+ ".backup" := File c]>
                                (delete config_path (fs w))) w))
        /\ fs (snd (backup_existing_config config_path w)) !! config_path
           = None
        /\ fs (snd (backup_existing_config config_path w))
           !! (config_path +:+ ".backup") = Some (File c)).
Proof.
  split.
  - intros Hex. unfold backup_existing_config, bind, get_fs. by rewrite Hex.
  - intros c Hp Hdir Hb.
    assert (backup_existing_config config_path w
            = (Ok tt, add_log (backed_up config_path)
                        (with_fs (<[config_path +:+ ".backup" := File c]>
                                    (delete config_path (fs w))) w))) as Heq.
    { unfold backup_existing_config. unfold bind at 1. unfold get_fs at 1.
      rewrite (path_exists_here _ _ (File c)) by done.
      unfold move. unfold bind at 1. unfold bind at 1. unfold get_fs at 1.
      rewrite Hb.
      erewrite bind_ok; [|apply try_ok, fs_call_ok; by apply rename_file].
      done. }
    rewrite Heq. cbn [snd fs add_log with_fs]. split_and!; [done| |].
    + rewrite lookup_insert_ne
        by (intros H; symmetry in H; by apply backup_neq in H).
      apply lookup_delete_eq.
    + apply lookup_insert_eq.
Qed.

Lemma backup_moves_regular_file_witness :
  backup_existing_config Sample.gitconfig
    (Sample.start Sample.with_dangling_link Sample.linux_manager)
  = (Ok tt, Sample.start Sample.with_dangling_link Sample.linux_manager)
  /\ fs (snd (backup_existing_config Sample.gitconfig
                (Sample.start Sample.with_file Sample.linux_manager)))
     !! "/home/u/.gitconfig.backup" = Some (File "old").
Proof.
  split.
  - apply (backup_moves_regular_file
      (Sample.start Sample.with_dangling_link Sample.linux_manager)
      Sample.gitconfig). vm_compute. reflexivity.
  - apply (backup_moves_regular_file
      (Sample.start Sample.with_file Sample.linux_manager)
      Sample.gitconfig); vm_compute; reflexivity.
Defined.

Lemma os_system_world (h : host) (line : string) (w : world) :
  exists status,
    os_system h line w = (Ok status, snd (spawn h (Shell line) w)).
Proof.
  unfold os_system, bind, spawn.
  destruct (execute h (Shell line) (fs w)) as [[status|e] m']; by eexists.
Qed.

(** X9. On Windows the link is left to one [mklink] command, with [/D]
    exactly when [source] is a directory, and its status is not looked
    at: where [target] does not exist (a dangling link included),
    [create_symlink] returns and logs 'Created symlink' over whatever
    world the command left. *)
Theorem windows_link_ignores_status (h : host) (source target : string)
    (w : world) :
  is_windows (self w) = true ->
  well_formed (fs w) -> in_directory (fs w) target ->
  path_exists (fs w) target = false ->
  create_symlink h source target w
  = (Ok tt,
     add_log (created source target)
       (snd (spawn h (Shell (if isdir (fs w) source
                             then mklink_dir source target
                             else mklink_file source target)) w))).
Proof.
  intros Hwin Hwf [Hroot Hdir] Hex.
  unfold create_symlink. erewrite try_ok; [done|].
  unfold create_symlink_body.
  erewrite bind_ok; [|by apply makedirs_existing].
  unfold bind at 1. unfold get_fs at 1. unfold bind at 1.
  rewrite Hex. unfold ret at 1.
  unfold bind at 1. unfold get_self at 1. rewrite Hwin.
  unfold bind at 1. unfold bind at 1. unfold get_fs at 1.
  destruct (isdir (fs w) source).
  - destruct (os_system_world h (mklink_dir source target) w) as [st Hst].
    unfold bind at 1. by rewrite Hst.
  - destruct (os_system_world h (mklink_file source target) w) as [st Hst].
    unfold bind at 1. by rewrite Hst.
Qed.

Lemma windows_link_ignores_status_witness :
  log (snd (create_symlink Sample.windows Sample.gitconfig_source
              Sample.gitconfig
              (Sample.start Sample.with_dangling_link
                 Sample.windows_home_manager)))
  = [created Sample.gitconfig_source Sample.gitconfig].
Proof.
  rewrite (windows_link_ignores_status Sample.windows Sample.gitconfig_source
    Sample.gitconfig
    (Sample.start Sample.with_dangling_link Sample.windows_home_manager)).
  - reflexivity.
  - reflexivity.
  - apply (bool_decide_unpack _). vm_compute. exact I.
  - apply (bool_decide_unpack _). vm_compute. exact I.
  - vm_compute. reflexivity.
Defined.

(** [os.makedirs] makes a missing directory whose parent is there. *)
Lemma makedirs_one (d : string) (w : world) :
  fs w !! d = None -> basename d <> "" -> fs w !! dirname d = Some Dir ->
  makedirs d true w = (Ok tt, with_fs (<[d := Dir]> (fs w)) w).
Proof.
  intros Hd Hname Hpar. unfold makedirs, recursion_limit.
  change 1000 with (S 999). generalize 999. intros n.
  cbn [makedirs_rec].
  assert (dirname d = fst (split d)) as Hdir by done.
  assert (basename d = snd (split d)) as Hbase.
  { unfold basename, split. destruct (cut d) as [hd tl]. simpl.
    by destruct (nonempty hd && negb (all_seps hd)). }
  destruct (split d) as [h1 t1]. simpl in Hdir, Hbase. subst h1 t1.
  assert (nonempty (basename d) = true) as Hne
    by (by destruct (basename d)).
  rewrite Hne.
  unfold bind at 1. unfold get_fs at 1.
  rewrite (path_exists_here _ _ Dir) by done.
  rewrite andb_false_r.
  apply try_ok, fs_call_ok. unfold mkdir, lexists. rewrite Hd.
  assert (nonempty d = true) as ->.
  { destruct d; [|done]. by vm_compute in Hname. }
  by rewrite (parent_ok_Dir _ _ Hpar).
Qed.

(** X10. On a host with native symbolic links, [create_symlink] makes
    the directory of [target] when it is missing and its own parent is
    there: afterwards that directory exists, [target] is a link to
    [source] in it, and nothing else in the file system has changed. *)
Theorem link_makes_parent_directory (h : host) (source target : string)
    (w : world) :
  is_windows (self w) = false -> source <> "" ->
  dirname target <> target -> basename (dirname target) <> "" ->
  fs w !! dirname (dirname target) = Some Dir ->
  fs w !! dirname target = None -> fs w !! target = None ->
  create_symlink h source target w
  = (Ok tt, add_log (created source target)
              (with_fs (<[target := Link source]>
                          (<[dirname target := Dir]> (fs w))) w)).
Proof.
  intros Hposix Hsource Hroot Hname Hgrand Hpar Ht.
  unfold create_symlink. erewrite try_ok; [done|].
  unfold create_symlink_body.
  erewrite bind_ok; [|by apply makedirs_one].
  unfold bind at 1. unfold get_fs at 1. unfold bind at 1.
  cbn [fs with_fs].
  assert (path_exists (<[dirname target := Dir]> (fs w)) target = false) as ->.
  { unfold path_exists, stat, max_links. simpl.
    by rewrite lookup_insert_ne, Ht. }
  unfold ret at 1.
  rewrite (LinkFacts.link_tail h source target w Hposix Hsource
             (<[dirname target := Dir]> (fs w))); [done|done|done| |].
  - by rewrite lookup_insert_ne.
  - apply lookup_insert_eq.
Qed.

Lemma link_makes_parent_directory_witness :
  fs (snd (create_symlink Sample.linux "/home/u/dotfiles/x"
             "/home/u/.config/x"
             (Sample.start Sample.with_file Sample.linux_manager)))
  !! "/home/u/.config" = Some Dir.
Proof.
  rewrite (link_makes_parent_directory Sample.linux "/home/u/dotfiles/x"
    "/home/u/.config/x" (Sample.start Sample.with_file Sample.linux_manager));
    first [by vm_compute | discriminate | reflexivity].
Defined.

End LinkerProps.

Module OtherStepProps.
Import Run Keeps StepProps LinkerProps.

Lemma spawn_world (h : host) (c : command) (w : world) :
  trace (snd (spawn h c w)) = (trace w ++ [c])%list /\
  self (snd (spawn h c w)) = self w /\ stdin (snd (spawn h c w)) = stdin w.
Proof. unfold spawn. by destruct (execute h c (fs w)) as [[?|?] ?]. Qed.

(** [os.system] always returns; the command is in the trace. *)
Lemma os_system_runs (h : host) (line : string) (w : world) :
  exists status w1,
    os_system h line w = (Ok status, w1) /\
    trace w1 = (trace w ++ [Shell line])%list /\
    self w1 = self w /\ stdin w1 = stdin w.
Proof.
  destruct (os_system_world h line w) as [st Hst].
  destruct (spawn_world h (Shell line) w) as (?&?&?).
  by exists st, (snd (spawn h (Shell line) w)).
Qed.

(** A command that can be started: [run_command] returns. *)
Lemma run_command_runs (h : host) (command : list string) (w : world) :
  (forall cmd m, exists status m',
      execute h (Argv cmd) m = (Exited status, m')) ->
  exists b w1,
    run_command h command w = (Ok b, w1) /\
    trace w1 = (trace w ++ [Argv command])%list /\ self w1 = self w.
Proof.
  intros Hstart. destruct (Hstart command (fs w)) as (st & m' & Hexec).
  rewrite (Commands.run_command_exited _ _ _ _ _ Hexec). cbv zeta.
  case_bool_decide; by eexists _, _.
Qed.

Lemma for_each_run_command (h : host) (A : Type) (mk : A -> list string)
    (xs : list A) (w : world) :
  (forall cmd m, exists status m',
      execute h (Argv cmd) m = (Exited status, m')) ->
  fst (for_each xs (fun x => run_command h (mk x) ;; ret tt) w) = Ok tt /\
  trace (snd (for_each xs (fun x => run_command h (mk x) ;; ret tt) w))
  = (trace w ++ ((fun x => Argv (mk x)) <$> xs))%list.
Proof.
  intros Hstart. revert w.
  induction xs as [|x xs IH]; intros w; cbn [for_each].
  - split; [done|]. by rewrite app_nil_r.
  - destruct (run_command_runs h (mk x) w Hstart) as (b & w1 & Hrun & Ht & _).
    assert ((run_command h (mk x) ;; ret tt) w = (Ok tt, w1)) as Hbody
      by (unfold bind; by rewrite Hrun).
    rewrite (bind_ok _ _ _ _ _ Hbody). destruct (IH w1) as [IH1 IH2].
    split; [done|]. rewrite IH2, Ht. cbn [fmap list_fmap].
    by rewrite <- List.app_assoc.
Qed.

(** X11. On macOS, where every command can be started, the package step
    returns after one [brew install] for each of the five packages, in
    the order of the list and whatever their exit statuses: a failed
    install does not stop the next. The Homebrew installer is run first
    exactly when [brew] is not found. *)
Theorem brew_installs_every_package (h : host) (w : world) :
  is_macos (self w) = true ->
  (forall cmd m, exists status m',
      execute h (Argv cmd) m = (Exited status, m')) ->
  fst (install_packages h w) = Ok tt /\
  trace (snd (install_packages h w))
  = (trace w ++
     (match which h "brew" with
      | Some _ => []
      | None => [Shell brew_install]
      end ++
      [Argv ["brew"; "install"; "python3"]; Argv ["brew"; "install"; "git"];
       Argv ["brew"; "install"; "visual-studio-code"];
       Argv ["brew"; "install"; "iterm2"]; Argv ["brew"; "install"; "zsh"]]))%list.
Proof.
  intros Hmac Hstart.
  destruct (which h "brew") as [path|] eqn:Hwhich.
  - assert (install_packages h w
            = for_each packages
                (fun package => run_command h ["brew"; "install"; package] ;;
                                ret tt)
                (add_log (LogRecord INFO "Installing necessary packages..."
                            None) w)) as ->.
    { unfold install_packages, bind at 1 2 3, logger_info, emit, get_self, ret.
      cbn [self add_log]. by rewrite Hmac, Hwhich. }
    destruct (for_each_run_command h string
                (fun package => ["brew"; "install"; package]) packages
                (add_log (LogRecord INFO "Installing necessary packages..."
                            None) w) Hstart) as [H1 H2].
    split; [exact H1|]. by rewrite H2.
  - destruct (os_system_runs h brew_install
                (add_log (LogRecord INFO "Installing Homebrew..." None)
                   (add_log (LogRecord INFO "Installing necessary packages..."
                               None) w)))
      as (st & w1 & Hsys & Ht & _).
    assert (install_packages h w
            = for_each packages
                (fun package => run_command h ["brew"; "install"; package] ;;
                                ret tt) w1) as ->.
    { unfold install_packages, bind at 1 2 3 4 5 6, logger_info, emit,
        get_self, ret.
      cbn [self add_log]. by rewrite Hmac, Hwhich, Hsys. }
    destruct (for_each_run_command h string
                (fun package => ["brew"; "install"; package]) packages
                w1 Hstart) as [H1 H2].
    split; [exact H1|]. rewrite H2, Ht. cbn [trace add_log].
    by rewrite <- List.app_assoc.
Qed.

Lemma brew_installs_every_package_witness :
  fst (install_packages MoreSamples.mac_failing
         (Sample.start Sample.mac_dirs Sample.mac_manager)) = Ok tt.
Proof.
  refine (proj1 (brew_installs_every_package MoreSamples.mac_failing
    (Sample.start Sample.mac_dirs Sample.mac_manager) eq_refl _)).
  intros cmd m. exists 1%Z, m. reflexivity.
Defined.

(** X12. On Windows the package step installs nothing: it runs no
    command, logs its five lines and waits for one line of standard
    input, which it consumes; with standard input at its end it raises
    [EOFError], which nothing in the step catches. *)
Theorem windows_packages_wait_for_input (h : host) (w : world) :
  is_macos (self w) = false -> is_windows (self w) = true ->
  trace (snd (install_packages h w)) = trace w /\
  length (log (snd (install_packages h w))) = length (log w) + 5 /\
  (stdin w = [] -> fst (install_packages h w) = Raise EOFError) /\
  (forall l rest, stdin w = l :: rest ->
     fst (install_packages h w) = Ok tt /\
     stdin (snd (install_packages h w)) = rest).
Proof.
  intros Hmac Hwin.
  unfold install_packages, bind, logger_info, emit, get_self, input, ret.
  cbn [self add_log stdin]. rewrite Hmac, Hwin. cbn [self add_log stdin].
  destruct (stdin w) as [|l rest];
    cbn [fst snd trace log add_log stdin]; rewrite ?length_app; cbn [length].
  - split_and!; [done|lia|done|done].
  - split_and!; [done|lia|done|]. by intros ? ? [= <- <-].
Qed.

Lemma windows_packages_wait_for_input_witness :
  fst (install_packages Sample.windows
         (Sample.start Sample.with_file Sample.windows_home_manager))
  = Raise EOFError.
Proof.
  apply (windows_packages_wait_for_input Sample.windows
    (Sample.start Sample.with_file Sample.windows_home_manager)
    eq_refl eq_refl).
  reflexivity.
Defined.

(** What [create_symlink] leaves on a host with native links. *)
Lemma link_then (h : host) (source target : string) (w : world) :
  is_windows (self w) = false ->
  exists w1, create_symlink h source target w = (Ok tt, w1) /\
             untouched w w1.
Proof.
  intros Hw. pose proof (link_untouched h source target w Hw) as Hu.
  pose proof (Linker.create_symlink_returns h source target w) as Hr.
  destruct (create_symlink h source target w) as [[[]|e] w1];
    cbn [fst snd] in *; [|done].
  by exists w1.
Qed.



(** X14. Off Windows the shell step always returns; it runs the Oh My
    Zsh installer exactly when [~/.oh-my-zsh] does not exist, does not
    look at its status, and runs no other command: the link of [.zshrc]
    is attempted afterwards in either case. *)
Theorem zsh_installs_when_missing (h : host) (w : world) :
  is_windows (self w) = false ->
  fst (setup_zsh h w) = Ok tt /\
  trace (snd (setup_zsh h w))
  = (trace w ++
     if Fs.path_exists (fs w) (PosixPath.join (home (self w)) [".oh-my-zsh"])
     then [] else [Shell omz_install])%list.
Proof.
  intros Hwin.
  destruct (Fs.path_exists (fs w)
              (PosixPath.join (home (self w)) [".oh-my-zsh"])) eqn:Hex.
  - destruct (link_then h
      (PosixPath.join (dotfiles_path (self w)) ["zsh"; ".zshrc"])
      (PosixPath.join (home (self w)) [".zshrc"])
      (add_log (LogRecord INFO "Setting up Zsh configuration..." None) w)
      Hwin) as (w1 & Hlink & (_ & _ & Ht1 & _)).
    assert (setup_zsh h w = (Ok tt, w1)) as ->.
    { unfold setup_zsh, bind, get_self, get_fs, logger_info, emit, ret.
      rewrite Hwin. cbn [self fs add_log negb]. rewrite Hex. cbn [negb].
      cbn [self add_log] in Hlink. by rewrite Hlink. }
    split; [done|]. cbn [snd]. rewrite Ht1. cbn [trace add_log].
    by rewrite app_nil_r.
  - destruct (os_system_runs h omz_install
      (add_log (LogRecord INFO "Setting up Zsh configuration..." None) w))
      as (st & w1 & Hsys & Ht1 & Hs1 & _).
    destruct (link_then h
      (PosixPath.join (dotfiles_path (self w)) ["zsh"; ".zshrc"])
      (PosixPath.join (home (self w)) [".zshrc"]) w1)
      as (w2 & Hlink & (_ & _ & Ht2 & _)); [by rewrite Hs1|].
    assert (setup_zsh h w = (Ok tt, w2)) as ->.
    { unfold setup_zsh, bind, get_self, get_fs, logger_info, emit, ret.
      rewrite Hwin. cbn [self fs add_log negb]. rewrite Hex. cbn [negb].
      by rewrite Hsys, Hlink. }
    split; [done|]. cbn [snd]. by rewrite Ht2, Ht1.
Qed.

Lemma zsh_installs_when_missing_witness :
  trace (snd (setup_zsh MoreSamples.mac_failing
                (Sample.start MoreSamples.mac_with_omz Sample.mac_manager)))
  = [].
Proof.
  exact (proj2 (zsh_installs_when_missing MoreSamples.mac_failing
    (Sample.start MoreSamples.mac_with_omz Sample.mac_manager) eq_refl)).
Defined.

Lemma parent_seen_file (m : gmap string node) (p c : string) :
  Fs.well_formed m -> m !! p = Some (File c) ->
  PosixPath.nonempty (PosixPath.dirname p)
  && negb (Fs.path_exists m (PosixPath.dirname p)) = false.
Proof.
  intros Hwf Hp.
  destruct (OsFacts.well_formed_parent _ _ _ Hwf Hp) as [Hd|[Hd|Hd]].
  - rewrite Hd, (OsFacts.path_exists_here _ _ (File c));
      [by rewrite andb_false_r|done..].
  - by rewrite Hd.
  - rewrite (OsFacts.path_exists_here _ _ Dir); [by rewrite andb_false_r|done..].
Qed.

(** [os.makedirs(d, exist_ok=True)] on a regular file: [exist_ok] does
    not cover it. *)
Lemma makedirs_on_file (d c : string) (w : world) :
  Fs.well_formed (fs w) -> fs w !! d = Some (File c) ->
  Os.makedirs d true w = (Raise (FileExistsError d), w).
Proof.
  intros Hwf Hd. unfold Os.makedirs, Os.recursion_limit.
  change 1000 with (S 999). generalize 999. intros n.
  assert (try_except (fs_call (Os.mkdir d)) is_OSError
            (fun e => m1 <- get_fs ;;
                      if negb true || negb (Fs.isdir m1 d) then raise e
                      else ret tt) w
          = (Raise (FileExistsError d), w)) as Hmake.
  { rewrite (try_caught _ _ _ w w (FileExistsError d)); [| |done].
    - unfold bind, get_fs, Fs.isdir, Fs.stat.
      by rewrite (OsFacts.follow_here _ _ _ (File c)).
    - apply fs_call_raise. unfold Os.mkdir, Fs.lexists.
      by rewrite (OsFacts.nonempty_bound _ _ _ Hwf Hd), Hd. }
  cbn [Os.makedirs_rec].
  assert (PosixPath.dirname d = fst (PosixPath.split d)) as Hdir by done.
  destruct (PosixPath.split d) as [h1 t1] eqn:Hsplit. simpl in Hdir. subst h1.
  destruct (PosixPath.nonempty t1) eqn:Ht.
  - unfold bind at 1. unfold get_fs at 1.
    assert (PosixPath.nonempty (PosixPath.dirname d) && PosixPath.nonempty t1
            && negb (Fs.path_exists (fs w) (PosixPath.dirname d)) = false)
      as ->.
    { rewrite Ht, andb_true_r. by apply (parent_seen_file _ _ c). }
    apply Hmake.
  - assert (PosixPath.dirname (PosixPath.dirname d)
            = fst (PosixPath.split (PosixPath.dirname d))) as Hdir2 by done.
    destruct (PosixPath.split (PosixPath.dirname d)) as [h2 t2] eqn:Hsplit2.
    simpl in Hdir2. subst h2.
    unfold bind at 1. unfold get_fs at 1.
    assert (PosixPath.nonempty (PosixPath.dirname (PosixPath.dirname d))
            && PosixPath.nonempty t2
            && negb (Fs.path_exists (fs w)
                       (PosixPath.dirname (PosixPath.dirname d))) = false)
      as ->; [|apply Hmake].
    destruct (OsFacts.well_formed_parent _ _ _ Hwf Hd) as [Hp|[Hp|Hp]].
    + rewrite Hp in Hsplit2. rewrite Hsplit2 in Hsplit.
      injection Hsplit as ->. rewrite Ht. by rewrite andb_false_r.
    + rewrite Hp. done.
    + pose proof (OsFacts.parent_seen _ _ Hwf Hp) as Hs.
      destruct (PosixPath.nonempty (PosixPath.dirname (PosixPath.dirname d)));
        [|done].
      simpl in Hs. rewrite Hs. by rewrite andb_false_r.
Qed.

(** X16. When the dotfiles path names a regular file, [setup_all] stops
    at once: [os.makedirs] raises [FileExistsError] although [exist_ok]
    is set, nothing catches it, and no step is run: apart from the first
    log line the world is as it was. *)
Theorem dotfiles_path_must_not_be_a_file (h : host) (w : world) (c : string) :
  Fs.well_formed (fs w) ->
  fs w !! dotfiles_path (self w) = Some (File c) ->
  setup_all h w
  = (Raise (FileExistsError (dotfiles_path (self w))),
     add_log (LogRecord INFO "Starting development environment setup..." None)
       w).
Proof.
  intros Hwf Hd. unfold setup_all.
  rewrite (bind_ok _ _ w (add_log (LogRecord INFO
             "Starting development environment setup..." None) w) tt) by done.
  unfold bind at 1. unfold get_self at 1. cbn [self add_log].
  by rewrite (bind_raise _ _ _ _ _
                (makedirs_on_file (dotfiles_path (self w)) c
                   (add_log (LogRecord INFO
                      "Starting development environment setup..." None) w)
                   Hwf Hd)).
Qed.

Lemma dotfiles_path_must_not_be_a_file_witness :
  fst (setup_all Sample.linux
         (Sample.start MoreSamples.with_dotfiles_file Sample.linux_manager))
  = Raise (FileExistsError "/home/u/dotfiles").
Proof.
  rewrite (dotfiles_path_must_not_be_a_file Sample.linux
    (Sample.start MoreSamples.with_dotfiles_file Sample.linux_manager) "notes").
  - reflexivity.
  - apply (bool_decide_unpack _). vm_compute. exact I.
  - vm_compute. reflexivity.
Defined.

(** X17. Where every command can be started, the Python step returns;
    it runs [pip install -r] exactly when the requirements file exists,
    and then [python -m venv] exactly when the venv path does not exist
    in the file system [pip] left, whatever the exit statuses. A venv
    that is there is never made again. *)
Theorem python_env_commands (h : host) (w : world) :
  (forall cmd m, exists status m',
      execute h (Argv cmd) m = (Exited status, m')) ->
  let req := PosixPath.join (dotfiles_path (self w))
               ["python"; "requirements.txt"] in
  let venv := PosixPath.join (dotfiles_path (self w)) ["python"; "venv"] in
  let m1 := if Fs.path_exists (fs w) req
            then snd (execute h (Argv ["pip"; "install"; "-r"; req]) (fs w))
            else fs w in
  fst (setup_python_env h w) = Ok tt /\
  trace (snd (setup_python_env h w))
  = (trace w ++
     (if Fs.path_exists (fs w) req
      then [Argv ["pip"; "install"; "-r"; req]] else []) ++
     (if Fs.path_exists m1 venv
      then [] else [Argv ["python"; "-m"; "venv"; venv]]))%list.
Proof.
  intros Hstart req venv m1.
  assert (forall command w0, exists b w1,
            run_command h command w0 = (Ok b, w1) /\
            trace w1 = (trace w0 ++ [Argv command])%list /\
            fs w1 = snd (execute h (Argv command) (fs w0))) as Hrun.
  { intros command w0. destruct (Hstart command (fs w0)) as (st & m' & Hexec).
    rewrite (Commands.run_command_exited _ _ _ _ _ Hexec), Hexec. cbv zeta.
    case_bool_decide; by eexists _, _. }
  set (w0 := add_log (LogRecord INFO "Setting up Python environment..." None) w).
  assert (exists w1,
    (if Fs.path_exists (fs w) req
     then run_command h ["pip"; "install"; "-r"; req] ;; ret tt
     else ret tt) w0 = (Ok tt, w1) /\
    fs w1 = m1 /\
    trace w1 = (trace w ++ if Fs.path_exists (fs w) req
                           then [Argv ["pip"; "install"; "-r"; req]]
                           else [])%list) as (w1 & Hpip & Hfs1 & Ht1).
  { subst m1. destruct (Fs.path_exists (fs w) req).
    - destruct (Hrun ["pip"; "install"; "-r"; req] w0) as (b & w1 & Hr & Ht & Hf).
      exists w1. unfold bind. rewrite Hr. by split_and!.
    - exists w0. split_and!; [done|done|]. by rewrite app_nil_r. }
  assert (exists w2,
    (m <- get_fs ;;
     if negb (Fs.path_exists m venv)
     then run_command h ["python"; "-m"; "venv"; venv] ;; ret tt
     else ret tt) w1 = (Ok tt, w2) /\
    trace w2 = (trace w1 ++ if Fs.path_exists m1 venv then []
                            else [Argv ["python"; "-m"; "venv"; venv]])%list)
    as (w2 & Hvenv & Ht2).
  { unfold bind at 1. unfold get_fs at 1. rewrite Hfs1.
    destruct (Fs.path_exists m1 venv); cbn [negb].
    - exists w1. split; [done|]. by rewrite app_nil_r.
    - destruct (Hrun ["python"; "-m"; "venv"; venv] w1) as (b & w2 & Hr & Ht & _).
      exists w2. unfold bind. rewrite Hr. by split. }
  assert (setup_python_env h w = (Ok tt, w2)) as ->.
  { unfold setup_python_env.
    rewrite (bind_ok _ _ w w0 tt) by done.
    unfold bind at 1. unfold get_self at 1.
    change (self w0) with (self w). fold req. fold venv.
    unfold bind at 1. unfold get_fs at 1. change (fs w0) with (fs w).
    rewrite (bind_ok _ _ _ _ _ Hpip). exact Hvenv. }
  split; [done|]. cbn [snd]. rewrite Ht2, Ht1. by rewrite <- List.app_assoc.
Qed.

Lemma python_env_commands_witness :
  fst (setup_python_env MoreSamples.linux_failing
         (Sample.start Sample.with_extensions Sample.linux_manager)) = Ok tt.
Proof.
  refine (proj1 (python_env_commands MoreSamples.linux_failing
    (Sample.start Sample.with_extensions Sample.linux_manager) _)).
  intros cmd m. exists 1%Z, m. reflexivity.
Defined.

Lemma setup_git_then (h : host) (w : world) :
  is_windows (self w) = false ->
  exists w1, setup_git h w = (Ok tt, w1) /\ untouched w w1.
Proof.
  intros Hwin.
  destruct (link_then h
    (PosixPath.join (dotfiles_path (self w)) ["git"; ".gitconfig"])
    (PosixPath.join (home (self w)) [".gitconfig"])
    (add_log (LogRecord INFO "Setting up Git configuration..." None) w) Hwin)
    as (w1 & Hlink & Hu).
  exists w1. split; [|exact Hu].
  unfold setup_git, bind, logger_info, emit, get_self. exact Hlink.
Qed.

Lemma link_vscode_settings_then (h : host) (w : world) :
  is_windows (self w) = false ->
  exists w1, link_vscode_settings h w = (Ok tt, w1) /\ untouched w w1.
Proof.
  intros Hwin.
  set (w0 := add_log (LogRecord INFO "Setting up VS Code..." None) w).
  destruct (link_then h
    (PosixPath.join (dotfiles_path (self w)) ["vscode"; "settings.json"])
    (PosixPath.join (vscode_config_path (self w)) ["settings.json"]) w0 Hwin)
    as (w1 & Hl1 & Hu1).
  destruct (link_then h
    (PosixPath.join (dotfiles_path (self w)) ["vscode"; "keybindings.json"])
    (PosixPath.join (vscode_config_path (self w)) ["keybindings.json"]) w1)
    as (w2 & Hl2 & Hu2); [destruct Hu1 as [-> _]; exact Hwin|].
  pose proof (untouched_trans _ _ _ Hu1 Hu2) as Hu12.
  destruct (link_then h
    (PosixPath.join (dotfiles_path (self w)) ["vscode"; "snippets"])
    (PosixPath.join (vscode_config_path (self w)) ["snippets"]) w2)
    as (w3 & Hl3 & Hu3); [destruct Hu12 as [-> _]; exact Hwin|].
  exists w3. split; [|exact (untouched_trans _ _ _ Hu12 Hu3)].
  unfold link_vscode_settings.
  rewrite (bind_ok _ _ w w0 tt) by done.
  unfold bind at 1. unfold get_self at 1. change (self w0) with (self w).
  rewrite (bind_ok _ _ _ _ _ Hl1), (bind_ok _ _ _ _ _ Hl2). exact Hl3.
Qed.

(** X18. On a host with native symbolic links the one external program
    the whole run can start is [code]: on every such machine and in
    every world, whatever [setup_all] adds to the trace is a
    [code --install-extension e] command with a non-empty, stripped [e];
    no shell is started and nothing is installed but extensions. *)
Theorem posix_run_starts_only_code (h : host) (w : world) :
  is_windows (self w) = false ->
  exists cs,
    trace (snd (setup_all h w)) = (trace w ++ cs)%list /\
    Forall (fun c => exists e, c = Argv ["code"; "--install-extension"; e] /\
                               e <> "" /\ Text.strip e = e) cs.
Proof.
  intros Hwin.
  set (w0 := add_log (LogRecord INFO
                "Starting development environment setup..." None) w).
  pose proof (keeps_makedirs untouched untouched_refl untouched_trans
                untouched_fs (dotfiles_path (self w)) true w0) as Hu1.
  unfold setup_all.
  rewrite (bind_ok _ _ w w0 tt) by done.
  unfold bind at 1. unfold get_self at 1. change (self w0) with (self w).
  unfold bind at 1.
  destruct (Os.makedirs (dotfiles_path (self w)) true w0) as [[[]|e] w1];
    cbn [snd] in Hu1.
  2: { exists []. cbn [snd]. destruct Hu1 as (_ & _ & Ht & _).
       rewrite Ht. by rewrite app_nil_r. }
  destruct (setup_git_then h w1) as (w2 & Hgit & Hu2);
    [destruct Hu1 as [-> _]; exact Hwin|].
  rewrite (bind_ok _ _ _ _ _ Hgit).
  pose proof (untouched_trans _ _ _ Hu1 Hu2) as Hu12.
  destruct (link_vscode_settings_then h w2) as (w3 & Hvs & Hu3);
    [destruct Hu12 as [-> _]; exact Hwin|].
  pose proof (untouched_trans _ _ _ Hu12 Hu3) as (_ & _ & Ht3 & _).
  destruct (CommandProps.install_extensions_clean h w3) as (cs & Hcs & Hclean).
  exists cs. split; [|exact Hclean].
  assert (setup_vscode h w2 = install_extensions h w3) as Hsv
    by (unfold setup_vscode; by rewrite (bind_ok _ _ _ _ _ Hvs)).
  unfold bind at 1. rewrite Hsv.
  destruct (install_extensions h w3) as [[[]|e] w4]; cbn [snd] in Hcs.
  - unfold bind, logger_info, emit, get_self, ret. cbn [self add_log].
    destruct (is_windows (self w4)); cbn [snd trace add_log];
      by rewrite Hcs, Ht3.
  - cbn [snd]. by rewrite Hcs, Ht3.
Qed.

Lemma posix_run_starts_only_code_witness :
  exists cs,
    trace (snd (setup_all Sample.linux_without_code
                  (Sample.start Sample.with_extensions Sample.linux_manager)))
    = ([] ++ cs)%list /\
    Forall (fun c => exists e, c = Argv ["code"; "--install-extension"; e] /\
                               e <> "" /\ Text.strip e = e) cs.
Proof.
  exact (posix_run_starts_only_code Sample.linux_without_code
    (Sample.start Sample.with_extensions Sample.linux_manager) eq_refl).
Defined.

End OtherStepProps.
